(** * Recipe matching and waste-aware ranking: a shallow embedding

  The notebooks of the pipeline are embedded stage by stage.  A pandas
  table is a [list] of records (row order is the frame's row order), a
  missing cell (NaN / None) is [None], Python floats are exact rationals
  ([Q]) and Python ints are [Z].  Library calls that are not part of the
  repository (difflib, fuzzywuzzy, numpy's generator, [float], [eval],
  sklearn) are section variables. *)

From Stdlib Require Import List ZArith QArith Qabs Lia Lqa Bool Ascii String.
From Stdlib Require Import Sorting.Sorted Sorting.Permutation.
Import ListNotations.

Local Open Scope Z_scope.
Local Open Scope string_scope.

(** Division by the constant 100 as a multiplication, for [lra]. *)
Ltac hundredths := unfold Qdiv; change (/ 100)%Q with (1 # 100)%Q.

(** ** Numbers *)

Module Num.

(** [numpy.rint]: round to the nearest integer, ties to even. *)
Definition rint (q : Q) : Z :=
  let n := Qnum q in
  let d := Zpos (Qden q) in
  let f := n / d in
  let r := n mod d in
  match 2 * r ?= d with
  | Lt => f
  | Gt => f + 1
  | Eq => if Z.even f then f else f + 1
  end.

(** [Series.round(2)] and the builtin [round(x, 2)]. *)
Definition round2 (q : Q) : Q := (inject_Z (rint (q * 100)) / 100)%Q.

(** What it means for [z] to be [q] rounded half-to-even. *)
Definition nearest_even (q : Q) (z : Z) : Prop :=
  (inject_Z z - (1 # 2) < q /\ q < inject_Z z + (1 # 2))%Q \/
  ((q == inject_Z z + (1 # 2) \/ q == inject_Z z - (1 # 2))%Q /\ Z.even z = true).

Definition sumQ (l : list Q) : Q := fold_right Qplus 0%Q l.
Definition sumZ (l : list Z) : Z := fold_right Z.add 0 l.

(** [Series.mean()] over the non-missing values handed in. *)
Definition mean (l : list Q) : Q := (sumQ l / inject_Z (Z.of_nat (List.length l)))%Q.

End Num.

(** ** Text helpers shared by the notebooks *)

Module Text.

Definition is_space (c : ascii) : bool :=
  let n := nat_of_ascii c in
  ((9 <=? n) && (n <=? 13) || (28 <=? n) && (n <=? 32))%nat.

Fixpoint lstrip (s : string) : string :=
  match s with
  | String c s' => if is_space c then lstrip s' else s
  | EmptyString => EmptyString
  end.

Fixpoint rev_string (acc s : string) : string :=
  match s with
  | EmptyString => acc
  | String c s' => rev_string (String c acc) s'
  end.

Definition rstrip (s : string) : string :=
  rev_string "" (lstrip (rev_string "" s)).

(** [str.strip()] *)
Definition strip (s : string) : string := rstrip (lstrip s).

Definition lower_ascii (c : ascii) : ascii :=
  let n := nat_of_ascii c in
  if ((65 <=? n) && (n <=? 90))%nat then ascii_of_nat (n + 32) else c.

(** [str.lower()] on ASCII text. *)
Fixpoint lower (s : string) : string :=
  match s with
  | EmptyString => EmptyString
  | String c s' => String (lower_ascii c) (lower s')
  end.

(** [Series.astype(str)]: a missing cell becomes the text [nan]. *)
Definition astype_str (o : option string) : string :=
  match o with Some s => s | None => "nan" end.

(** [.astype(str).str.strip().str.lower()] *)
Definition norm_concept (o : option string) : string :=
  lower (strip (astype_str o)).

Definition opt_eqb (a b : option string) : bool :=
  match a, b with
  | Some x, Some y => String.eqb x y
  | None, None => true
  | _, _ => false
  end.

End Text.

(** ** Frame operations (pandas) *)

Module Frame.

Section Unique.
Context {A : Type} (eqb : A -> A -> bool).

Definition mem (x : A) (l : list A) : bool := existsb (eqb x) l.

(** [Series.unique()]: first occurrences, in order. *)
Fixpoint unique_acc (seen l : list A) : list A :=
  match l with
  | [] => []
  | x :: l' =>
      if mem x seen then unique_acc seen l'
      else x :: unique_acc (x :: seen) l'
  end.

Definition unique (l : list A) : list A := unique_acc [] l.

(** [Series.nunique()] on a column whose missing cells were removed. *)
Definition nunique (l : list A) : nat := List.length (unique l).
End Unique.

(** [Series.dropna()] *)
Fixpoint dropna {A : Type} (l : list (option A)) : list A :=
  match l with
  | [] => []
  | Some x :: l' => x :: dropna l'
  | None :: l' => dropna l'
  end.

Section StableSort.
Context {A : Type} (leb : A -> A -> bool).

Fixpoint insert (x : A) (l : list A) : list A :=
  match l with
  | [] => [x]
  | y :: l' => if leb x y then x :: l else y :: insert x l'
  end.

(** A stable sort: among rows that compare equal the earlier row of
    the input stays first (the order [lexsort] leaves them in). *)
Fixpoint stable_sort (l : list A) : list A :=
  match l with
  | [] => []
  | x :: l' => insert x (stable_sort l')
  end.

(** The order a stable sort produces from an input that was already in
    the order [K]: ascending for [leb], and in the order [K] among rows
    that [leb] does not tell apart. *)
Definition sorted_then (K : A -> A -> Prop) (a b : A) : Prop :=
  leb a b = true /\ (leb b a = true -> K a b).
End StableSort.

(** Group keys of [groupby(["store", "recipe"])]. *)
Definition Key : Type := (Z * string)%type.

Definition key_eqb (a b : Key) : bool :=
  (fst a =? fst b)%Z && String.eqb (snd a) (snd b).

Definition key_leb (a b : Key) : bool :=
  match Z.compare (fst a) (fst b) with
  | Lt => true
  | Gt => false
  | Eq => String.leb (snd a) (snd b)
  end.

Section GroupBy.
Context {R K : Type} (eqb leb : K -> K -> bool) (key : R -> option K).

Definition has_key (k : K) (r : R) : bool :=
  match key r with
  | Some k' => eqb k' k
  | None => false
  end.

(** The keys of [groupby(...)] with the default [sort=True]: the distinct
  non-missing keys in ascending order. *)
Definition group_keys (rows : list R) : list K :=
  stable_sort leb (unique eqb (dropna (map key rows))).

(** One entry per key, with the rows of the group in frame order. *)
Definition groupby (rows : list R) : list (K * list R) :=
  map (fun k => (k, filter (has_key k) rows)) (group_keys rows).
End GroupBy.

(** [dict.get] / [Series.map(dict)] / a left merge against unique keys. *)
Fixpoint lookup {K V : Type} (eqb : K -> K -> bool) (k : K) (d : list (K * V)) : option V :=
  match d with
  | [] => None
  | (k', v) :: d' => if eqb k' k then Some v else lookup eqb k d'
  end.

End Frame.

(** ** Notebook 09: the Priority Scorer *)

Module PriorityScorer.

Record Product := {
  store : Z;
  article : Z;
  product_concept : option string
}.

(** A row of the waste or the markdown snapshot, after concept enrichment. *)
Record SnapshotRow := {
  snap_store : Z;
  snap_concept : option string
}.

Record Scored := {
  product : Product;
  waste_flag : Z;
  markdown_flag : Z;
  priority_score : Z
}.

(** The canonical mapping of lines 93-102. *)
Definition ontology : list (string * string) :=
  [ ("aardbeien", "strawberries"); ("strawberries", "strawberries");
    ("bananen", "banana"); ("banana", "banana");
    ("volle yoghurt", "yogurt"); ("magere yoghurt", "yogurt");
    ("roeryoghurt", "yogurt"); ("kwark aardbei", "yogurt"); ("yogurt", "yogurt");
    ("bloemenhoning", "honey"); ("mosterd honing", "honey"); ("honey", "honey");
    ("tomaten", "tomato"); ("tomatengroentesoep", "tomato"); ("tomato", "tomato");
    ("tonijn", "tuna"); ("tuna", "tuna");
    ("wolkentoetje banaan", "banana") ].

Definition map_to_ontology (text : option string) (mapping : list (string * string))
  : option string :=
  match text with
  | Some t => Frame.lookup String.eqb (Text.strip (Text.lower t)) mapping
  | None => None
  end.

(** Lines 82 and 117: the concept of a markdown row, from its product name. *)
Definition markdown_row (snap_store : Z) (unnamed_4 : option string) : SnapshotRow :=
  {| snap_store := snap_store;
     snap_concept := map_to_ontology (Some (Text.norm_concept unnamed_4)) ontology |}.

(** [df["product_concept"].dropna().unique()] *)
Definition concepts (snapshot : list SnapshotRow) : list string :=
  Frame.unique String.eqb (Frame.dropna (map snap_concept snapshot)).

(** [Series.isin(values)] for one cell, [values] holding no missing entry. *)
Definition isin (c : option string) (values : list string) : bool :=
  match c with
  | Some s => Frame.mem String.eqb s values
  | None => false
  end.

Definition flag (p : Product) (values : list string) : Z :=
  Z.b2z (isin (product_concept p) values).

Definition score (df_waste df_markdown : list SnapshotRow) (p : Product) : Scored :=
  let waste_concepts := concepts df_waste in
  let markdown_concepts := concepts df_markdown in
  let w := flag p waste_concepts in
  let m := flag p markdown_concepts in
  {| product := p; waste_flag := w; markdown_flag := m; priority_score := w + m |}.

Definition products_with_priority
    (df_products : list Product) (df_waste df_markdown : list SnapshotRow) : list Scored :=
  map (score df_waste df_markdown) df_products.

End PriorityScorer.

(** ** Notebook 20: the boosted score of a matched pair *)

Module Boost.

Record FullRow := {
  store : Z;
  recipe : string;
  ingredient : string;
  product_name : string;
  fuzzy_score : Z;
  semantic_score : Q;
  waste_flag : Z;
  markdown_flag : Z
}.

Definition WEIGHT_FUZZY : Q := 6 # 10.
Definition WEIGHT_SEMANTIC : Q := 4 # 10.
Definition PRIORITY_BONUS : Q := 5.

(** The weighted sum assigned first to [final_score]. *)
Definition weighted_sum (r : FullRow) : Q :=
  (WEIGHT_FUZZY * inject_Z (fuzzy_score r)
   + WEIGHT_SEMANTIC * 100 * semantic_score r
   + PRIORITY_BONUS * inject_Z (waste_flag r + markdown_flag r))%Q.

(** The column as the later cells read it: rounded to two decimals. *)
Definition final_score (r : FullRow) : Q := Num.round2 (weighted_sum r).

Definition with_semantic (r : FullRow) (s : Q) : FullRow :=
  {| store := store r; recipe := recipe r; ingredient := ingredient r;
     product_name := product_name r; fuzzy_score := fuzzy_score r;
     semantic_score := s; waste_flag := waste_flag r; markdown_flag := markdown_flag r |}.

Definition with_flags (r : FullRow) (w m : Z) : FullRow :=
  {| store := store r; recipe := recipe r; ingredient := ingredient r;
     product_name := product_name r; fuzzy_score := fuzzy_score r;
     semantic_score := semantic_score r; waste_flag := w; markdown_flag := m |}.

End Boost.

(** ** Notebook 17: variants of ontology concepts *)

Module Variants.

(** A Python [dict]: keys in insertion order, a repeated key keeps its
    place and takes the new value. *)
Definition Dict : Type := list (string * string).

Fixpoint dict_set (d : Dict) (k v : string) : Dict :=
  match d with
  | [] => [(k, v)]
  | (k', v') :: d' =>
      if String.eqb k' k then (k', v) :: d' else (k', v') :: dict_set d' k v
  end.

Definition dict_get (d : Dict) (k : string) : option string :=
  Frame.lookup String.eqb k d.

Definition manual_variants : list (string * list string) :=
  [ ("strawberry", ["strawberries"]);
    ("honey", ["flower honey"; "organic honey"]);
    ("tomato", ["tomatoes"; "roma tomato"]);
    ("tuna", ["canned tuna"; "tuna chunks"]) ].

(** [for concept, variants in manual_variants.items(): for alt in variants:
    variant_map[alt] = concept] *)
Definition build_variant_map (variants : list (string * list string)) : Dict :=
  fold_left
    (fun d cv => fold_left (fun d' alt => dict_set d' alt (fst cv)) (snd cv) d)
    variants [].

Definition variant_map : Dict := build_variant_map manual_variants.

(** [{v: k for k, v in variant_map.items()}] *)
Definition invert (d : Dict) : Dict :=
  fold_left (fun acc kv => dict_set acc (snd kv) (fst kv)) d [].

Definition variant_to_concept_of (vmap : Dict) : Dict := invert vmap.

Definition variant_to_concept : Dict := variant_to_concept_of variant_map.

(** [resolve_variant], over the dictionary it closes over. *)
Definition resolve_variant_in (v2c : Dict) (concept : option string) : option string :=
  match concept with
  | None => None
  | Some c =>
      match dict_get v2c c with
      | Some x => Some x
      | None => Some c
      end
  end.

Definition resolve_variant (concept : option string) : option string :=
  resolve_variant_in variant_to_concept concept.

(** [vtype = "plural" if variant.endswith("s") else "synonym"] *)
Fixpoint endswith_s (s : string) : bool :=
  match s with
  | EmptyString => false
  | String c EmptyString => Ascii.eqb c "s"%char
  | String _ s' => endswith_s s'
  end.

Definition variant_type (variant : string) : string :=
  if endswith_s variant then "plural" else "synonym".

End Variants.

(** ** Notebook 20: coverage, quality gate and ranking *)

Module Ranking.

Record RecipeRow := {
  r_recipe : string;
  r_ingredient : string
}.

Record AggRow := {
  store : Z;
  recipe : string;
  matched_ingredients : nat;
  avg_score : Q;
  n_ingredients : option nat;
  coverage : option Q
}.

Definition row_key (r : Boost.FullRow) : option Frame.Key :=
  Some (Boost.store r, Boost.recipe r).

(** [df_recipes.groupby("recipe")["ingredient"].nunique()] *)
Definition df_total_ingredients (df_recipes : list RecipeRow) : list (string * nat) :=
  map (fun g => (fst g, Frame.nunique String.eqb (map r_ingredient (snd g))))
      (Frame.groupby String.eqb String.leb (fun r => Some (r_recipe r)) df_recipes).

Definition ratio_of (m n : nat) : Q :=
  (inject_Z (Z.of_nat m) / inject_Z (Z.of_nat n))%Q.

(** One aggregated row, with the left merge of the ingredient totals and
    the coverage column. *)
Definition agg_row (totals : list (string * nat)) (g : Frame.Key * list Boost.FullRow) : AggRow :=
  let m := Frame.nunique String.eqb (map Boost.ingredient (snd g)) in
  let n := Frame.lookup String.eqb (snd (fst g)) totals in
  {| store := fst (fst g);
     recipe := snd (fst g);
     matched_ingredients := m;
     avg_score := Num.mean (map Boost.final_score (snd g));
     n_ingredients := n;
     coverage := option_map (ratio_of m) n |}.

Definition df_agg (df_full : list Boost.FullRow) (df_recipes : list RecipeRow) : list AggRow :=
  map (agg_row (df_total_ingredients df_recipes))
      (Frame.groupby Frame.key_eqb Frame.key_leb row_key df_full).

Definition min_avg_score : Q := 40.

(** [(coverage == 1.0) & (avg_score >= min_avg_score)] *)
Definition keep (a : AggRow) : bool :=
  match coverage a with
  | Some c => Qeq_bool c 1 && Qle_bool min_avg_score (avg_score a)
  | None => false
  end.

(** [sort_values(["store", "avg_score"], ascending=[True, False])] *)
Definition rank_leb (a b : AggRow) : bool :=
  match Z.compare (store a) (store b) with
  | Lt => true
  | Gt => false
  | Eq => Qle_bool (avg_score b) (avg_score a)
  end.

Definition df_ranked (df_full : list Boost.FullRow) (df_recipes : list RecipeRow) : list AggRow :=
  Frame.stable_sort rank_leb (filter keep (df_agg df_full df_recipes)).

(** The order the ranked table is claimed to be in: store ascending, then
    score descending, then recipe name ascending. *)
Definition ranked_before (a b : AggRow) : Prop :=
  (store a < store b)%Z \/
  (store a = store b /\
   ((avg_score b < avg_score a)%Q \/
    ((avg_score a == avg_score b)%Q /\ String.ltb (recipe a) (recipe b) = true))).

(** Some matched product of the pair carries a waste or a markdown flag. *)
Definition relevant (df_full : list Boost.FullRow) (s : Z) (r : string) : Prop :=
  exists row, In row df_full /\ Boost.store row = s /\ Boost.recipe row = r /\
              (Boost.waste_flag row = 1 \/ Boost.markdown_flag row = 1)%Z.

End Ranking.

(** ** Notebook 10: store-level meal boxes *)

Module MealBoxes.

(** [store_recipe_matches.csv] with the recipe column of lines 60-62. *)
Record MatchRow := {
  store : Z;
  ingredient : string;
  ingredient_concept : option string;
  match_available : bool;
  recipe : option string
}.

Record ProductRow := {
  p_store : Z;
  p_article : Z;
  p_concept : option string;
  priority_score : Z;
  waste_flag : Z;
  markdown_flag : Z
}.

Definition is_some {A : Type} (o : option A) : bool :=
  match o with Some _ => true | None => false end.

Definition match_key (m : MatchRow) : option Frame.Key :=
  option_map (fun r => (store m, r)) (recipe m).

(** [df_matches.groupby("recipe")["ingredient"].nunique().to_dict()] *)
Definition ingredients_per_recipe (df_matches : list MatchRow) : list (string * nat) :=
  map (fun g => (fst g, Frame.nunique String.eqb (map ingredient (snd g))))
      (Frame.groupby String.eqb String.leb recipe df_matches).

Definition df_available (df_matches : list MatchRow) : list MatchRow :=
  filter match_available df_matches.

(** [grouped]: per (store, recipe) the number of distinct available ingredients. *)
Definition grouped (df_matches : list MatchRow) : list (Frame.Key * nat) :=
  map (fun g => (fst g, Frame.nunique String.eqb (map ingredient (snd g))))
      (Frame.groupby Frame.key_eqb Frame.key_leb match_key (df_available df_matches)).

Definition complete (df_matches : list MatchRow) (g : Frame.Key * nat) : bool :=
  match Frame.lookup String.eqb (snd (fst g)) (ingredients_per_recipe df_matches) with
  | Some total_required => Nat.eqb (snd g) total_required
  | None => false
  end.

Definition df_complete (df_matches : list MatchRow) : list Frame.Key :=
  map fst (filter (complete df_matches) (grouped df_matches)).

(** [df_products[[...]].dropna()] *)
Definition df_products_subset (df_products : list ProductRow) : list ProductRow :=
  filter (fun p => is_some (p_concept p)) df_products.

Record Enriched := {
  e_store : Z;
  e_recipe : string;
  e_match : option MatchRow;
  e_product : option ProductRow
}.

(** A left merge: every left row once per matching right row, or once
    with missing right cells. *)
Definition left_merge {L R' : Type} (on : L -> R' -> bool) (left : list L) (right : list R')
  : list (L * option R') :=
  flat_map (fun l =>
              match filter (on l) right with
              | [] => [(l, None)]
              | rs => map (fun r => (l, Some r)) rs
              end) left.

Definition on_store_recipe (k : Frame.Key) (m : MatchRow) : bool :=
  Frame.has_key Frame.key_eqb match_key k m.

Definition on_store_concept (km : Frame.Key * option MatchRow) (p : ProductRow) : bool :=
  match snd km with
  | Some m => (store m =? p_store p)%Z && Text.opt_eqb (ingredient_concept m) (p_concept p)
  | None => false
  end.

Definition df_enriched_all (df_products : list ProductRow) (df_matches : list MatchRow) : list Enriched :=
  map (fun x => {| e_store := fst (fst (fst x)); e_recipe := snd (fst (fst x));
                   e_match := snd (fst x); e_product := snd x |})
      (left_merge on_store_concept
         (left_merge on_store_recipe (df_complete df_matches) df_matches)
         (df_products_subset df_products)).

(** [df_enriched[["waste_flag", "markdown_flag"]].sum(axis=1)], missing cells skipped. *)
Definition flagged (e : Enriched) : Z :=
  match e_product e with
  | Some p => waste_flag p + markdown_flag p
  | None => 0
  end.

Definition df_enriched (df_products : list ProductRow) (df_matches : list MatchRow) : list Enriched :=
  filter (fun e => (0 <? flagged e)%Z) (df_enriched_all df_products df_matches).

Record Box := {
  b_store : Z;
  b_recipe : string;
  avg_priority : Q
}.

Definition priorities (rows : list Enriched) : list Q :=
  map (fun p => inject_Z (priority_score p)) (Frame.dropna (map e_product rows)).

Definition box_priority_unsorted (df_products : list ProductRow) (df_matches : list MatchRow) : list Box :=
  map (fun g => {| b_store := fst (fst g); b_recipe := snd (fst g);
                   avg_priority := Num.mean (priorities (snd g)) |})
      (Frame.groupby Frame.key_eqb Frame.key_leb
         (fun e => Some (e_store e, e_recipe e)) (df_enriched df_products df_matches)).

(** [sort_values(["store", "avg_priority"], ascending=[True, False])] *)
Definition box_leb (a b : Box) : bool :=
  match Z.compare (b_store a) (b_store b) with
  | Lt => true
  | Gt => false
  | Eq => Qle_bool (avg_priority b) (avg_priority a)
  end.

Definition box_priority (df_products : list ProductRow) (df_matches : list MatchRow) : list Box :=
  Frame.stable_sort box_leb (box_priority_unsorted df_products df_matches).

Definition box_before (a b : Box) : Prop :=
  (b_store a < b_store b)%Z \/
  (b_store a = b_store b /\
   ((avg_priority b < avg_priority a)%Q \/
    ((avg_priority a == avg_priority b)%Q /\ String.ltb (b_recipe a) (b_recipe b) = true))).

End MealBoxes.

(** ** The waste snapshot *)

Module Waste.

(** A row of [waste_with_concept.csv] whose store and numeric cells are
    present (a row missing one of them is dropped on line 120 of notebook
    14 and adds nothing to a sum). *)
Record WasteRow := {
  Store : Z;
  product_concept : option string;
  items_wasted : Z;
  value_wasted : Q
}.

Definition in_store (s : Z) (w : WasteRow) : bool := (Store w =? s)%Z.

(** Everything the snapshot records as wasted in one store. *)
Definition total_items (df_waste : list WasteRow) (s : Z) : Z :=
  Num.sumZ (map items_wasted (filter (in_store s) df_waste)).

Definition total_value (df_waste : list WasteRow) (s : Z) : Q :=
  Num.sumQ (map value_wasted (filter (in_store s) df_waste)).

Definition nonneg (w : WasteRow) : Prop :=
  (0 <= items_wasted w)%Z /\ (0 <= value_wasted w)%Q.

End Waste.

(** ** Notebook 14: waste reduction of the deployed plan *)

Module WasteSimulator.

(** [store_mealbox_ranked.csv]; the ingredient list is read back as text,
    which [explode] leaves as it is. *)
Record RankedRow := {
  store : Z;
  recipe : string;
  ingredients : option string
}.

Definition ingredient_concept (r : RankedRow) : option string :=
  option_map (fun s => Text.lower (Text.strip s)) (ingredients r).

(** [df_ranked.explode("ingredients").dropna()] *)
Definition df_ranked_exploded (df_ranked : list RankedRow) : list RankedRow :=
  filter (fun r => MealBoxes.is_some (ingredients r)) df_ranked.

Definition store_leb (a b : Z) : bool := (a <=? b)%Z.

(** [groupby("store")["ingredient_concept"].apply(set)] *)
Definition concepts_per_store (df_ranked : list RankedRow) : list (Z * list string) :=
  map (fun g => (fst g, Frame.unique String.eqb (Frame.dropna (map ingredient_concept (snd g)))))
      (Frame.groupby Z.eqb store_leb (fun r => Some (store r)) (df_ranked_exploded df_ranked)).

(** The waste rows with the concept column normalised (line 117). *)
Record ValidRow := {
  v_store : Z;
  v_concept : string;
  v_items : Z;
  v_value : Q
}.

Definition df_waste_valid (df_waste : list Waste.WasteRow) : list ValidRow :=
  map (fun w => {| v_store := Waste.Store w;
                   v_concept := Text.norm_concept (Waste.product_concept w);
                   v_items := Waste.items_wasted w;
                   v_value := Waste.value_wasted w |}) df_waste.

(** [row["product_concept"] in row["deployed_concepts"]] when the left
    merge found a set for the store, [False] otherwise. *)
Definition covered (deployed : list (Z * list string)) (v : ValidRow) : bool :=
  match Frame.lookup Z.eqb (v_store v) deployed with
  | Some concepts => Frame.mem String.eqb (v_concept v) concepts
  | None => false
  end.

Definition df_covered (df_ranked : list RankedRow) (df_waste : list Waste.WasteRow) : list ValidRow :=
  filter (covered (concepts_per_store df_ranked)) (df_waste_valid df_waste).

Record Saving := {
  s_store : Z;
  s_concept : string;
  items_saved : Z;
  value_saved : Q
}.

Definition df_savings (df_ranked : list RankedRow) (df_waste : list Waste.WasteRow) : list Saving :=
  map (fun g => {| s_store := fst (fst g); s_concept := snd (fst g);
                   items_saved := Num.sumZ (map v_items (snd g));
                   value_saved := Num.sumQ (map v_value (snd g)) |})
      (Frame.groupby Frame.key_eqb Frame.key_leb
         (fun v => Some (v_store v, v_concept v)) (df_covered df_ranked df_waste)).

Record Total := {
  t_store : Z;
  total_items_saved : Z;
  total_value_saved : Q
}.

Definition df_totals (df_ranked : list RankedRow) (df_waste : list Waste.WasteRow) : list Total :=
  map (fun g => {| t_store := fst g;
                   total_items_saved := Num.sumZ (map items_saved (snd g));
                   total_value_saved := Num.sumQ (map value_saved (snd g)) |})
      (Frame.groupby Z.eqb store_leb (fun s => Some (s_store s)) (df_savings df_ranked df_waste)).

End WasteSimulator.

(** ** Notebooks 25 and 26: the random-matching baseline *)

Module RandomBaseline.

Record Recipe := {
  row_id : Z;
  ingredient : option string;
  recipe : string
}.

Record Product := {
  store : Z;
  article : Z;
  product_name_clean : option string;
  product_concept : option string
}.

(** A row of [recipe_store_ranked.csv], as far as the baseline reads it. *)
Record StoreRecipe := {
  sr_store : Z;
  sr_recipe : string
}.

Record StoreIngredient := {
  si_store : Z;
  si_recipe : string;
  si_row_id : option Z;
  si_ingredient : option string
}.

Record RandomMatch := {
  m_row_id : option Z;
  m_ingredient : option string;
  m_recipe : string;
  m_store : Z;
  product_article : Z;
  product_name : option string;
  m_product_concept : option string;
  match_source : string
}.

Definition str_norm (o : option string) : option string :=
  option_map (fun s => Text.lower (Text.strip s)) o.

(** Lines 505-506: [.str.strip().str.lower()] on the two text columns. *)
Definition normalise_recipes (recipes : list Recipe) : list Recipe :=
  map (fun r => {| row_id := row_id r; ingredient := str_norm (ingredient r);
                   recipe := recipe r |}) recipes.

Definition normalise_products (products : list Product) : list Product :=
  map (fun p => {| store := store p; article := article p;
                   product_name_clean := product_name_clean p;
                   product_concept := str_norm (product_concept p) |}) products.

(** [store_recipes.merge(recipes[["row_id", "ingredient", "recipe"]], on="recipe", how="left")] *)
Definition store_ingredients (store_recipes : list StoreRecipe) (recipes : list Recipe)
  : list StoreIngredient :=
  map (fun x => {| si_store := sr_store (fst x); si_recipe := sr_recipe (fst x);
                   si_row_id := option_map row_id (snd x);
                   si_ingredient := match snd x with Some r => ingredient r | None => None end |})
      (MealBoxes.left_merge (fun sr r => String.eqb (sr_recipe sr) (recipe r)) store_recipes recipes).

Section Generator.

(** numpy's generator: a state, seeding, and the draw of one index below
    [n] (which also advances the state). *)
Context {RngState : Type}.
Variable seed_state : Z -> RngState.
Variable choice : RngState -> nat -> nat * RngState.

(** [DataFrame.sample(1, random_state=rs).iloc[0]] on a frame with first
    row [d]: with a seed the draw comes from a fresh generator and the
    global state [g] is left alone, without one it comes from [g]. *)
Definition sample1 {A : Type} (random_state : option Z) (g : RngState) (d : A) (df : list A)
  : A * RngState :=
  match random_state with
  | Some s => (nth (fst (choice (seed_state s) (List.length df))) df d, g)
  | None => let ig := choice g (List.length df) in (nth (fst ig) df d, snd ig)
  end.

(** The loop of lines 648-674; [g] is numpy's global generator state when
    the cell starts. *)
Fixpoint random_matches (g : RngState) (rows : list StoreIngredient) (products : list Product)
  : list RandomMatch * RngState :=
  match rows with
  | [] => ([], g)
  | row :: rest =>
      let available := filter (fun p => (store p =? si_store row)%Z) products in
      match available with
      | [] => random_matches g rest products
      | d :: _ =>
          let sg := sample1 (Some 42) g d available in
          let sampled := fst sg in
          let m := {| m_row_id := si_row_id row;
                      m_ingredient := si_ingredient row;
                      m_recipe := si_recipe row;
                      m_store := si_store row;
                      product_article := article sampled;
                      product_name := product_name_clean sampled;
                      m_product_concept := product_concept sampled;
                      match_source := "random" |} in
          let out := random_matches (snd sg) rest products in
          (m :: fst out, snd out)
      end
  end.

(** The product every draw in store [s] returns: the draw of a generator
    freshly seeded with 42 from the products of the store. *)
Definition store_draw (products : list Product) (s : Z) : option Product :=
  match filter (fun p => (store p =? s)%Z) products with
  | [] => None
  | d :: rest =>
      Some (nth (fst (choice (seed_state 42) (List.length (d :: rest)))) (d :: rest) d)
  end.

Definition df_random (g : RngState) (store_recipes : list StoreRecipe)
    (recipes : list Recipe) (products : list Product) : list RandomMatch :=
  fst (random_matches g
         (store_ingredients store_recipes (normalise_recipes recipes))
         (normalise_products products)).

End Generator.

(** *** Notebook 26: waste covered by the random matches

    The match table carries the recipe column the generator wrote; the
    cells after the assertion of line 109 key on that column. *)

Definition pair_eqb (a b : StoreRecipe) : bool :=
  (sr_store a =? sr_store b)%Z && String.eqb (sr_recipe a) (sr_recipe b).

(** [df_ranked[["store", "recipe"]].drop_duplicates()] *)
Definition deployable_pairs (df_ranked : list StoreRecipe) : list StoreRecipe :=
  Frame.unique pair_eqb df_ranked.

(** An inner merge: every left row once per matching right row. *)
Definition inner_merge {L R' : Type} (on : L -> R' -> bool) (left : list L) (right : list R')
  : list (L * R') :=
  flat_map (fun l => map (fun r => (l, r)) (filter (on l) right)) left.

Record Deployed := {
  d_store : Z;
  d_recipe : string;
  d_concept : string
}.

(** Lines 129 and 134: the concept column normalised, then the inner merge
    with the deployable pairs. *)
Definition df_deployed (df_matches : list RandomMatch) (df_ranked : list StoreRecipe) : list Deployed :=
  map (fun x => {| d_store := m_store (fst x); d_recipe := m_recipe (fst x);
                   d_concept := Text.norm_concept (m_product_concept (fst x)) |})
      (inner_merge (fun m p => (m_store m =? sr_store p)%Z && String.eqb (m_recipe m) (sr_recipe p))
                   df_matches (deployable_pairs df_ranked)).

Record Simulated := {
  sim_store : Z;
  sim_concept : string;
  sim_items : Z;
  sim_value : Q;
  sim_recipe : string
}.

(** Lines 250-255: [df_waste.merge(df_deployed, left_on=["Store",
    "product_concept"], right_on=["store", "product_concept"], how="inner")] *)
Definition df_simulated (df_waste : list Waste.WasteRow) (deployed : list Deployed) : list Simulated :=
  map (fun x => {| sim_store := d_store (snd x);
                   sim_concept := d_concept (snd x);
                   sim_items := Waste.items_wasted (fst x);
                   sim_value := Waste.value_wasted (fst x);
                   sim_recipe := d_recipe (snd x) |})
      (inner_merge (fun w d => (Waste.Store w =? d_store d)%Z &&
                               String.eqb (Text.norm_concept (Waste.product_concept w)) (d_concept d))
                   df_waste deployed).

Record Impact := {
  i_store : Z;
  items_wasted : Z;
  value_wasted : Q
}.

(** Lines 386-389: [groupby("store").agg({"items_wasted": "sum", "value_wasted": "sum"})] *)
Definition df_impact (simulated : list Simulated) : list Impact :=
  map (fun g => {| i_store := fst g;
                   items_wasted := Num.sumZ (map sim_items (snd g));
                   value_wasted := Num.sumQ (map sim_value (snd g)) |})
      (Frame.groupby Z.eqb WasteSimulator.store_leb (fun s => Some (sim_store s)) simulated).

Definition waste_impact (df_matches : list RandomMatch) (df_ranked : list StoreRecipe)
    (df_waste : list Waste.WasteRow) : list Impact :=
  df_impact (df_simulated df_waste (df_deployed df_matches df_ranked)).

(** Both notebooks in sequence, from numpy's global state [g]. *)
Definition waste_impact_random {RngState : Type}
    (seed_state : Z -> RngState) (choice : RngState -> nat -> nat * RngState)
    (g : RngState) (df_ranked : list StoreRecipe) (recipes : list Recipe)
    (products : list Product) (df_waste : list Waste.WasteRow) : list Impact :=
  waste_impact (df_random seed_state choice g df_ranked recipes products) df_ranked df_waste.

(** A small linear congruential generator, to run the cells on examples. *)
Definition lcg_seed (s : Z) : Z := s.

Definition lcg_choice (st : Z) (n : nat) : nat * Z :=
  let st' := ((st * 1103515245 + 12345) mod 2147483648)%Z in
  (Z.to_nat (st' mod Z.of_nat n), st').

End RandomBaseline.

(** ** Notebook 22: the fuzzy concept matrix *)

Module FuzzyMatrix.

Record RecipeRow := {
  row_id : Z;
  recipe : string;
  ingredient_concept : option string
}.

Record StoreProduct := {
  store : Z;
  product_article : Z;
  product_name : string;
  product_concept : option string
}.

Record Match := {
  m_row_id : Z;
  m_recipe : string;
  m_ingredient : string;
  m_store : Z;
  m_product_article : Z;
  m_product_name : string;
  m_product_concept : string;
  fuzzy_score : Q
}.

(** Lines 131-132: [dropna(subset=["ingredient_concept"])], then strip and lower. *)
Definition normalise_recipes (df_recipes : list RecipeRow) : list (Z * string * string) :=
  flat_map (fun r => match ingredient_concept r with
                     | Some c => [(row_id r, recipe r, Text.lower (Text.strip c))]
                     | None => []
                     end) df_recipes.

Definition product_eqb (a b : StoreProduct) : bool :=
  (store a =? store b)%Z && (product_article a =? product_article b)%Z &&
  String.eqb (product_name a) (product_name b) &&
  Text.opt_eqb (product_concept a) (product_concept b).

(** Lines 106-107: the distinct (store, article, name, concept) rows
    ([drop_duplicates]) whose concept is present. *)
Definition df_store_products (products : list StoreProduct) : list (StoreProduct * string) :=
  flat_map (fun p => match product_concept p with
                     | Some c => [(p, c)]
                     | None => []
                     end) (Frame.unique product_eqb products).

Section Matcher.

(** [difflib.SequenceMatcher(None, a, b).ratio()] *)
Variable ratio : string -> string -> Q.

Definition fuzzy_similarity (a b : string) : Q := ratio a b.

(** The candidate of one (ingredient, product) pair: kept when the
    similarity exceeds 0.5, scored [round(score * 100, 2)]. *)
Definition candidate (r : Z * string * string) (p : StoreProduct * string) : list Match :=
  let score := fuzzy_similarity (snd r) (snd p) in
  if Qle_bool score (1 # 2) then []
  else [ {| m_row_id := fst (fst r); m_recipe := snd (fst r); m_ingredient := snd r;
            m_store := store (fst p); m_product_article := product_article (fst p);
            m_product_name := product_name (fst p); m_product_concept := snd p;
            fuzzy_score := Num.round2 (score * 100) |} ].

(** The loop of lines 187-206. *)
Definition matches (df_recipes : list RecipeRow) (products : list StoreProduct) : list Match :=
  flat_map (fun r => flat_map (candidate r) (df_store_products products))
           (normalise_recipes df_recipes).

End Matcher.

(** A stand-in for the similarity on examples: 1 on equal texts, 0 otherwise. *)
Definition ratio_eq (a b : string) : Q := if String.eqb a b then 1 else 0.

End FuzzyMatrix.

(** ** Notebook 19: score and filter the candidates *)

Module ScoreFilter.

Record Candidate := {
  row_id : Z;
  store : Z;
  ingredient : option string;
  ingredient_concept : option string;
  product_name : option string;
  product_concept : option string;
  match_type : string
}.

Record ScoredRow := {
  cand : Candidate;
  fuzzy_score : Z
}.

Section Scorer.

(** [fuzzywuzzy.fuzz.token_set_ratio] *)
Variable token_set_ratio : string -> string -> Z.

Definition compute_fuzzy_score (row : Candidate) : Z :=
  match ingredient row, product_name row with
  | Some name_ingredient, Some name_product => token_set_ratio name_ingredient name_product
  | _, _ => 0
  end.

Definition score_all (df_matches : list Candidate) : list ScoredRow :=
  map (fun c => {| cand := c; fuzzy_score := compute_fuzzy_score c |}) df_matches.

End Scorer.

Definition threshold : Z := 60.

Definition df_filtered (scored : list ScoredRow) : list ScoredRow :=
  filter (fun r => (threshold <=? fuzzy_score r)%Z) scored.

(** [sort_values("fuzzy_score", ascending=False)] *)
Definition score_desc (a b : ScoredRow) : bool := (fuzzy_score b <=? fuzzy_score a)%Z.

Definition same_group (a b : ScoredRow) : bool :=
  (row_id (cand a) =? row_id (cand b))%Z && (store (cand a) =? store (cand b))%Z.

(** [drop_duplicates(subset=["row_id", "store"])]: the first row of each group. *)
Definition drop_duplicates (rows : list ScoredRow) : list ScoredRow :=
  Frame.unique same_group rows.

Definition df_top (scored : list ScoredRow) : list ScoredRow :=
  drop_duplicates (Frame.stable_sort score_desc (df_filtered scored)).

(** The candidate pairs an ingredient concept with a product of that very concept. *)
Definition exact_concept (c : Candidate) : Prop :=
  exists k, ingredient_concept c = Some k /\ product_concept c = Some k.

End ScoreFilter.

(** ** Notebooks 05 and 20: serialised embeddings *)

Module Embedding.

Inductive exn := ValueError | TypeError | SyntaxError | OtherError.

Inductive result (A : Type) :=
| Ok (a : A)
| Raise (e : exn).
Arguments Ok {A} a.
Arguments Raise {A} e.

Definition bind {A B : Type} (r : result A) (k : A -> result B) : result B :=
  match r with
  | Ok a => k a
  | Raise e => Raise e
  end.

Notation "x <- r ;; k" := (bind r (fun x => k))
  (at level 61, r at next level, right associativity).

(** [try: body except: handler] *)
Definition try_except {A : Type} (body : result A) (handler : A) : A :=
  match body with
  | Ok a => a
  | Raise _ => handler
  end.

(** [re.sub(r'\s+', ',', s)]: every run of whitespace becomes one comma. *)
Fixpoint sub_ws (in_run : bool) (s : string) : string :=
  match s with
  | EmptyString => EmptyString
  | String c s' =>
      if Text.is_space c
      then (if in_run then sub_ws true s' else String ","%char (sub_ws true s'))
      else String c (sub_ws false s')
  end.

Definition is_bracket (c : ascii) : bool :=
  Ascii.eqb c "["%char || Ascii.eqb c "]"%char.

Fixpoint lstrip_brackets (s : string) : string :=
  match s with
  | String c s' => if is_bracket c then lstrip_brackets s' else s
  | EmptyString => EmptyString
  end.

(** [s.strip("[]")] *)
Definition strip_brackets (s : string) : string :=
  Text.rev_string "" (lstrip_brackets (Text.rev_string "" (lstrip_brackets s))).

(** [s.split(",")] *)
Fixpoint split_comma (cur : string) (s : string) : list string :=
  match s with
  | EmptyString => [Text.rev_string "" cur]
  | String c s' =>
      if Ascii.eqb c ","%char then Text.rev_string "" cur :: split_comma "" s'
      else split_comma (String c cur) s'
  end.

Definition tokens (s : string) : list string :=
  split_comma "" (strip_brackets (sub_ws false (Text.strip s))).

Section Parser.

(** Python floats and the builtin [float(text)], [None] for a [ValueError]. *)
Context {F : Type}.
Variable zero : F.
Variable py_float : string -> option F.

(** A cell of an embedding column, before and after the fix. *)
Inductive cell :=
| Str (s : string)
| NaN
| FloatList (l : list F)
| Array (l : list F).

Fixpoint map_float (l : list string) : result (list F) :=
  match l with
  | [] => Ok []
  | t :: l' =>
      match py_float t with
      | Some x => xs <- map_float l' ;; Ok (x :: xs)
      | None => Raise ValueError
      end
  end.

(** [np.zeros(384)] *)
Definition zeros : cell := Array (repeat zero 384).

Definition fix_embedding_string (s : cell) : result cell :=
  match s with
  | Str text =>
      Ok (try_except (l <- map_float (tokens text) ;; Ok (FloatList l)) zeros)
  | other => Ok other
  end.

(** [eval(text)] and sklearn's [cosine_similarity([a], [b])[0][0]];
    a similarity of [None] is NaN. *)
Variable py_eval : option string -> result cell.
Variable cosine_similarity : cell -> cell -> result (option Q).

Record Row := {
  ingredient_embedding : option string;
  product_embedding : option string
}.

Definition compute_semantic_similarity (row : Row) : result (option Q) :=
  Ok (try_except
        (emb_ingredient <- py_eval (ingredient_embedding row) ;;
         emb_product <- py_eval (product_embedding row) ;;
         cosine_similarity emb_ingredient emb_product)
        None).

(** [Series.fillna(0)] *)
Definition fillna0 (x : option Q) : Q :=
  match x with Some q => q | None => 0 end.

(** The [semantic_score] column: [apply] stops at the first row that
    raises, otherwise every cell is filled. *)
Fixpoint semantic_scores (df_full : list Row) : result (list Q) :=
  match df_full with
  | [] => Ok []
  | row :: rest =>
      sim <- compute_semantic_similarity row ;;
      sims <- semantic_scores rest ;;
      Ok (fillna0 sim :: sims)
  end.

End Parser.

(** A decimal reader used on examples: digits with an optional sign. *)
Fixpoint digits (acc : Z) (s : string) : option Z :=
  match s with
  | EmptyString => Some acc
  | String c s' =>
      let n := nat_of_ascii c in
      if ((48 <=? n) && (n <=? 57))%nat
      then digits (10 * acc + Z.of_nat (n - 48)) s'
      else None
  end.

Definition int_float (s : string) : option Q :=
  match s with
  | EmptyString => None
  | String "-"%char (String c s') => option_map (fun z => inject_Z (- z)) (digits 0 (String c s'))
  | _ => option_map inject_Z (digits 0 s)
  end.

End Embedding.

(** ** Notebook 04: text normalisation *)

Module Normalise.

(** Membership in [string.punctuation]. *)
Definition is_punct (c : ascii) : bool :=
  let n := nat_of_ascii c in
  ((33 <=? n) && (n <=? 47) || (58 <=? n) && (n <=? 64) ||
   (91 <=? n) && (n <=? 96) || (123 <=? n) && (n <=? 126))%nat.

(** [text.translate(str.maketrans("", "", string.punctuation))] *)
Fixpoint remove_punct (s : string) : string :=
  match s with
  | EmptyString => EmptyString
  | String c s' => if is_punct c then remove_punct s' else String c (remove_punct s')
  end.

(** [re.sub(r"\s+", " ", text)]: every run of whitespace becomes one blank. *)
Fixpoint collapse (in_run : bool) (s : string) : string :=
  match s with
  | EmptyString => EmptyString
  | String c s' =>
      if Text.is_space c
      then (if in_run then collapse true s' else String " "%char (collapse true s'))
      else String c (collapse false s')
  end.

Definition normalize (text : option string) : string :=
  match text with
  | Some t => Text.strip (collapse false (remove_punct (Text.lower t)))
  | None => ""
  end.

(** The offline translation table of lines 414-422. *)
Definition translation_dict : list (string * string) :=
  [ ("roomyoghurt straciatella", "creamy yogurt stracciatella");
    ("frikandelbroodje broodje", "frikandel roll");
    ("sla melange", "lettuce mix");
    ("hamkaas croissant croissant", "ham cheese croissant");
    ("piccalilly", "piccalilly") ].

(** [translation_dict.get(text, text)] *)
Definition translate_to_english (text : string) : string :=
  match Frame.lookup String.eqb text translation_dict with
  | Some t => t
  | None => text
  end.

(** The shape of a normalised text: no punctuation and no upper-case
    letter, blanks as the only whitespace and never two in a row, and no
    whitespace at either end. *)
Fixpoint all_chars (p : ascii -> bool) (s : string) : bool :=
  match s with
  | EmptyString => true
  | String c s' => p c && all_chars p s'
  end.

Fixpoint spaced (after_space : bool) (s : string) : bool :=
  match s with
  | EmptyString => true
  | String c s' =>
      if Text.is_space c
      then negb after_space && Ascii.eqb c " "%char && spaced true s'
      else spaced false s'
  end.

Definition plain (c : ascii) : bool :=
  negb (is_punct c) && Ascii.eqb (Text.lower_ascii c) c.

Definition normal_form (s : string) : Prop :=
  all_chars plain s = true /\ spaced false s = true /\ Text.strip s = s.

End Normalise.

(** ** Vector texts, as an embedding column holds them *)

Module EmbeddingText.

(** A character that can stand inside one component of a vector text. *)
Definition component_char (c : ascii) : bool :=
  negb (Text.is_space c) && negb (Ascii.eqb c ","%char) && negb (Embedding.is_bracket c).

Definition component (t : string) : Prop :=
  t <> "" /\ Normalise.all_chars component_char t = true.

(** The components between brackets, one blank between neighbours and
    none after the opening bracket. *)
Definition vector_text (components : list string) : string :=
  ("[" ++ String.concat " " components ++ "]")%string.

End EmbeddingText.

(** ** Notebook 05: the score of the matching baselines *)

Module Baselines.

(** [precision_at_k(true, predictions, k=5)]; a prediction list may hold
    missing names, which equal no text. *)
Definition precision_at_k (true_match : option string) (predictions : list (option string))
    (k : nat) : Q :=
  match true_match with
  | None => 0
  | Some t =>
      match predictions with
      | [] => 0
      | _ => if Frame.mem Text.opt_eqb (Some t) (firstn k predictions) then 1 else 0
      end
  end.

Record MatchesRow := {
  true_match : option string;
  fuzzy_top5 : list (option string);
  semantic_top5 : list (option string)
}.

(** [matches_df.apply(lambda row: precision_at_k(row["true_match"], row[col]), axis=1).mean()] *)
Definition mean_precision (col : MatchesRow -> list (option string))
    (matches_df : list MatchesRow) : Q :=
  Num.mean (map (fun row => precision_at_k (true_match row) (col row) 5) matches_df).

End Baselines.

(** ** Notebook 07: store-level concept matching *)

Module ConceptMatch.

(** A product row that passed the filter of lines 184-190: its store,
    article and concept are present. *)
Record Filtered := {
  store : Z;
  article : Z;
  product_concept : string
}.

Record RecipeRow := {
  ingredient : option string;
  ingredient_concept : option string
}.

(** [groupby("store")["product_concept"].apply(lambda x: set(x.dropna().unique())).to_dict()] *)
Definition store_concept_lookup (df_filtered : list Filtered) : list (Z * list string) :=
  map (fun g => (fst g, Frame.unique String.eqb (map product_concept (snd g))))
      (Frame.groupby Z.eqb WasteSimulator.store_leb (fun p => Some (store p)) df_filtered).

(** [not ingr_concept]: true for the empty text, false for any other text
    and for a missing cell (NaN is truthy). *)
Definition falsy (c : option string) : bool :=
  match c with
  | Some EmptyString => true
  | _ => false
  end.

(** [ingr_concept in concepts] *)
Definition in_concepts (c : option string) (concepts : list string) : bool :=
  match c with
  | Some k => Frame.mem String.eqb k concepts
  | None => false
  end.

Record Result := {
  r_store : Z;
  r_ingredient : option string;
  r_ingredient_concept : option string;
  match_available : bool
}.

(** The loop of lines 311-332. *)
Definition results (df_recipes : list RecipeRow) (lookup : list (Z * list string)) : list Result :=
  flat_map (fun row =>
              if falsy (ingredient_concept row) then []
              else map (fun sc => {| r_store := fst sc;
                                     r_ingredient := ingredient row;
                                     r_ingredient_concept := ingredient_concept row;
                                     match_available := in_concepts (ingredient_concept row) (snd sc) |})
                       lookup) df_recipes.

Definition df_matches (df_recipes : list RecipeRow) (df_filtered : list Filtered) : list Result :=
  results df_recipes (store_concept_lookup df_filtered).

End ConceptMatch.

(** ** Notebook 16: the ontology update *)

Module OntologyUpdate.

Record OntologyRow := {
  raw_term : string;
  concept : option string
}.

(** [pd.concat([...]).dropna()] *)
Definition all_terms (ingredient_concepts product_concepts : list (option string))
  : list string :=
  Frame.dropna (ingredient_concepts ++ product_concepts)%list.

(** [Series.value_counts()]: every distinct term with the number of its
    occurrences (the cells below read the counts through a filter and a
    set, so the order of the entries plays no role). *)
Definition value_counts (terms : list string) : list (string * nat) :=
  map (fun t => (t, List.length (filter (String.eqb t) terms)))
      (Frame.unique String.eqb terms).

(** [term_counts[term_counts <= 2].index.tolist()] *)
Definition rare_terms (term_counts : list (string * nat)) : list string :=
  map fst (filter (fun tc => (snd tc <=? 2)%nat) term_counts).

(** [set(df_ontology["raw_term"]).intersection(rare_terms)] *)
Definition candidates (df_ontology : list OntologyRow) (rare : list string) : list string :=
  filter (fun t => Frame.mem String.eqb t rare)
         (Frame.unique String.eqb (map raw_term df_ontology)).

(** [df_ontology[df_ontology["raw_term"].isin(candidates)]] *)
Definition df_candidates (df_ontology : list OntologyRow) (cands : list string)
  : list OntologyRow :=
  filter (fun row => Frame.mem String.eqb (raw_term row) cands) df_ontology.

Definition manual_concepts : list (string * string) :=
  [ ("strawberries", "strawberry"); ("honey", "honey");
    ("tomato", "tomato"); ("tuna", "tuna") ].

(** [df_candidates["raw_term"].map(manual_concepts)]: missing when the
    term has no suggestion. *)
Definition suggested_concept (row : OntologyRow) : option string :=
  Frame.lookup String.eqb (raw_term row) manual_concepts.

Fixpoint dict_set (d : list (string * option string)) (k : string) (v : option string)
  : list (string * option string) :=
  match d with
  | [] => [(k, v)]
  | (k', v') :: d' =>
      if String.eqb k' k then (k', v) :: d' else (k', v') :: dict_set d' k v
  end.

(** [dict(zip(df_candidates["raw_term"], df_candidates["suggested_concept"]))] *)
Definition update_map (cands : list OntologyRow) : list (string * option string) :=
  fold_left (fun d row => dict_set d (raw_term row) (suggested_concept row)) cands [].

(** [update_map[row["raw_term"]] if row["raw_term"] in update_map else row["concept"]] *)
Definition new_concept (umap : list (string * option string)) (row : OntologyRow)
  : option string :=
  match Frame.lookup String.eqb (raw_term row) umap with
  | Some v => v
  | None => concept row
  end.

Definition expand (df_ontology : list OntologyRow)
    (ingredient_concepts product_concepts : list (option string)) : list OntologyRow :=
  let rare := rare_terms (value_counts (all_terms ingredient_concepts product_concepts)) in
  let umap := update_map (df_candidates df_ontology (candidates df_ontology rare)) in
  map (fun row => {| raw_term := raw_term row; concept := new_concept umap row |}) df_ontology.

(** How often a term is used as a recipe or product concept. *)
Definition uses (ingredient_concepts product_concepts : list (option string)) (t : string)
  : nat :=
  List.length (filter (String.eqb t) (all_terms ingredient_concepts product_concepts)).

End OntologyUpdate.

(** ** Notebook 17: the variants of a concept *)

Module VariantSets.

(** [{k for k, v in variant_map.items() if v == c} if pd.notna(c) else set()] *)
Definition variants_of (vmap : Variants.Dict) (c : option string) : list string :=
  match c with
  | Some k => map fst (filter (fun kv => String.eqb (snd kv) k) vmap)
  | None => []
  end.

(** The variants a table lists under some concept. *)
Definition listed (variants : list (string * list string)) (concept alt : string) : Prop :=
  exists vs, In (concept, vs) variants /\ In alt vs.

End VariantSets.

(** ** Notebook 20: store performance *)

Module StorePerformance.

(** [df_ranked.groupby("store")["recipe"].nunique().reset_index(name="n_recipes")] *)
Definition recipe_counts (df_ranked : list Ranking.AggRow) : list (Z * nat) :=
  map (fun g => (fst g, Frame.nunique String.eqb (map Ranking.recipe (snd g))))
      (Frame.groupby Z.eqb WasteSimulator.store_leb (fun a => Some (Ranking.store a)) df_ranked).

Definition min_recipes : nat := 2.

(** [recipe_counts["n_recipes"] < min_recipes] *)
Definition underperforming (n_recipes : nat) : bool := Nat.ltb n_recipes min_recipes.

(** [recipe_counts[recipe_counts["underperforming"] == True]] *)
Definition tagged (df_ranked : list Ranking.AggRow) : list (Z * nat) :=
  filter (fun c => underperforming (snd c)) (recipe_counts df_ranked).

End StorePerformance.

(** ** Notebook 22: the unfiltered fuzzy matrix *)

Module FuzzyAll.

Record Row := {
  row_id : Z;
  ingredient : string;
  product_article : Z;
  product_name : string;
  product_concept : string;
  store : Z;
  fuzzy_score : Q;
  match_source : string
}.

Section Matrix.
Variable ratio : string -> string -> Q.

(** The loop of lines 138-162: every recipe row against every store product. *)
Definition fuzzy_matches (df_recipes : list FuzzyMatrix.RecipeRow)
    (products : list FuzzyMatrix.StoreProduct) : list Row :=
  flat_map (fun r =>
              map (fun p => {| row_id := fst (fst r);
                               ingredient := snd r;
                               product_article := FuzzyMatrix.product_article (fst p);
                               product_name := FuzzyMatrix.product_name (fst p);
                               product_concept := snd p;
                               store := FuzzyMatrix.store (fst p);
                               fuzzy_score := Num.round2 (ratio (snd r) (snd p) * 100);
                               match_source := "fuzzy_only" |})
                  (FuzzyMatrix.df_store_products products))
           (FuzzyMatrix.normalise_recipes df_recipes).
End Matrix.

End FuzzyAll.

(** ** Notebook 02: the cleaned product name *)

Module Cleaning.

(** [name.lower().strip()] for a text, the cell itself otherwise. *)
Definition clean_product_name (name : option string) : option string :=
  option_map (fun s => Text.strip (Text.lower s)) name.

End Cleaning.

(** ** Notebook 28: the metrics of the store summary *)

Module Appendix.

(** A row of [store_deployment_summary.csv]; the value is missing when
    the store has no waste impact. *)
Record SummaryRow := {
  store : Z;
  recipes_planned : Z;
  unique_ingredients : Z;
  products_to_pick : Z;
  estimated_value_saved : option Q
}.

(** [Series.replace(0, 1)] *)
Definition replace_0_1 (n : Z) : Z := if (n =? 0)%Z then 1%Z else n.

Definition per (value : option Q) (n : Z) : option Q :=
  option_map (fun v => (v / inject_Z n)%Q) value.

Definition value_per_recipe (r : SummaryRow) : option Q :=
  per (estimated_value_saved r) (replace_0_1 (recipes_planned r)).

Definition value_per_product (r : SummaryRow) : option Q :=
  per (estimated_value_saved r) (replace_0_1 (products_to_pick r)).

Definition coverage_score (r : SummaryRow) : option Q :=
  per (estimated_value_saved r)
      (replace_0_1 (recipes_planned r) * replace_0_1 (products_to_pick r))%Z.

End Appendix.

(** ** Small tables to run the cells on *)

Module Examples.

Definition ranked : list RandomBaseline.StoreRecipe :=
  [ {| RandomBaseline.sr_store := 1024; RandomBaseline.sr_recipe := "Greek Yogurt & Honey" |} ].

Definition recipes : list RandomBaseline.Recipe :=
  [ {| RandomBaseline.row_id := 0; RandomBaseline.ingredient := Some "Yogurt";
       RandomBaseline.recipe := "Greek Yogurt & Honey" |};
    {| RandomBaseline.row_id := 1; RandomBaseline.ingredient := Some "honey";
       RandomBaseline.recipe := "Greek Yogurt & Honey" |} ].

Definition products : list RandomBaseline.Product :=
  [ {| RandomBaseline.store := 1024; RandomBaseline.article := 438226;
       RandomBaseline.product_name_clean := Some "roeryoghurt";
       RandomBaseline.product_concept := Some "yogurt" |};
    {| RandomBaseline.store := 1090; RandomBaseline.article := 438226;
       RandomBaseline.product_name_clean := Some "roeryoghurt";
       RandomBaseline.product_concept := Some "yogurt" |};
    {| RandomBaseline.store := 1024; RandomBaseline.article := 551200;
       RandomBaseline.product_name_clean := Some "bloemenhoning";
       RandomBaseline.product_concept := Some "honey" |};
    {| RandomBaseline.store := 1024; RandomBaseline.article := 600731;
       RandomBaseline.product_name_clean := Some "tonijn";
       RandomBaseline.product_concept := Some "tuna" |} ].

Definition waste : list Waste.WasteRow :=
  [ {| Waste.Store := 1024; Waste.product_concept := Some "Yogurt ";
       Waste.items_wasted := 8; Waste.value_wasted := 1592 # 100 |};
    {| Waste.Store := 1024; Waste.product_concept := Some "tuna";
       Waste.items_wasted := 2; Waste.value_wasted := 230 # 100 |} ].

(** A matched pair as the ranking notebook prints it, with a non-zero similarity. *)
Definition yogurt_pair : Boost.FullRow :=
  {| Boost.store := 1024; Boost.recipe := "Greek Yogurt & Honey";
     Boost.ingredient := "yogurt"; Boost.product_name := "roeryoghurt";
     Boost.fuzzy_score := 71; Boost.semantic_score := 12345 # 100000;
     Boost.waste_flag := 0; Boost.markdown_flag := 0 |}.

(** A fully matched recipe none of whose matched products is flagged. *)
Definition unflagged_full : list Boost.FullRow :=
  [ {| Boost.store := 1024; Boost.recipe := "Greek Yogurt & Honey";
       Boost.ingredient := "yogurt"; Boost.product_name := "roeryoghurt";
       Boost.fuzzy_score := 71; Boost.semantic_score := 0;
       Boost.waste_flag := 0; Boost.markdown_flag := 0 |};
    {| Boost.store := 1024; Boost.recipe := "Greek Yogurt & Honey";
       Boost.ingredient := "honey"; Boost.product_name := "bloemenhoning";
       Boost.fuzzy_score := 67; Boost.semantic_score := 0;
       Boost.waste_flag := 0; Boost.markdown_flag := 0 |} ].

Definition yogurt_honey : list Ranking.RecipeRow :=
  [ {| Ranking.r_recipe := "Greek Yogurt & Honey"; Ranking.r_ingredient := "yogurt" |};
    {| Ranking.r_recipe := "Greek Yogurt & Honey"; Ranking.r_ingredient := "honey" |} ].

Definition box_matches : list MealBoxes.MatchRow :=
  [ {| MealBoxes.store := 1024; MealBoxes.ingredient := "yogurt";
       MealBoxes.ingredient_concept := Some "yogurt"; MealBoxes.match_available := true;
       MealBoxes.recipe := Some "Greek Yogurt & Honey" |};
    {| MealBoxes.store := 1024; MealBoxes.ingredient := "honey";
       MealBoxes.ingredient_concept := Some "honey"; MealBoxes.match_available := true;
       MealBoxes.recipe := Some "Greek Yogurt & Honey" |};
    {| MealBoxes.store := 1090; MealBoxes.ingredient := "yogurt";
       MealBoxes.ingredient_concept := Some "yogurt"; MealBoxes.match_available := true;
       MealBoxes.recipe := Some "Greek Yogurt & Honey" |};
    {| MealBoxes.store := 1090; MealBoxes.ingredient := "honey";
       MealBoxes.ingredient_concept := Some "honey"; MealBoxes.match_available := false;
       MealBoxes.recipe := Some "Greek Yogurt & Honey" |} ].

Definition box_products : list MealBoxes.ProductRow :=
  [ {| MealBoxes.p_store := 1024; MealBoxes.p_article := 438226;
       MealBoxes.p_concept := Some "yogurt"; MealBoxes.priority_score := 1;
       MealBoxes.waste_flag := 1; MealBoxes.markdown_flag := 0 |};
    {| MealBoxes.p_store := 1024; MealBoxes.p_article := 551200;
       MealBoxes.p_concept := Some "honey"; MealBoxes.priority_score := 0;
       MealBoxes.waste_flag := 0; MealBoxes.markdown_flag := 0 |};
    {| MealBoxes.p_store := 1090; MealBoxes.p_article := 438226;
       MealBoxes.p_concept := Some "yogurt"; MealBoxes.priority_score := 1;
       MealBoxes.waste_flag := 1; MealBoxes.markdown_flag := 0 |} ].

Definition baseline (g : Z) : list RandomBaseline.RandomMatch :=
  RandomBaseline.df_random RandomBaseline.lcg_seed RandomBaseline.lcg_choice g
    ranked recipes products.

(** Candidates of the ingredient yogurt in store 1024: a product of the
    concept yogurt, and a product of another concept whose name holds the
    word yogurt. *)
Definition exact_candidate : ScoreFilter.Candidate :=
  {| ScoreFilter.row_id := 2; ScoreFilter.store := 1024;
     ScoreFilter.ingredient := Some "yogurt";
     ScoreFilter.ingredient_concept := Some "yogurt";
     ScoreFilter.product_name := Some "roeryoghurt";
     ScoreFilter.product_concept := Some "yogurt";
     ScoreFilter.match_type := "exact" |}.

Definition name_candidate : ScoreFilter.Candidate :=
  {| ScoreFilter.row_id := 2; ScoreFilter.store := 1024;
     ScoreFilter.ingredient := Some "yogurt";
     ScoreFilter.ingredient_concept := Some "yogurt";
     ScoreFilter.product_name := Some "yogurt dressing";
     ScoreFilter.product_concept := Some "dressing";
     ScoreFilter.match_type := "variant" |}.

(** The two values of [token_set_ratio] the example needs: 71 for yogurt
    against roeryoghurt (the score the ranking notebook prints for that
    pair) and 100 for yogurt against a name that holds the token yogurt. *)
Definition token_set_ratio_table (a b : string) : Z :=
  if String.eqb a "yogurt" && String.eqb b "roeryoghurt" then 71
  else if String.eqb a "yogurt" && String.eqb b "yogurt dressing" then 100
  else 0.

Definition yogurt_row : FuzzyMatrix.RecipeRow :=
  {| FuzzyMatrix.row_id := 2; FuzzyMatrix.recipe := "Greek Yogurt & Honey";
     FuzzyMatrix.ingredient_concept := Some " Yogurt" |}.

Definition roeryoghurt : FuzzyMatrix.StoreProduct :=
  {| FuzzyMatrix.store := 1024; FuzzyMatrix.product_article := 438226;
     FuzzyMatrix.product_name := "roeryoghurt";
     FuzzyMatrix.product_concept := Some "yogurt" |}.

Definition tonijn : FuzzyMatrix.StoreProduct :=
  {| FuzzyMatrix.store := 1024; FuzzyMatrix.product_article := 600731;
     FuzzyMatrix.product_name := "tonijn";
     FuzzyMatrix.product_concept := Some "tuna" |}.

Definition fuzzy_recipes : list FuzzyMatrix.RecipeRow := [yogurt_row].

Definition fuzzy_products : list FuzzyMatrix.StoreProduct := [roeryoghurt; tonijn].

(** Two deployed ingredients of store 1024 matched to products of one concept. *)
Definition deployed_twice : list RandomBaseline.Deployed :=
  [ {| RandomBaseline.d_store := 1024; RandomBaseline.d_recipe := "Greek Yogurt & Honey";
       RandomBaseline.d_concept := "yogurt" |};
    {| RandomBaseline.d_store := 1024; RandomBaseline.d_recipe := "Greek Yogurt & Honey";
       RandomBaseline.d_concept := "yogurt" |} ].

Definition yogurt_match : RandomBaseline.RandomMatch :=
  {| RandomBaseline.m_row_id := Some 0%Z; RandomBaseline.m_ingredient := Some "yogurt";
     RandomBaseline.m_recipe := "Greek Yogurt & Honey"; RandomBaseline.m_store := 1024;
     RandomBaseline.product_article := 438226;
     RandomBaseline.product_name := Some "roeryoghurt";
     RandomBaseline.m_product_concept := Some "yogurt";
     RandomBaseline.match_source := "random" |}.

Definition honey_match : RandomBaseline.RandomMatch :=
  {| RandomBaseline.m_row_id := Some 1%Z; RandomBaseline.m_ingredient := Some "honey";
     RandomBaseline.m_recipe := "Greek Yogurt & Honey"; RandomBaseline.m_store := 1024;
     RandomBaseline.product_article := 438226;
     RandomBaseline.product_name := Some "roeryoghurt";
     RandomBaseline.m_product_concept := Some "yogurt";
     RandomBaseline.match_source := "random" |}.

End Examples.

(** ** Further tables to run the cells on *)

Module Samples.

(** Two deployed ingredients of store 1024 matched to different concepts. *)
Definition deployed_once : list RandomBaseline.Deployed :=
  [ {| RandomBaseline.d_store := 1024; RandomBaseline.d_recipe := "Greek Yogurt & Honey";
       RandomBaseline.d_concept := "yogurt" |};
    {| RandomBaseline.d_store := 1024; RandomBaseline.d_recipe := "Greek Yogurt & Honey";
       RandomBaseline.d_concept := "tuna" |} ].

(** The deployed plan as notebook 14 reads it back. *)
Definition ranked_plan : list WasteSimulator.RankedRow :=
  [ {| WasteSimulator.store := 1024; WasteSimulator.recipe := "Greek Yogurt & Honey";
       WasteSimulator.ingredients := Some "Yogurt" |} ].

(** Rows of the meal-box example tables. *)
Definition yogurt_1024 : MealBoxes.MatchRow :=
  {| MealBoxes.store := 1024; MealBoxes.ingredient := "yogurt";
     MealBoxes.ingredient_concept := Some "yogurt"; MealBoxes.match_available := true;
     MealBoxes.recipe := Some "Greek Yogurt & Honey" |}.

Definition honey_1024 : MealBoxes.MatchRow :=
  {| MealBoxes.store := 1024; MealBoxes.ingredient := "honey";
     MealBoxes.ingredient_concept := Some "honey"; MealBoxes.match_available := true;
     MealBoxes.recipe := Some "Greek Yogurt & Honey" |}.

Definition wasted_yogurt : MealBoxes.ProductRow :=
  {| MealBoxes.p_store := 1024; MealBoxes.p_article := 438226;
     MealBoxes.p_concept := Some "yogurt"; MealBoxes.priority_score := 1;
     MealBoxes.waste_flag := 1; MealBoxes.markdown_flag := 0 |}.

(** A store of the deployment summary with no planned recipe. *)
Definition idle_store : Appendix.SummaryRow :=
  {| Appendix.store := 1090; Appendix.recipes_planned := 0;
     Appendix.unique_ingredients := 0; Appendix.products_to_pick := 3;
     Appendix.estimated_value_saved := Some (1592 # 100) |}.

End Samples.

(** * Properties *)

(** ** Facts about the frame operations *)

Section FrameFacts.
Context {A : Type} (eqb : A -> A -> bool).
Hypothesis eqb_eq : forall a b, eqb a b = true <-> a = b.

Lemma mem_In (x : A) (l : list A) : Frame.mem eqb x l = true <-> In x l.
Proof.
  unfold Frame.mem. rewrite existsb_exists. split.
  - intros [y [Hy He]]. apply eqb_eq in He. now subst.
  - intros H. exists x. split; [assumption | now apply eqb_eq].
Qed.

Lemma mem_false (x : A) (l : list A) : Frame.mem eqb x l = false <-> ~ In x l.
Proof.
  rewrite <- mem_In. destruct (Frame.mem eqb x l); split; congruence.
Qed.

Lemma unique_acc_In (l seen : list A) (x : A) :
  In x (Frame.unique_acc eqb seen l) <-> In x l /\ ~ In x seen.
Proof.
  revert seen. induction l as [|y l IH]; intros seen; simpl.
  - tauto.
  - destruct (Frame.mem eqb y seen) eqn:E.
    + apply mem_In in E. rewrite IH. split.
      * tauto.
      * intros [[->|H] Hn]; [contradiction | tauto].
    + apply mem_false in E. simpl. rewrite IH. simpl. split.
      * intros [->|[H Hn]]; [tauto | tauto].
      * intros [[->|H] Hn]; [tauto|].
        destruct (eqb y x) eqn:Eyx.
        -- apply eqb_eq in Eyx. tauto.
        -- right. split; [assumption|]. intros [->|H']; [|contradiction].
           assert (eqb x x = true) by now apply eqb_eq. congruence.
Qed.

Lemma unique_In (l : list A) (x : A) : In x (Frame.unique eqb l) <-> In x l.
Proof. unfold Frame.unique. rewrite unique_acc_In. simpl. tauto. Qed.

Lemma unique_acc_NoDup (l seen : list A) : NoDup (Frame.unique_acc eqb seen l).
Proof.
  revert seen. induction l as [|y l IH]; intros seen; simpl.
  - constructor.
  - destruct (Frame.mem eqb y seen); [apply IH|].
    constructor; [|apply IH].
    rewrite unique_acc_In. simpl. tauto.
Qed.

Lemma unique_NoDup (l : list A) : NoDup (Frame.unique eqb l).
Proof. apply unique_acc_NoDup. Qed.

End FrameFacts.

Lemma dropna_In {A : Type} (l : list (option A)) (x : A) :
  In x (Frame.dropna l) <-> In (Some x) l.
Proof.
  induction l as [|[y|] l IH]; simpl.
  - tauto.
  - rewrite IH. split; intros [H|H]; auto; left; congruence.
  - rewrite IH. split; [auto | intros [H|H]; [discriminate | assumption]].
Qed.

Section SortFacts.
Context {A : Type} (leb : A -> A -> bool).

Lemma insert_perm (x : A) (l : list A) : Permutation (x :: l) (Frame.insert leb x l).
Proof.
  induction l as [|y l IH]; simpl.
  - apply Permutation_refl.
  - destruct (leb x y).
    + apply Permutation_refl.
    + eapply Permutation_trans; [apply perm_swap|]. now apply perm_skip.
Qed.

Lemma stable_sort_perm (l : list A) : Permutation l (Frame.stable_sort leb l).
Proof.
  induction l as [|x l IH]; simpl.
  - apply Permutation_refl.
  - eapply Permutation_trans; [apply perm_skip, IH | apply insert_perm].
Qed.

Lemma stable_sort_In (l : list A) (x : A) : In x (Frame.stable_sort leb l) <-> In x l.
Proof.
  split; apply Permutation_in;
    [apply Permutation_sym|]; apply stable_sort_perm.
Qed.

Local Abbreviation sorted_then := (Frame.sorted_then leb).

Hypothesis leb_total : forall a b, leb a b = true \/ leb b a = true.
Hypothesis leb_trans : forall a b c, leb a b = true -> leb b c = true -> leb a c = true.

Lemma insert_sorted_then (K : A -> A -> Prop) (x : A) (l : list A) :
  Forall (K x) l ->
  StronglySorted (sorted_then K) l ->
  StronglySorted (sorted_then K) (Frame.insert leb x l).
Proof.
  intros HK Hs. induction Hs as [|y l Hs IH Hy]; simpl.
  - constructor; constructor.
  - inversion HK as [|? ? Kxy Kxl]; subst.
    destruct (leb x y) eqn:E.
    + constructor; [now constructor|].
      constructor.
      * split; auto.
      * rewrite Forall_forall in *. intros z Hz. split.
        -- eapply leb_trans; [exact E|]. apply (Hy z Hz).
        -- intros _. now apply Kxl.
    + constructor; [now apply IH|].
      assert (Hyx : leb y x = true) by (destruct (leb_total x y); congruence).
      rewrite Forall_forall in *. intros z Hz.
      apply (Permutation_in _ (Permutation_sym (insert_perm x l))) in Hz.
      destruct Hz as [<-|Hz].
      * split; [assumption | congruence].
      * now apply Hy.
Qed.

Lemma stable_sort_sorted_then (K : A -> A -> Prop) (l : list A) :
  StronglySorted K l ->
  StronglySorted (sorted_then K) (Frame.stable_sort leb l).
Proof.
  induction 1 as [|x l Hs IH Hx]; simpl.
  - constructor.
  - apply insert_sorted_then; [|assumption].
    apply Forall_forall. intros z Hz.
    rewrite Forall_forall in Hx. apply Hx.
    apply stable_sort_In. exact Hz.
Qed.

End SortFacts.

(** ** The Priority Scorer *)

Lemma isin_concepts (c : option string) (snapshot : list PriorityScorer.SnapshotRow) :
  PriorityScorer.isin c (PriorityScorer.concepts snapshot) = true <->
  exists k, c = Some k /\
            exists w, In w snapshot /\ PriorityScorer.snap_concept w = Some k.
Proof.
  unfold PriorityScorer.isin, PriorityScorer.concepts. destruct c as [k|].
  - rewrite (mem_In String.eqb String.eqb_eq).
    rewrite (unique_In String.eqb String.eqb_eq), dropna_In, in_map_iff. split.
    + intros [w [Hw Hin]]. exists k. split; [reflexivity|]. now exists w.
    + intros [k' [Hk [w [Hin Hw]]]]. injection Hk as <-. now exists w.
  - split; [discriminate|]. intros [k [Hk _]]. discriminate.
Qed.

Lemma b2z_one (b : bool) : Z.b2z b = 1%Z <-> b = true.
Proof. destruct b; simpl; split; congruence. Qed.

(** C4.  The flags of a product are decided by membership of its concept
    in the concept columns of the whole waste and markdown snapshots (rows
    of any store count), both flags are 0 or 1, the priority score is
    their sum and lies in {0, 1, 2}, and neither the store nor the article
    of the product plays a part. *)
Theorem priority_scorer_membership :
  forall (df_waste df_markdown : list PriorityScorer.SnapshotRow)
         (p : PriorityScorer.Product),
    let s := PriorityScorer.score df_waste df_markdown p in
    (PriorityScorer.waste_flag s = 1%Z <->
       exists k, PriorityScorer.product_concept p = Some k /\
                 exists w, In w df_waste /\ PriorityScorer.snap_concept w = Some k) /\
    (PriorityScorer.markdown_flag s = 1%Z <->
       exists k, PriorityScorer.product_concept p = Some k /\
                 exists w, In w df_markdown /\ PriorityScorer.snap_concept w = Some k) /\
    (PriorityScorer.waste_flag s = 0 \/ PriorityScorer.waste_flag s = 1)%Z /\
    (PriorityScorer.markdown_flag s = 0 \/ PriorityScorer.markdown_flag s = 1)%Z /\
    PriorityScorer.priority_score s
      = (PriorityScorer.waste_flag s + PriorityScorer.markdown_flag s)%Z /\
    (PriorityScorer.priority_score s = 0 \/ PriorityScorer.priority_score s = 1 \/
     PriorityScorer.priority_score s = 2)%Z /\
    (forall st art : Z,
        let s' := PriorityScorer.score df_waste df_markdown
                    {| PriorityScorer.store := st; PriorityScorer.article := art;
                       PriorityScorer.product_concept := PriorityScorer.product_concept p |} in
        PriorityScorer.waste_flag s' = PriorityScorer.waste_flag s /\
        PriorityScorer.markdown_flag s' = PriorityScorer.markdown_flag s /\
        PriorityScorer.priority_score s' = PriorityScorer.priority_score s).
Proof.
  intros df_waste df_markdown p. cbn zeta.
  unfold PriorityScorer.score, PriorityScorer.flag. cbn [PriorityScorer.waste_flag
    PriorityScorer.markdown_flag PriorityScorer.priority_score PriorityScorer.product_concept].
  repeat split.
  - intros H. apply b2z_one in H. now apply isin_concepts.
  - intros H. apply b2z_one. now apply isin_concepts.
  - intros H. apply b2z_one in H. now apply isin_concepts.
  - intros H. apply b2z_one. now apply isin_concepts.
  - destruct (PriorityScorer.isin _ (PriorityScorer.concepts df_waste)); simpl; auto.
  - destruct (PriorityScorer.isin _ (PriorityScorer.concepts df_markdown)); simpl; auto.
  - destruct (PriorityScorer.isin _ (PriorityScorer.concepts df_waste));
      destruct (PriorityScorer.isin _ (PriorityScorer.concepts df_markdown)); simpl; auto.
Qed.

(** ** The variant resolver *)

(** C6.  On the notebook's own variant table the dictionary
    [variant_map] sends the surface form strawberries to the concept
    strawberry, but [resolve_variant] looks the term up in the inverted
    dictionary: strawberries comes back unchanged and strawberry is sent to
    strawberries.  The same happens on a table holding that one entry. *)
Theorem resolve_variant_strawberries :
  Variants.dict_get Variants.variant_map "strawberries" = Some "strawberry" /\
  Variants.resolve_variant (Some "strawberries") = Some "strawberries" /\
  Variants.resolve_variant (Some "strawberry") = Some "strawberries" /\
  Variants.resolve_variant_in
    (Variants.variant_to_concept_of [("strawberries", "strawberry")])
    (Some "strawberries") = Some "strawberries".
Proof. repeat split; reflexivity. Qed.

(** ** The random-matching baseline *)

Section BaselineFacts.
Context {RngState : Type}.
Variable seed_state : Z -> RngState.
Variable choice : RngState -> nat -> nat * RngState.

Local Abbreviation random_matches := (RandomBaseline.random_matches seed_state choice).
Local Abbreviation store_draw := (RandomBaseline.store_draw seed_state choice).

Lemma random_matches_state (g : RngState) rows products :
  snd (random_matches g rows products) = g.
Proof.
  induction rows as [|row rest IH]; simpl; [reflexivity|].
  destruct (filter _ products); simpl; apply IH.
Qed.

Lemma random_matches_any_state (g1 g2 : RngState) rows products :
  fst (random_matches g1 rows products) = fst (random_matches g2 rows products).
Proof.
  induction rows as [|row rest IH]; simpl; [reflexivity|].
  destruct (filter _ products) as [|d avail]; simpl; [apply IH|].
  f_equal. apply IH.
Qed.

Lemma random_matches_draw (g : RngState) rows products m :
  In m (fst (random_matches g rows products)) ->
  exists p, store_draw products (RandomBaseline.m_store m) = Some p /\
            RandomBaseline.product_article m = RandomBaseline.article p /\
            RandomBaseline.product_name m = RandomBaseline.product_name_clean p /\
            RandomBaseline.m_product_concept m = RandomBaseline.product_concept p.
Proof.
  induction rows as [|row rest IH]; simpl; [contradiction|].
  destruct (filter _ products) as [|d avail] eqn:E; simpl; [apply IH|].
  intros [<-|H]; [|now apply IH].
  unfold RandomBaseline.store_draw. cbn [RandomBaseline.m_store].
  rewrite E. eexists. split; [reflexivity|]. now repeat split.
Qed.

End BaselineFacts.

(** C10.  In the generated baseline table any two rows of one store carry
    the same product (article, name and concept), whatever their
    ingredients and whatever state numpy's global generator is in. *)
Theorem baseline_one_product_per_store :
  forall (RngState : Type) (seed_state : Z -> RngState)
         (choice : RngState -> nat -> nat * RngState) (g : RngState)
         (store_recipes : list RandomBaseline.StoreRecipe)
         (recipes : list RandomBaseline.Recipe)
         (products : list RandomBaseline.Product)
         (m1 m2 : RandomBaseline.RandomMatch),
    In m1 (RandomBaseline.df_random seed_state choice g store_recipes recipes products) ->
    In m2 (RandomBaseline.df_random seed_state choice g store_recipes recipes products) ->
    RandomBaseline.m_store m1 = RandomBaseline.m_store m2 ->
    RandomBaseline.product_article m1 = RandomBaseline.product_article m2 /\
    RandomBaseline.product_name m1 = RandomBaseline.product_name m2 /\
    RandomBaseline.m_product_concept m1 = RandomBaseline.m_product_concept m2.
Proof.
  intros R seed_state choice g srs recipes products m1 m2 H1 H2 Hs.
  unfold RandomBaseline.df_random in *.
  apply random_matches_draw in H1. apply random_matches_draw in H2.
  destruct H1 as [p1 [D1 [A1 [N1 C1]]]]. destruct H2 as [p2 [D2 [A2 [N2 C2]]]].
  rewrite Hs in D1. rewrite D1 in D2. injection D2 as <-.
  repeat split; congruence.
Qed.

(** The theorem on the example tables: the yogurt and the honey of store
    1024 are both given article 438226. *)
Lemma baseline_one_product_per_store_witness :
  Examples.baseline 7 = [Examples.yogurt_match; Examples.honey_match] /\
  RandomBaseline.m_ingredient Examples.yogurt_match
    <> RandomBaseline.m_ingredient Examples.honey_match /\
  (RandomBaseline.product_article Examples.yogurt_match
     = RandomBaseline.product_article Examples.honey_match /\
   RandomBaseline.product_name Examples.yogurt_match
     = RandomBaseline.product_name Examples.honey_match /\
   RandomBaseline.m_product_concept Examples.yogurt_match
     = RandomBaseline.m_product_concept Examples.honey_match).
Proof.
  split; [reflexivity|]. split; [discriminate|].
  apply (baseline_one_product_per_store Z RandomBaseline.lcg_seed RandomBaseline.lcg_choice
           7%Z Examples.ranked Examples.recipes Examples.products
           Examples.yogurt_match Examples.honey_match).
  - left. reflexivity.
  - right. left. reflexivity.
  - reflexivity.
Defined.

(** C7.  The baseline rows (store, items, value) do not depend on the
    state of numpy's global generator when the run starts: every draw is
    made by a generator seeded with 42, and the global state comes out of
    the loop as it went in.  Two runs over the same tables agree. *)
Theorem baseline_reproducible :
  forall (RngState : Type) (seed_state : Z -> RngState)
         (choice : RngState -> nat -> nat * RngState) (g1 g2 : RngState)
         (df_ranked : list RandomBaseline.StoreRecipe)
         (recipes : list RandomBaseline.Recipe)
         (products : list RandomBaseline.Product)
         (df_waste : list Waste.WasteRow),
    RandomBaseline.df_random seed_state choice g1 df_ranked recipes products
    = RandomBaseline.df_random seed_state choice g2 df_ranked recipes products /\
    RandomBaseline.waste_impact_random seed_state choice g1 df_ranked recipes products df_waste
    = RandomBaseline.waste_impact_random seed_state choice g2 df_ranked recipes products df_waste /\
    snd (RandomBaseline.random_matches seed_state choice g1
           (RandomBaseline.store_ingredients df_ranked (RandomBaseline.normalise_recipes recipes))
           (RandomBaseline.normalise_products products)) = g1.
Proof.
  intros R seed_state choice g1 g2 df_ranked recipes products df_waste.
  assert (E : RandomBaseline.df_random seed_state choice g1 df_ranked recipes products
              = RandomBaseline.df_random seed_state choice g2 df_ranked recipes products)
    by apply random_matches_any_state.
  split; [exact E|]. split.
  - unfold RandomBaseline.waste_impact_random. now rewrite E.
  - apply random_matches_state.
Qed.

(** ** Rounding and the boosted score *)

Lemma rint_nearest (q : Q) : Num.nearest_even q (Num.rint q).
Proof.
  destruct q as [n d]. unfold Num.rint, Num.nearest_even. cbn [Qnum Qden].
  pose proof (Z.div_mod n (Zpos d) ltac:(lia)) as Hdm.
  pose proof (Z.mod_pos_bound n (Zpos d) ltac:(lia)) as Hr.
  set (f := (n / Zpos d)%Z) in *. set (r := (n mod Zpos d)%Z) in *.
  destruct (Z.compare_spec (2 * r) (Zpos d)) as [E|L|G].
  - right. destruct (Z.even f) eqn:Ev.
    + split; [|assumption]. left.
      unfold Qeq, Qplus, inject_Z. cbn [Qnum Qden]. nia.
    + split.
      * right. unfold Qeq, Qminus, Qplus, Qopp, inject_Z. cbn [Qnum Qden]. nia.
      * rewrite Z.even_add, Ev. reflexivity.
  - left. split; unfold Qlt, Qminus, Qplus, Qopp, inject_Z; cbn [Qnum Qden]; nia.
  - left. split; unfold Qlt, Qminus, Qplus, Qopp, inject_Z; cbn [Qnum Qden]; nia.
Qed.

Lemma inject_Z_lt_succ (a b : Z) : (inject_Z a < inject_Z b + 1)%Q -> (a <= b)%Z.
Proof.
  intros H. assert (H' : (inject_Z a < inject_Z (b + 1))%Q).
  { rewrite inject_Z_plus. exact H. }
  rewrite <- Zlt_Qlt in H'. lia.
Qed.

Lemma inject_Z_lt_step (a b : Z) : (inject_Z a < inject_Z b)%Q -> (a + 1 <= b)%Z.
Proof. intros H. rewrite <- Zlt_Qlt in H. lia. Qed.

Lemma nearest_even_unique (q : Q) (z1 z2 : Z) :
  Num.nearest_even q z1 -> Num.nearest_even q z2 -> z1 = z2.
Proof.
  unfold Num.nearest_even.
  intros [[A1 B1]|[T1 E1]] [[A2 B2]|[T2 E2]].
  - assert (z1 <= z2)%Z by (apply inject_Z_lt_succ; lra).
    assert (z2 <= z1)%Z by (apply inject_Z_lt_succ; lra). lia.
  - exfalso. destruct T2 as [T2|T2].
    + assert (z1 <= z2)%Z by (apply inject_Z_lt_succ; lra).
      assert (z2 + 1 <= z1)%Z by (apply inject_Z_lt_step; lra). lia.
    + assert (z2 <= z1)%Z by (apply inject_Z_lt_succ; lra).
      assert (z1 + 1 <= z2)%Z by (apply inject_Z_lt_step; lra). lia.
  - exfalso. destruct T1 as [T1|T1].
    + assert (z2 <= z1)%Z by (apply inject_Z_lt_succ; lra).
      assert (z1 + 1 <= z2)%Z by (apply inject_Z_lt_step; lra). lia.
    + assert (z1 <= z2)%Z by (apply inject_Z_lt_succ; lra).
      assert (z2 + 1 <= z1)%Z by (apply inject_Z_lt_step; lra). lia.
  - destruct T1 as [T1|T1], T2 as [T2|T2].
    + assert (z1 <= z2)%Z by (apply inject_Z_lt_succ; lra).
      assert (z2 <= z1)%Z by (apply inject_Z_lt_succ; lra). lia.
    + exfalso. assert (H : (z1 + 1 <= z2)%Z) by (apply inject_Z_lt_step; lra).
      assert (H' : (z2 <= z1 + 1)%Z) by (apply inject_Z_lt_succ; rewrite inject_Z_plus; change (inject_Z 1) with 1%Q; lra).
      assert (z2 = z1 + 1)%Z by lia. subst z2.
      rewrite Z.even_add, E1 in E2. discriminate.
    + exfalso. assert (H : (z2 + 1 <= z1)%Z) by (apply inject_Z_lt_step; lra).
      assert (H' : (z1 <= z2 + 1)%Z) by (apply inject_Z_lt_succ; rewrite inject_Z_plus; change (inject_Z 1) with 1%Q; lra).
      assert (z1 = z2 + 1)%Z by lia. subst z1.
      rewrite Z.even_add, E2 in E1. discriminate.
    + assert (z1 <= z2)%Z by (apply inject_Z_lt_succ; lra).
      assert (z2 <= z1)%Z by (apply inject_Z_lt_succ; lra). lia.
Qed.

Lemma nearest_even_Qeq (q q' : Q) (z : Z) :
  (q == q')%Q -> Num.nearest_even q z -> Num.nearest_even q' z.
Proof.
  unfold Num.nearest_even. intros E [[A B]|[[T|T] Ev]].
  - left. split; lra.
  - right. split; [left; lra | assumption].
  - right. split; [right; lra | assumption].
Qed.

Lemma rint_Qeq (q q' : Q) : (q == q')%Q -> Num.rint q = Num.rint q'.
Proof.
  intros E. apply (nearest_even_unique q').
  - apply (nearest_even_Qeq q); [assumption | apply rint_nearest].
  - apply rint_nearest.
Qed.

Lemma rint_inject_Z (z : Z) : Num.rint (inject_Z z) = z.
Proof.
  apply (nearest_even_unique (inject_Z z)); [apply rint_nearest|].
  left. split; lra.
Qed.

Lemma rint_shift_even (q : Q) (k : Z) :
  Z.even k = true -> Num.rint (q + inject_Z k) = (Num.rint q + k)%Z.
Proof.
  intros Ek. apply (nearest_even_unique (q + inject_Z k)); [apply rint_nearest|].
  destruct (rint_nearest q) as [[A B]|[[T|T] Ev]]; unfold Num.nearest_even;
    rewrite inject_Z_plus.
  - left. split; lra.
  - right. split; [left; lra|]. now rewrite Z.even_add, Ev, Ek.
  - right. split; [right; lra|]. now rewrite Z.even_add, Ev, Ek.
Qed.

Lemma round2_close (q : Q) : (Qabs (Num.round2 q - q) <= 1 # 200)%Q.
Proof.
  unfold Num.round2. apply Qabs_Qle_condition.
  destruct (rint_nearest (q * 100)) as [[A B]|[[T|T] _]];
    set (z := inject_Z (Num.rint (q * 100))) in *; hundredths; split; lra.
Qed.

Lemma round2_hundredths (z : Z) : (Num.round2 (inject_Z z / 100) == inject_Z z / 100)%Q.
Proof.
  unfold Num.round2.
  assert (E : Num.rint (inject_Z z / 100 * 100) = z).
  { rewrite <- (rint_inject_Z z) at 2. apply rint_Qeq. hundredths. lra. }
  rewrite E. reflexivity.
Qed.

Lemma round2_Qeq (q q' : Q) : (q == q')%Q -> (Num.round2 q == Num.round2 q')%Q.
Proof.
  intros E. unfold Num.round2. rewrite (rint_Qeq (q * 100) (q' * 100)); [reflexivity|].
  now rewrite E.
Qed.

Lemma weighted_sum_flags (r : Boost.FullRow) :
  (Boost.weighted_sum (Boost.with_flags r 1 1)
   == Boost.weighted_sum (Boost.with_flags r 0 0) + 10)%Q.
Proof.
  unfold Boost.weighted_sum, Boost.with_flags, Boost.WEIGHT_FUZZY,
    Boost.WEIGHT_SEMANTIC, Boost.PRIORITY_BONUS. cbn [Boost.fuzzy_score
    Boost.semantic_score Boost.waste_flag Boost.markdown_flag].
  change (inject_Z (1 + 1)) with 2%Q. change (inject_Z (0 + 0)) with 0%Q. lra.
Qed.

(** The stored score counted in whole hundredths. *)
Lemma rint_round2_hundredths (q : Q) : Num.rint (Num.round2 q * 100) = Num.rint (q * 100).
Proof.
  transitivity (Num.rint (inject_Z (Num.rint (q * 100)))); [|apply rint_inject_Z].
  apply rint_Qeq. unfold Num.round2. set (z := inject_Z (Num.rint (q * 100))).
  hundredths. lra.
Qed.

(** C1 (as the code has it).  The boosted score of a matched pair is the
    weighted sum 0.6 * fuzzy + 0.4 * 100 * semantic + 5 * (waste + markdown)
    rounded to two decimals: it is a whole number of hundredths within
    0.005 of the sum, and it is the sum itself when the semantic score is
    0.  The bonus of a pair flagged both waste and markdown is +10 in the
    sum; in the stored scores, counted in hundredths, the flagged pair
    stands 1000 above the same pair with neither flag, give or take 1.
    With the exact numbers of this model the difference is exactly 1000;
    the slack of one hundredth is what rounding a binary floating point
    sum can cost (54.48 against 64.47 for fuzzy 71 and semantic 0.296875),
    and the law is stated for a fuzzy score between 0 and 100 and a cosine
    similarity between -1 and 1, where that slack is enough. *)
Theorem final_score_rounded_weighted_sum :
  forall r : Boost.FullRow,
    (Qabs (Boost.final_score r - Boost.weighted_sum r) <= 1 # 200)%Q /\
    (exists z : Z, Boost.final_score r == inject_Z z / 100)%Q /\
    (Boost.final_score (Boost.with_semantic r 0)
     == (6 # 10) * inject_Z (Boost.fuzzy_score r)
        + 5 * inject_Z (Boost.waste_flag r + Boost.markdown_flag r))%Q /\
    ((0 <= Boost.fuzzy_score r <= 100)%Z ->
     (-1 <= Boost.semantic_score r <= 1)%Q ->
     (Z.abs (Num.rint (Boost.final_score (Boost.with_flags r 1 1) * 100)
             - Num.rint (Boost.final_score (Boost.with_flags r 0 0) * 100)
             - 1000) <= 1)%Z).
Proof.
  intros r. split; [apply round2_close|]. split; [|split].
  - exists (Num.rint (Boost.weighted_sum r * 100)). reflexivity.
  - unfold Boost.final_score.
    set (z := (60 * Boost.fuzzy_score r
               + 500 * (Boost.waste_flag r + Boost.markdown_flag r))%Z).
    assert (E : (Boost.weighted_sum (Boost.with_semantic r 0) == inject_Z z / 100)%Q).
    { unfold Boost.weighted_sum, Boost.with_semantic, Boost.WEIGHT_FUZZY,
        Boost.WEIGHT_SEMANTIC, Boost.PRIORITY_BONUS, z.
      cbn [Boost.fuzzy_score Boost.semantic_score Boost.waste_flag Boost.markdown_flag].
      rewrite ?inject_Z_plus, ?inject_Z_mult, ?inject_Z_plus.
      change (inject_Z 60) with 60%Q. change (inject_Z 500) with 500%Q.
      hundredths. lra. }
    rewrite (round2_Qeq _ _ E), round2_hundredths. unfold z.
    rewrite ?inject_Z_plus, ?inject_Z_mult, ?inject_Z_plus.
    change (inject_Z 60) with 60%Q. change (inject_Z 500) with 500%Q.
    hundredths. lra.
  - intros _ _. unfold Boost.final_score. rewrite !rint_round2_hundredths.
    assert (E : Num.rint (Boost.weighted_sum (Boost.with_flags r 1 1) * 100)
                = (Num.rint (Boost.weighted_sum (Boost.with_flags r 0 0) * 100) + 1000)%Z).
    { rewrite <- (rint_shift_even _ 1000) by reflexivity. apply rint_Qeq.
      rewrite (weighted_sum_flags r). change (inject_Z 1000) with 1000%Q. lra. }
    rewrite E. lia.
Qed.

(** C1 (as stated) fails: for the pair yogurt / roeryoghurt with fuzzy
    score 71 and semantic score 0.12345 the weighted sum is 47.538 and the
    stored score is 47.54. *)
Lemma final_score_is_not_the_weighted_sum :
  (Boost.weighted_sum Examples.yogurt_pair == 47538 # 1000)%Q /\
  (Boost.final_score Examples.yogurt_pair == 4754 # 100)%Q /\
  ~ (Boost.final_score Examples.yogurt_pair
     == (6 # 10) * inject_Z (Boost.fuzzy_score Examples.yogurt_pair)
        + (4 # 10) * (100 * Boost.semantic_score Examples.yogurt_pair)
        + 5 * inject_Z (Boost.waste_flag Examples.yogurt_pair
                        + Boost.markdown_flag Examples.yogurt_pair))%Q.
Proof.
  split; [reflexivity|]. split; [reflexivity|].
  intros H. vm_compute in H. discriminate H.
Qed.

(** ** The order of strings and of group keys *)

Lemma ascii_compare_lt (a b : ascii) :
  Ascii.compare a b = Lt <-> (N_of_ascii a < N_of_ascii b)%N.
Proof. unfold Ascii.compare. apply N.compare_lt_iff. Qed.

Lemma string_compare_refl (s : string) : String.compare s s = Eq.
Proof.
  induction s as [|c s IH]; simpl; [reflexivity|].
  unfold Ascii.compare. now rewrite N.compare_refl.
Qed.

Lemma string_compare_lt_trans (a b c : string) :
  String.compare a b = Lt -> String.compare b c = Lt -> String.compare a c = Lt.
Proof.
  revert b c. induction a as [|x a IH]; intros [|y b] [|z c]; simpl;
    try discriminate; try reflexivity.
  destruct (Ascii.compare x y) eqn:Exy; try discriminate;
    destruct (Ascii.compare y z) eqn:Eyz; try discriminate; intros H1 H2.
  - apply Ascii.compare_eq_iff in Exy, Eyz. subst.
    unfold Ascii.compare. rewrite N.compare_refl. eapply IH; eassumption.
  - apply Ascii.compare_eq_iff in Exy. subst. now rewrite Eyz.
  - apply Ascii.compare_eq_iff in Eyz. subst. now rewrite Exy.
  - apply ascii_compare_lt in Exy. apply ascii_compare_lt in Eyz.
    assert (E : Ascii.compare x z = Lt).
    { apply ascii_compare_lt. eapply N.lt_trans; eassumption. }
    now rewrite E.
Qed.

Lemma string_leb_cases (a b : string) :
  String.leb a b = true <-> a = b \/ String.compare a b = Lt.
Proof.
  unfold String.leb. destruct (String.compare a b) eqn:E.
  - apply String.compare_eq_iff in E. tauto.
  - tauto.
  - split; [discriminate|]. intros [->|H]; [|discriminate].
    rewrite string_compare_refl in E. discriminate.
Qed.

Lemma string_leb_trans (a b c : string) :
  String.leb a b = true -> String.leb b c = true -> String.leb a c = true.
Proof.
  rewrite !string_leb_cases. intros [->|H1] [->|H2]; auto.
  right. eapply string_compare_lt_trans; eassumption.
Qed.

Lemma string_leb_neq_ltb (a b : string) :
  String.leb a b = true -> a <> b -> String.ltb a b = true.
Proof.
  rewrite string_leb_cases. intros [->|H] N; [contradiction|].
  unfold String.ltb. now rewrite H.
Qed.

Lemma key_eqb_eq (a b : Frame.Key) : Frame.key_eqb a b = true <-> a = b.
Proof.
  destruct a as [s r], b as [s' r']. unfold Frame.key_eqb. simpl.
  rewrite andb_true_iff, Z.eqb_eq, String.eqb_eq. split.
  - intros [-> ->]. reflexivity.
  - intros H. injection H as -> ->. auto.
Qed.

Lemma key_leb_total (a b : Frame.Key) :
  Frame.key_leb a b = true \/ Frame.key_leb b a = true.
Proof.
  unfold Frame.key_leb. rewrite (Z.compare_antisym (fst a) (fst b)).
  destruct (Z.compare (fst a) (fst b)); simpl; auto. apply String.leb_total.
Qed.

Lemma key_leb_trans (a b c : Frame.Key) :
  Frame.key_leb a b = true -> Frame.key_leb b c = true -> Frame.key_leb a c = true.
Proof.
  unfold Frame.key_leb.
  destruct (Z.compare_spec (fst a) (fst b)), (Z.compare_spec (fst b) (fst c));
    try discriminate; intros H1 H2;
    destruct (Z.compare_spec (fst a) (fst c)); try reflexivity; try lia.
  eapply string_leb_trans; eassumption.
Qed.

(** Strictly ascending group keys: store first, then name. *)
Lemma key_leb_strict (a b : Frame.Key) :
  Frame.key_leb a b = true -> a <> b ->
  (fst a < fst b)%Z \/ (fst a = fst b /\ String.ltb (snd a) (snd b) = true).
Proof.
  unfold Frame.key_leb. destruct (Z.compare_spec (fst a) (fst b)); try discriminate.
  - intros L N. right. split; [assumption|]. apply string_leb_neq_ltb; [assumption|].
    intros E. apply N. destruct a, b. simpl in *. congruence.
  - auto.
Qed.

Lemma Z_leb_total (a b : Z) :
  WasteSimulator.store_leb a b = true \/ WasteSimulator.store_leb b a = true.
Proof. unfold WasteSimulator.store_leb. rewrite !Z.leb_le. lia. Qed.

(** ** Facts about [groupby] *)

Lemma StronglySorted_map {A B : Type} (f : A -> B) (R : B -> B -> Prop) (l : list A) :
  StronglySorted R (map f l) <-> StronglySorted (fun a b => R (f a) (f b)) l.
Proof.
  induction l as [|x l IH]; simpl.
  - split; constructor.
  - split; intros H; inversion H; subst; constructor; try (now apply IH).
    + rewrite Forall_map in *. assumption.
    + rewrite Forall_map. assumption.
Qed.

Lemma StronglySorted_filter {A : Type} (f : A -> bool) (R : A -> A -> Prop) (l : list A) :
  StronglySorted R l -> StronglySorted R (filter f l).
Proof.
  induction 1 as [|x l Hs IH Hx]; simpl; [constructor|].
  destruct (f x); [|assumption]. constructor; [assumption|].
  rewrite Forall_forall in *. intros y Hy. apply Hx. now apply filter_In in Hy.
Qed.

Lemma StronglySorted_weaken {A : Type} (R R' : A -> A -> Prop) (l : list A) :
  (forall a b, In a l -> In b l -> R a b -> R' a b) ->
  StronglySorted R l -> StronglySorted R' l.
Proof.
  intros HR Hs. induction Hs as [|x l Hs IH Hx]; [constructor|].
  constructor.
  - apply IH. intros a b Ha Hb. apply HR; now right.
  - rewrite Forall_forall in *. intros y Hy. apply HR; [now left | now right | now apply Hx].
Qed.

Lemma StronglySorted_NoDup_neq {A : Type} (R : A -> A -> Prop) (l : list A) :
  NoDup l -> StronglySorted R l -> StronglySorted (fun a b => R a b /\ a <> b) l.
Proof.
  intros Hn Hs. induction Hs as [|x l Hs IH Hx]; [constructor|].
  inversion Hn as [|? ? Hnin Hn']; subst. constructor; [now apply IH|].
  rewrite Forall_forall in *. intros y Hy. split; [now apply Hx|].
  intros ->. contradiction.
Qed.

Section GroupFacts.
Context {R K : Type} (eqb leb : K -> K -> bool) (key : R -> option K).
Hypothesis eqb_eq : forall a b, eqb a b = true <-> a = b.

Lemma group_keys_In (rows : list R) (k : K) :
  In k (Frame.group_keys eqb leb key rows) <-> exists r, In r rows /\ key r = Some k.
Proof.
  unfold Frame.group_keys.
  rewrite stable_sort_In, (unique_In eqb eqb_eq), dropna_In, in_map_iff.
  split; intros [r [H1 H2]]; exists r; auto.
Qed.

Lemma group_keys_NoDup (rows : list R) : NoDup (Frame.group_keys eqb leb key rows).
Proof.
  unfold Frame.group_keys.
  eapply Permutation_NoDup; [apply stable_sort_perm|].
  apply (unique_NoDup eqb eqb_eq).
Qed.

Lemma has_key_true (k : K) (r : R) : Frame.has_key eqb key k r = true <-> key r = Some k.
Proof.
  unfold Frame.has_key. destruct (key r) as [k'|].
  - rewrite eqb_eq. split; congruence.
  - split; discriminate.
Qed.

Lemma groupby_In (rows : list R) (g : K * list R) :
  In g (Frame.groupby eqb leb key rows) ->
  In (fst g) (Frame.group_keys eqb leb key rows) /\
  snd g = filter (Frame.has_key eqb key (fst g)) rows.
Proof.
  unfold Frame.groupby. rewrite in_map_iff. intros [k [<- Hk]]. simpl. auto.
Qed.

Lemma groupby_keys (rows : list R) :
  map fst (Frame.groupby eqb leb key rows) = Frame.group_keys eqb leb key rows.
Proof.
  unfold Frame.groupby. rewrite map_map. simpl. apply map_id.
Qed.

Hypothesis leb_total : forall a b, leb a b = true \/ leb b a = true.
Hypothesis leb_trans : forall a b c, leb a b = true -> leb b c = true -> leb a c = true.

Lemma group_keys_sorted (rows : list R) :
  StronglySorted (fun a b => leb a b = true /\ a <> b) (Frame.group_keys eqb leb key rows).
Proof.
  apply StronglySorted_NoDup_neq; [apply group_keys_NoDup|].
  unfold Frame.group_keys.
  set (l := Frame.unique eqb (Frame.dropna (map key rows))).
  assert (H : StronglySorted (Frame.sorted_then leb (fun _ _ => True)) (Frame.stable_sort leb l)).
  { apply (stable_sort_sorted_then leb leb_total leb_trans).
    clear. induction l as [|x l IH]; constructor; [assumption|].
    apply Forall_forall. auto. }
  revert H. apply StronglySorted_weaken. intros a b _ _ [H _]. exact H.
Qed.

End GroupFacts.

(** ** The order of the ranked tables *)

Section RankedOrder.
Context {R : Type} (st : R -> Z) (nm : R -> string) (sc : R -> Q).
Variable leb : R -> R -> bool.
Hypothesis leb_def : forall a b,
  leb a b = match Z.compare (st a) (st b) with
            | Lt => true
            | Gt => false
            | Eq => Qle_bool (sc b) (sc a)
            end.

Lemma rank_leb_total (a b : R) : leb a b = true \/ leb b a = true.
Proof.
  rewrite !leb_def, (Z.compare_antisym (st a) (st b)).
  destruct (Z.compare (st a) (st b)); simpl; auto.
  rewrite !Qle_bool_iff. destruct (Qlt_le_dec (sc a) (sc b)); [right|left]; lra.
Qed.

Lemma rank_leb_trans (a b c : R) : leb a b = true -> leb b c = true -> leb a c = true.
Proof.
  rewrite !leb_def.
  destruct (Z.compare_spec (st a) (st b)), (Z.compare_spec (st b) (st c));
    try discriminate; intros H1 H2;
    destruct (Z.compare_spec (st a) (st c)); try reflexivity; try lia.
  rewrite Qle_bool_iff in *. lra.
Qed.

Lemma rank_sorted (l : list R) :
  StronglySorted (fun a b => Frame.key_leb (st a, nm a) (st b, nm b) = true /\
                             (st a, nm a) <> (st b, nm b)) l ->
  StronglySorted
    (fun a b => (st a < st b)%Z \/
                (st a = st b /\
                 ((sc b < sc a)%Q \/
                  ((sc a == sc b)%Q /\ String.ltb (nm a) (nm b) = true))))
    (Frame.stable_sort leb l).
Proof.
  intros H.
  apply (stable_sort_sorted_then leb rank_leb_total rank_leb_trans) in H.
  revert H. apply StronglySorted_weaken. intros a b _ _ [Hab Hk].
  rewrite leb_def in Hab, Hk.
  rewrite (Z.compare_antisym (st a) (st b)) in Hk.
  destruct (Z.compare_spec (st a) (st b)) as [E|L|G]; simpl in *.
  - right. split; [assumption|].
    rewrite Qle_bool_iff in Hab, Hk.
    destruct (Qlt_le_dec (sc b) (sc a)) as [Hlt|Hle]; [now left|].
    right. split; [lra|].
    destruct (Hk Hle) as [Hle' Hne].
    destruct (key_leb_strict _ _ Hle' Hne) as [Hs|[_ Hs]]; simpl in Hs; [lia | assumption].
  - now left.
  - discriminate.
Qed.

End RankedOrder.

Lemma keys_pairing (l : list Frame.Key) :
  StronglySorted (fun a b => Frame.key_leb a b = true /\ a <> b) l ->
  StronglySorted (fun a b => Frame.key_leb (fst a, snd a) (fst b, snd b) = true /\
                             (fst a, snd a) <> (fst b, snd b)) l.
Proof.
  apply StronglySorted_weaken. intros [s r] [s' r'] _ _ H. exact H.
Qed.

Lemma df_agg_in_key_order (df_full : list Boost.FullRow) (df_recipes : list Ranking.RecipeRow) :
  StronglySorted
    (fun a b => Frame.key_leb (Ranking.store a, Ranking.recipe a)
                              (Ranking.store b, Ranking.recipe b) = true /\
                (Ranking.store a, Ranking.recipe a) <> (Ranking.store b, Ranking.recipe b))
    (Ranking.df_agg df_full df_recipes).
Proof.
  unfold Ranking.df_agg, Frame.groupby. rewrite map_map.
  apply StronglySorted_map. cbn [Ranking.agg_row Ranking.store Ranking.recipe fst snd].
  apply keys_pairing.
  apply (group_keys_sorted _ _ _ key_eqb_eq key_leb_total key_leb_trans).
Qed.

Lemma box_priority_in_key_order (df_products : list MealBoxes.ProductRow)
    (df_matches : list MealBoxes.MatchRow) :
  StronglySorted
    (fun a b => Frame.key_leb (MealBoxes.b_store a, MealBoxes.b_recipe a)
                              (MealBoxes.b_store b, MealBoxes.b_recipe b) = true /\
                (MealBoxes.b_store a, MealBoxes.b_recipe a)
                <> (MealBoxes.b_store b, MealBoxes.b_recipe b))
    (MealBoxes.box_priority_unsorted df_products df_matches).
Proof.
  unfold MealBoxes.box_priority_unsorted, Frame.groupby. rewrite map_map.
  apply StronglySorted_map. cbn [MealBoxes.b_store MealBoxes.b_recipe fst snd].
  apply keys_pairing.
  apply (group_keys_sorted _ _ _ key_eqb_eq key_leb_total key_leb_trans).
Qed.

(** C8.  Both ranked tables come out ordered by store, within a store by
    descending score, and within a store among equal scores by ascending
    recipe name: any row stands in that relation to every row after it. *)
Theorem ranked_tables_sorted :
  forall (df_full : list Boost.FullRow) (df_recipes : list Ranking.RecipeRow)
         (df_products : list MealBoxes.ProductRow) (df_matches : list MealBoxes.MatchRow),
    StronglySorted Ranking.ranked_before (Ranking.df_ranked df_full df_recipes) /\
    StronglySorted MealBoxes.box_before (MealBoxes.box_priority df_products df_matches).
Proof.
  intros df_full df_recipes df_products df_matches. split.
  - unfold Ranking.df_ranked.
    apply (rank_sorted Ranking.store Ranking.recipe Ranking.avg_score Ranking.rank_leb
             (fun a b => eq_refl)).
    apply StronglySorted_filter, df_agg_in_key_order.
  - unfold MealBoxes.box_priority.
    apply (rank_sorted MealBoxes.b_store MealBoxes.b_recipe MealBoxes.avg_priority
             MealBoxes.box_leb (fun a b => eq_refl)).
    apply box_priority_in_key_order.
Qed.

(** ** Completeness and relevance of the deployed pairs *)

Lemma lookup_In {K V : Type} (eqb : K -> K -> bool)
    (eqb_eq : forall a b, eqb a b = true <-> a = b) (k : K) (d : list (K * V)) (v : V) :
  Frame.lookup eqb k d = Some v -> In (k, v) d.
Proof.
  induction d as [|[k' v'] d IH]; simpl; [discriminate|].
  destruct (eqb k' k) eqn:E.
  - apply eqb_eq in E. intros H. left. congruence.
  - intros H. right. now apply IH.
Qed.

Lemma left_merge_In {L R' : Type} (on : L -> R' -> bool) (left : list L) (right : list R')
    (l : L) (o : option R') :
  In (l, o) (MealBoxes.left_merge on left right) ->
  In l left /\ (forall r, o = Some r -> In r right /\ on l r = true).
Proof.
  unfold MealBoxes.left_merge. rewrite in_flat_map. intros [l' [Hl Hin]].
  destruct (filter (on l') right) as [|r0 rs] eqn:E.
  - destruct Hin as [H|[]]. injection H as <- <-. split; [assumption|]. discriminate.
  - rewrite <- E in Hin. apply in_map_iff in Hin. destruct Hin as [r [H Hr]].
    injection H as <- <-. split; [assumption|].
    intros r' Hr'. injection Hr' as <-. now apply filter_In in Hr.
Qed.

Lemma inner_merge_In {L R' : Type} (on : L -> R' -> bool) (left : list L) (right : list R')
    (x : L * R') :
  In x (RandomBaseline.inner_merge on left right) <->
  In (fst x) left /\ In (snd x) right /\ on (fst x) (snd x) = true.
Proof.
  unfold RandomBaseline.inner_merge. rewrite in_flat_map. split.
  - intros [l [Hl Hin]]. apply in_map_iff in Hin. destruct Hin as [r [<- Hr]].
    apply filter_In in Hr. simpl. tauto.
  - intros [Hl [Hr Hon]]. exists (fst x). split; [assumption|].
    apply in_map_iff. exists (snd x). split; [now destruct x|].
    apply filter_In. auto.
Qed.

Lemma opt_eqb_eq (a b : option string) : Text.opt_eqb a b = true <-> a = b.
Proof.
  destruct a, b; simpl; try (split; congruence).
  rewrite String.eqb_eq. split; congruence.
Qed.

Lemma match_key_eq (m : MealBoxes.MatchRow) (k : Frame.Key) :
  MealBoxes.match_key m = Some k <->
  MealBoxes.store m = fst k /\ MealBoxes.recipe m = Some (snd k).
Proof.
  unfold MealBoxes.match_key. destruct k as [s r], (MealBoxes.recipe m); simpl.
  - split.
    + intros H. injection H as <- <-. auto.
    + intros [Hs H]. injection H as <-. now rewrite Hs.
  - split; [discriminate | intros [_ H]; discriminate].
Qed.

(** What a complete (store, recipe) pair is: every ingredient that the
    match table lists for the recipe has an available row in the store. *)
Lemma df_complete_all_available (df_matches : list MealBoxes.MatchRow) (k : Frame.Key) :
  In k (MealBoxes.df_complete df_matches) ->
  forall m, In m df_matches -> MealBoxes.recipe m = Some (snd k) ->
            exists m', In m' df_matches /\ MealBoxes.match_available m' = true /\
                       MealBoxes.store m' = fst k /\ MealBoxes.recipe m' = Some (snd k) /\
                       MealBoxes.ingredient m' = MealBoxes.ingredient m.
Proof.
  unfold MealBoxes.df_complete. rewrite in_map_iff.
  intros [[k' n] [Hk Hin]] m Hm Hr. simpl in Hk. subst k'.
  apply filter_In in Hin. destruct Hin as [Hg Hc].
  unfold MealBoxes.grouped in Hg. apply in_map_iff in Hg.
  destruct Hg as [g [Hg Hgin]]. injection Hg as Hk Hn.
  apply groupby_In in Hgin. destruct Hgin as [_ Hrows]. rewrite Hk in Hrows.
  unfold MealBoxes.complete in Hc. cbn [fst snd] in Hc.
  destruct (Frame.lookup String.eqb (snd k) (MealBoxes.ingredients_per_recipe df_matches))
    as [total|] eqn:El; [|discriminate].
  apply Nat.eqb_eq in Hc.
  apply (lookup_In String.eqb String.eqb_eq) in El.
  unfold MealBoxes.ingredients_per_recipe in El. apply in_map_iff in El.
  destruct El as [g' [Hg' Hg'in]]. injection Hg' as Hk' Ht.
  apply groupby_In in Hg'in. destruct Hg'in as [_ Hrows']. rewrite Hk' in Hrows'.
  set (la := map MealBoxes.ingredient (snd g)) in *.
  set (lb := map MealBoxes.ingredient (snd g')) in *.
  assert (Hincl : incl (Frame.unique String.eqb lb) (Frame.unique String.eqb la)).
  { apply NoDup_length_incl.
    - apply (unique_NoDup String.eqb String.eqb_eq).
    - unfold Frame.nunique in *. lia.
    - intros x Hx. apply (proj1 (unique_In String.eqb String.eqb_eq _ _)) in Hx.
      apply (proj2 (unique_In String.eqb String.eqb_eq _ _)).
      unfold la in Hx. unfold lb. apply in_map_iff in Hx. apply in_map_iff.
      destruct Hx as [m0 [<- Hm0]].
      exists m0. split; [reflexivity|]. rewrite Hrows in Hm0. rewrite Hrows'.
      apply filter_In in Hm0. destruct Hm0 as [Hav Hkey].
      apply filter_In in Hav. apply filter_In. split; [tauto|].
      apply (has_key_true _ _ key_eqb_eq) in Hkey. apply match_key_eq in Hkey.
      apply (has_key_true String.eqb _ String.eqb_eq). tauto. }
  assert (Hb : In (MealBoxes.ingredient m) (Frame.unique String.eqb lb)).
  { apply (proj2 (unique_In String.eqb String.eqb_eq _ _)). unfold lb. apply in_map.
    rewrite Hrows'. apply filter_In. split; [assumption|].
    now apply (has_key_true String.eqb _ String.eqb_eq). }
  apply Hincl in Hb. apply (proj1 (unique_In String.eqb String.eqb_eq _ _)) in Hb.
  unfold la in Hb. apply in_map_iff in Hb. destruct Hb as [m' [Hi Hm']].
  rewrite Hrows in Hm'. apply filter_In in Hm'. destruct Hm' as [Hav Hkey].
  apply filter_In in Hav. apply (has_key_true _ _ key_eqb_eq) in Hkey.
  apply match_key_eq in Hkey. exists m'. tauto.
Qed.

(** Every box of the priority path comes from a complete pair and from a
    product of the store whose flags do not sum to 0. *)
Lemma box_priority_origin (df_products : list MealBoxes.ProductRow)
    (df_matches : list MealBoxes.MatchRow) (b : MealBoxes.Box) :
  In b (MealBoxes.box_priority df_products df_matches) ->
  In (MealBoxes.b_store b, MealBoxes.b_recipe b) (MealBoxes.df_complete df_matches) /\
  exists m p, In m df_matches /\ In p df_products /\
              MealBoxes.store m = MealBoxes.b_store b /\
              MealBoxes.recipe m = Some (MealBoxes.b_recipe b) /\
              MealBoxes.p_store p = MealBoxes.b_store b /\
              MealBoxes.p_concept p = MealBoxes.ingredient_concept m /\
              (0 < MealBoxes.waste_flag p + MealBoxes.markdown_flag p)%Z.
Proof.
  unfold MealBoxes.box_priority. rewrite stable_sort_In.
  unfold MealBoxes.box_priority_unsorted. rewrite in_map_iff.
  intros [g [<- Hg]]. cbn [MealBoxes.b_store MealBoxes.b_recipe].
  apply groupby_In in Hg. destruct Hg as [Hk _].
  apply (group_keys_In _ _ _ key_eqb_eq) in Hk. destruct Hk as [e [He Hke]].
  injection Hke as Hke. rewrite <- Hke. cbn [fst snd].
  unfold MealBoxes.df_enriched in He. apply filter_In in He. destruct He as [He Hf].
  apply Z.ltb_lt in Hf. unfold MealBoxes.df_enriched_all in He.
  apply in_map_iff in He. destruct He as [[[k om] op] [<- Hx]].
  cbn [fst snd MealBoxes.e_store MealBoxes.e_recipe] in *.
  unfold MealBoxes.flagged in Hf. cbn [MealBoxes.e_product] in Hf.
  destruct op as [p|]; [|lia].
  apply left_merge_In in Hx. destruct Hx as [Hkm Hp].
  destruct (Hp p eq_refl) as [Hpin Hon]. apply filter_In in Hpin.
  apply left_merge_In in Hkm. destruct Hkm as [Hkc Hm].
  unfold MealBoxes.on_store_concept in Hon. cbn [snd] in Hon.
  destruct om as [m|]; [|discriminate].
  apply andb_true_iff in Hon. destruct Hon as [Hs Hc].
  apply Z.eqb_eq in Hs. apply opt_eqb_eq in Hc.
  destruct (Hm m eq_refl) as [Hmin Hmk].
  apply (has_key_true _ _ key_eqb_eq) in Hmk. apply match_key_eq in Hmk.
  destruct Hmk as [Hms Hmr]. destruct Hpin as [Hpin _].
  split; [now destruct k|].
  exists m, p. repeat split; try assumption.
  - now rewrite <- Hs.
  - now symmetry.
Qed.

Lemma ratio_of_one (m n : nat) : (Ranking.ratio_of m n == 1)%Q -> m = n.
Proof.
  unfold Ranking.ratio_of, Qdiv, Qeq, Qmult, Qinv, inject_Z. cbn [Qnum Qden].
  pose proof (Nat2Z.is_nonneg n) as Hn.
  destruct (Z.of_nat n) as [|p|p] eqn:E; cbn [Qnum Qden]; intros H.
  - simpl in H. lia.
  - rewrite Pos.mul_1_l in H. lia.
  - lia.
Qed.

(** Every row of the boosted ranking is fully covered and passes the
    quality gate. *)
Lemma df_ranked_origin (df_full : list Boost.FullRow) (df_recipes : list Ranking.RecipeRow)
    (a : Ranking.AggRow) :
  In a (Ranking.df_ranked df_full df_recipes) ->
  Ranking.matched_ingredients a
    = Frame.nunique String.eqb
        (map Boost.ingredient
             (filter (Frame.has_key Frame.key_eqb Ranking.row_key
                        (Ranking.store a, Ranking.recipe a)) df_full)) /\
  Ranking.n_ingredients a = Some (Ranking.matched_ingredients a) /\
  (exists c, Ranking.coverage a = Some c /\ (c == 1)%Q) /\
  (Ranking.min_avg_score <= Ranking.avg_score a)%Q.
Proof.
  unfold Ranking.df_ranked. rewrite stable_sort_In, filter_In.
  intros [Hin Hkeep]. unfold Ranking.df_agg in Hin. apply in_map_iff in Hin.
  destruct Hin as [g [<- Hg]]. apply groupby_In in Hg. destruct Hg as [_ Hrows].
  unfold Ranking.keep in Hkeep. unfold Ranking.agg_row in *.
  cbn [Ranking.coverage Ranking.avg_score Ranking.matched_ingredients
       Ranking.n_ingredients Ranking.store Ranking.recipe] in *.
  destruct (Frame.lookup String.eqb (snd (fst g)) (Ranking.df_total_ingredients df_recipes))
    as [n|]; [|discriminate].
  cbn [option_map] in *. apply andb_true_iff in Hkeep. destruct Hkeep as [Hc Hs].
  apply Qeq_bool_iff in Hc. apply Qle_bool_iff in Hs.
  split; [|split; [|split]].
  - rewrite Hrows at 1. now destruct (fst g).
  - f_equal. symmetry. now apply ratio_of_one.
  - eexists. split; [reflexivity | assumption].
  - assumption.
Qed.

(** The ingredient total a ranked row carries is the number of distinct
    ingredients the recipe table lists for its recipe. *)
Lemma df_ranked_required (df_full : list Boost.FullRow) (df_recipes : list Ranking.RecipeRow)
    (a : Ranking.AggRow) :
  In a (Ranking.df_ranked df_full df_recipes) ->
  Ranking.n_ingredients a
  = Some (Frame.nunique String.eqb
            (map Ranking.r_ingredient
                 (filter (fun r => String.eqb (Ranking.r_recipe r) (Ranking.recipe a))
                         df_recipes))) /\
  exists row, In row df_full /\ Boost.store row = Ranking.store a /\
              Boost.recipe row = Ranking.recipe a.
Proof.
  unfold Ranking.df_ranked. rewrite stable_sort_In, filter_In.
  intros [Hin Hkeep]. unfold Ranking.df_agg in Hin. apply in_map_iff in Hin.
  destruct Hin as [g [<- Hg]]. apply groupby_In in Hg. destruct Hg as [Hk _].
  unfold Ranking.keep in Hkeep. unfold Ranking.agg_row in *.
  cbn [Ranking.coverage Ranking.n_ingredients Ranking.store Ranking.recipe] in *.
  split.
  - destruct (Frame.lookup String.eqb (snd (fst g)) (Ranking.df_total_ingredients df_recipes))
      as [n|] eqn:El; [|discriminate].
    f_equal. apply (lookup_In _ String.eqb_eq) in El.
    unfold Ranking.df_total_ingredients in El. apply in_map_iff in El.
    destruct El as [g' [Hg' Hin']]. injection Hg' as Hk' Hn.
    apply groupby_In in Hin'. destruct Hin' as [_ Hrows']. rewrite <- Hn, Hrows', Hk'.
    reflexivity.
  - apply (group_keys_In _ _ _ key_eqb_eq) in Hk. destruct Hk as [row [Hrow Hkey]].
    unfold Ranking.row_key in Hkey. injection Hkey as Hkey. exists row.
    rewrite <- Hkey. cbn [fst snd]. auto.
Qed.

(** C2 (as the code has it).  The priority path (notebook 10) lists a
    (store, recipe) pair only if every ingredient the match table gives
    for the recipe is available in the store and some product of the
    store, of the concept of one of the pair's ingredients, has its waste
    or its markdown flag set.  The boosted path (notebook 20) lists a pair
    only if it has matched rows in the store, the number of distinct
    ingredients matched there equals the number of distinct ingredients
    the recipe table lists for the recipe (coverage 1), and its average
    score is at least 40.  The gate compares counts: every required
    ingredient is matched as soon as the matched ingredients are
    ingredients of the recipe.  The boosted path does not look at the
    flags. *)
Theorem deployed_pairs_complete :
  forall (df_products : list MealBoxes.ProductRow) (df_matches : list MealBoxes.MatchRow)
         (df_full : list Boost.FullRow) (df_recipes : list Ranking.RecipeRow),
    (forall p, In p df_products ->
               (MealBoxes.waste_flag p = 0 \/ MealBoxes.waste_flag p = 1)%Z /\
               (MealBoxes.markdown_flag p = 0 \/ MealBoxes.markdown_flag p = 1)%Z) ->
    (forall b, In b (MealBoxes.box_priority df_products df_matches) ->
       (forall m, In m df_matches -> MealBoxes.recipe m = Some (MealBoxes.b_recipe b) ->
          exists m', In m' df_matches /\ MealBoxes.match_available m' = true /\
                     MealBoxes.store m' = MealBoxes.b_store b /\
                     MealBoxes.recipe m' = Some (MealBoxes.b_recipe b) /\
                     MealBoxes.ingredient m' = MealBoxes.ingredient m) /\
       (exists m p, In m df_matches /\ In p df_products /\
                    MealBoxes.store m = MealBoxes.b_store b /\
                    MealBoxes.recipe m = Some (MealBoxes.b_recipe b) /\
                    MealBoxes.p_store p = MealBoxes.b_store b /\
                    MealBoxes.p_concept p = MealBoxes.ingredient_concept m /\
                    (MealBoxes.waste_flag p = 1 \/ MealBoxes.markdown_flag p = 1)%Z)) /\
    (forall a, In a (Ranking.df_ranked df_full df_recipes) ->
       let matched :=
         map Boost.ingredient
             (filter (fun row => (Boost.store row =? Ranking.store a)%Z &&
                                 String.eqb (Boost.recipe row) (Ranking.recipe a)) df_full) in
       let required :=
         map Ranking.r_ingredient
             (filter (fun r => String.eqb (Ranking.r_recipe r) (Ranking.recipe a))
                     df_recipes) in
       matched <> [] /\
       Ranking.matched_ingredients a = Frame.nunique String.eqb matched /\
       Ranking.n_ingredients a = Some (Frame.nunique String.eqb required) /\
       Ranking.n_ingredients a = Some (Ranking.matched_ingredients a) /\
       (exists c, Ranking.coverage a = Some c /\ (c == 1)%Q) /\
       (40 <= Ranking.avg_score a)%Q /\
       (incl matched required -> incl required matched)).
Proof.
  intros df_products df_matches df_full df_recipes Hflags. split.
  - intros b Hb. apply box_priority_origin in Hb. destruct Hb as [Hc [m [p H]]].
    split.
    + intros m0 Hm0 Hr0.
      exact (df_complete_all_available df_matches _ Hc m0 Hm0 Hr0).
    + exists m, p. destruct H as [Hm [Hp [H1 [H2 [H3 [H4 H5]]]]]].
      destruct (Hflags p Hp) as [Hw Hmd].
      repeat split; try assumption. lia.
  - intros a Ha matched required.
    destruct (df_ranked_origin _ _ _ Ha) as [Hmatched [Hn [Hcov Hscore]]].
    destruct (df_ranked_required _ _ _ Ha) as [Hreq [row [Hrow [Hs Hr]]]].
    fold required in Hreq.
    assert (Hm : Ranking.matched_ingredients a = Frame.nunique String.eqb matched).
    { rewrite Hmatched. reflexivity. }
    assert (Hcount : Frame.nunique String.eqb matched = Frame.nunique String.eqb required).
    { rewrite Hreq in Hn. injection Hn as Hn. now rewrite <- Hm. }
    split; [|split; [exact Hm|split; [exact Hreq|split; [exact Hn|split;
             [exact Hcov|split; [exact Hscore|]]]]]].
    + intros E.
      assert (Hin : In (Boost.ingredient row) matched).
      { unfold matched. apply in_map. apply filter_In. split; [assumption|].
        rewrite Hs, Hr, Z.eqb_refl, String.eqb_refl. reflexivity. }
      rewrite E in Hin. contradiction.
    + intros Hsub i Hi.
      apply (proj1 (unique_In String.eqb String.eqb_eq _ _)).
      apply (NoDup_length_incl (unique_NoDup String.eqb String.eqb_eq matched)
               (l' := Frame.unique String.eqb required)).
      * unfold Frame.nunique in Hcount. lia.
      * intros x Hx. apply (proj2 (unique_In String.eqb String.eqb_eq _ _)).
        apply Hsub. now apply (proj1 (unique_In String.eqb String.eqb_eq _ _)).
      * now apply (proj2 (unique_In String.eqb String.eqb_eq _ _)).
Qed.

(** The theorem on small tables: in store 1024 both ingredients are
    available and the yogurt is flagged, in store 1090 the honey is
    missing; the boosted ranking of store 1024 matches both ingredients of
    the recipe. *)
Lemma deployed_pairs_complete_witness :
  map (fun b => (MealBoxes.b_store b, MealBoxes.b_recipe b))
      (MealBoxes.box_priority Examples.box_products Examples.box_matches)
  = [(1024%Z, "Greek Yogurt & Honey")] /\
  map (fun a => (Ranking.store a, Ranking.recipe a, Ranking.matched_ingredients a))
      (Ranking.df_ranked Examples.unflagged_full Examples.yogurt_honey)
  = [(1024%Z, "Greek Yogurt & Honey", 2%nat)] /\
  ((forall b, In b (MealBoxes.box_priority Examples.box_products Examples.box_matches) ->
      (forall m, In m Examples.box_matches ->
         MealBoxes.recipe m = Some (MealBoxes.b_recipe b) ->
         exists m', In m' Examples.box_matches /\ MealBoxes.match_available m' = true /\
                    MealBoxes.store m' = MealBoxes.b_store b /\
                    MealBoxes.recipe m' = Some (MealBoxes.b_recipe b) /\
                    MealBoxes.ingredient m' = MealBoxes.ingredient m) /\
      (exists m p, In m Examples.box_matches /\ In p Examples.box_products /\
                   MealBoxes.store m = MealBoxes.b_store b /\
                   MealBoxes.recipe m = Some (MealBoxes.b_recipe b) /\
                   MealBoxes.p_store p = MealBoxes.b_store b /\
                   MealBoxes.p_concept p = MealBoxes.ingredient_concept m /\
                   (MealBoxes.waste_flag p = 1 \/ MealBoxes.markdown_flag p = 1)%Z)) /\
   (forall a, In a (Ranking.df_ranked Examples.unflagged_full Examples.yogurt_honey) ->
      let matched :=
        map Boost.ingredient
            (filter (fun row => (Boost.store row =? Ranking.store a)%Z &&
                                String.eqb (Boost.recipe row) (Ranking.recipe a))
                    Examples.unflagged_full) in
      let required :=
        map Ranking.r_ingredient
            (filter (fun r => String.eqb (Ranking.r_recipe r) (Ranking.recipe a))
                    Examples.yogurt_honey) in
      matched <> [] /\
      Ranking.matched_ingredients a = Frame.nunique String.eqb matched /\
      Ranking.n_ingredients a = Some (Frame.nunique String.eqb required) /\
      Ranking.n_ingredients a = Some (Ranking.matched_ingredients a) /\
      (exists c, Ranking.coverage a = Some c /\ (c == 1)%Q) /\
      (40 <= Ranking.avg_score a)%Q /\
      (incl matched required -> incl required matched))).
Proof.
  split; [reflexivity|]. split; [reflexivity|].
  apply (deployed_pairs_complete Examples.box_products Examples.box_matches
           Examples.unflagged_full Examples.yogurt_honey).
  intros p [<-|[<-|[<-|[]]]]; simpl; auto.
Defined.

(** C2 (as stated) fails on the boosted path: a recipe whose two
    ingredients are matched in store 1024 by products without any flag has
    coverage 1 and average score 41.4, and is ranked. *)
Lemma boosted_ranking_keeps_unflagged_recipe :
  (exists a, In a (Ranking.df_ranked Examples.unflagged_full Examples.yogurt_honey) /\
             Ranking.store a = 1024%Z /\
             Ranking.recipe a = "Greek Yogurt & Honey" /\
             Ranking.coverage a = Some (Ranking.ratio_of 2 2) /\
             (Ranking.avg_score a == 414 # 10)%Q) /\
  ~ Ranking.relevant Examples.unflagged_full 1024 "Greek Yogurt & Honey".
Proof.
  split.
  - eexists. split; [left; reflexivity|]. repeat split.
  - intros [row [Hin [_ [_ Hflag]]]].
    destruct Hin as [<-|[<-|[]]]; simpl in Hflag; destruct Hflag; discriminate.
Qed.

(** The coverage gate compares counts, not names: a pair whose single
    matched ingredient is not the one the recipe table lists still has
    coverage 1 and is ranked. *)
Example coverage_gate_compares_counts :
  let df_full :=
    [ {| Boost.store := 1024; Boost.recipe := "Greek Yogurt & Honey";
         Boost.ingredient := "yoghurt"; Boost.product_name := "roeryoghurt";
         Boost.fuzzy_score := 71; Boost.semantic_score := 0;
         Boost.waste_flag := 0; Boost.markdown_flag := 0 |} ] in
  let df_recipes :=
    [ {| Ranking.r_recipe := "Greek Yogurt & Honey"; Ranking.r_ingredient := "honey" |} ] in
  map (fun a => (Ranking.store a, Ranking.recipe a, Ranking.matched_ingredients a,
                 Ranking.n_ingredients a))
      (Ranking.df_ranked df_full df_recipes)
  = [(1024%Z, "Greek Yogurt & Honey", 1%nat, Some 1%nat)].
Proof. reflexivity. Qed.

(** ** Savings against the recorded waste *)

(** C3.  In the random-baseline simulator the inner merge pairs a waste
    row with every deployed match of its store and concept, so a row is
    summed once per match.  Store 1024 records 10 wasted items worth
    18.22; its two deployed ingredients are both matched to yogurt, the
    yogurt row (8 items, 15.92) is counted twice, and the store's savings
    come out as 16 items worth 31.84 - more than the store wasted. *)
Theorem baseline_savings_exceed_recorded_waste :
  RandomBaseline.df_deployed (Examples.baseline 7) Examples.ranked = Examples.deployed_twice /\
  map (fun i => (RandomBaseline.i_store i, RandomBaseline.items_wasted i))
      (RandomBaseline.df_impact
         (RandomBaseline.df_simulated Examples.waste Examples.deployed_twice))
  = [(1024%Z, 16%Z)] /\
  Waste.total_items Examples.waste 1024 = 10%Z /\
  (Waste.total_value Examples.waste 1024 == 1822 # 100)%Q /\
  Forall (fun i =>
            (Waste.total_items Examples.waste (RandomBaseline.i_store i)
             < RandomBaseline.items_wasted i)%Z /\
            (RandomBaseline.value_wasted i == 3184 # 100)%Q /\
            (Waste.total_value Examples.waste (RandomBaseline.i_store i)
             < RandomBaseline.value_wasted i)%Q)
         (RandomBaseline.waste_impact_random RandomBaseline.lcg_seed
            RandomBaseline.lcg_choice 7%Z Examples.ranked Examples.recipes
            Examples.products Examples.waste) /\
  Forall Waste.nonneg Examples.waste.
Proof.
  split; [reflexivity|]. split; [reflexivity|]. split; [reflexivity|].
  split; [reflexivity|]. split.
  - constructor; [|constructor]. repeat split.
  - repeat constructor; discriminate.
Qed.

(** ** Exact concept matches among the candidates *)

Lemma round2_le_100 (q : Q) : (q <= 100)%Q -> (Num.round2 q <= 100)%Q.
Proof.
  intros H. unfold Num.round2.
  assert (Hz : (Num.rint (q * 100) <= 10000)%Z).
  { apply inject_Z_lt_succ. change (inject_Z 10000) with 10000%Q.
    destruct (rint_nearest (q * 100)) as [[A B]|[[T|T] _]]; lra. }
  rewrite Zle_Qle in Hz. change (inject_Z 10000) with 10000%Q in Hz.
  hundredths. lra.
Qed.

Lemma product_eqb_eq (a b : FuzzyMatrix.StoreProduct) :
  FuzzyMatrix.product_eqb a b = true <-> a = b.
Proof.
  unfold FuzzyMatrix.product_eqb.
  rewrite !andb_true_iff, !Z.eqb_eq, String.eqb_eq, opt_eqb_eq.
  destruct a, b; simpl. split.
  - intros [[[-> ->] ->] ->]. reflexivity.
  - intros H. injection H as -> -> -> ->. auto.
Qed.

Section FuzzyFacts.
Variable ratio : string -> string -> Q.
Hypothesis ratio_self : forall a, (ratio a a == 1)%Q.
Hypothesis ratio_le_1 : forall a b, (ratio a b <= 1)%Q.

Lemma candidate_exact (r : Z * string * string) (p : FuzzyMatrix.StoreProduct) :
  exists m, FuzzyMatrix.candidate ratio r (p, snd r) = [m] /\
            (FuzzyMatrix.fuzzy_score m == 100)%Q.
Proof.
  unfold FuzzyMatrix.candidate, FuzzyMatrix.fuzzy_similarity. cbn [snd fst].
  destruct (Qle_bool (ratio (snd r) (snd r)) (1 # 2)) eqn:E.
  - apply Qle_bool_iff in E. pose proof (ratio_self (snd r)). lra.
  - eexists. split; [reflexivity|]. cbn [FuzzyMatrix.fuzzy_score].
    assert (H : (ratio (snd r) (snd r) * 100 == inject_Z 10000 / 100)%Q).
    { rewrite ratio_self. reflexivity. }
    rewrite (round2_Qeq _ _ H), round2_hundredths. reflexivity.
Qed.

Lemma matches_at_most_100 df_recipes products m :
  In m (FuzzyMatrix.matches ratio df_recipes products) ->
  (FuzzyMatrix.fuzzy_score m <= 100)%Q.
Proof.
  unfold FuzzyMatrix.matches. rewrite in_flat_map. intros [r [_ H]].
  apply in_flat_map in H. destruct H as [p [_ H]].
  unfold FuzzyMatrix.candidate, FuzzyMatrix.fuzzy_similarity in H.
  destruct (Qle_bool _ _); [contradiction|]. destruct H as [<-|[]].
  cbn [FuzzyMatrix.fuzzy_score]. apply round2_le_100.
  pose proof (ratio_le_1 (snd r) (snd p)). lra.
Qed.

End FuzzyFacts.

Lemma score_desc_total (a b : ScoreFilter.ScoredRow) :
  ScoreFilter.score_desc a b = true \/ ScoreFilter.score_desc b a = true.
Proof. unfold ScoreFilter.score_desc. rewrite !Z.leb_le. lia. Qed.

Lemma score_desc_trans (a b c : ScoreFilter.ScoredRow) :
  ScoreFilter.score_desc a b = true -> ScoreFilter.score_desc b c = true ->
  ScoreFilter.score_desc a c = true.
Proof. unfold ScoreFilter.score_desc. rewrite !Z.leb_le. lia. Qed.

(** A row kept by [drop_duplicates] is the first of its group: the rows
    before it belong to other groups. *)
Lemma unique_acc_first {A : Type} (eqb : A -> A -> bool)
    (eqb_trans : forall a b c, eqb a b = true -> eqb b c = true -> eqb a c = true)
    (l seen : list A) (t : A) :
  In t (Frame.unique_acc eqb seen l) ->
  (exists l1 l2, l = (l1 ++ t :: l2)%list /\ forall y, In y l1 -> eqb t y = false) /\
  (forall y, In y seen -> eqb t y = false).
Proof.
  revert seen. induction l as [|x l IH]; intros seen; simpl; [contradiction|].
  destruct (Frame.mem eqb x seen) eqn:E.
  - intros H. destruct (IH _ H) as [[l1 [l2 [-> Hl1]]] Hseen].
    split; [|assumption]. exists (x :: l1), l2. split; [reflexivity|].
    intros y [<-|Hy]; [|now apply Hl1].
    unfold Frame.mem in E. apply existsb_exists in E. destruct E as [y0 [Hy0 Exy]].
    destruct (eqb t x) eqn:Etx; [|reflexivity].
    rewrite <- (Hseen y0 Hy0). symmetry. eapply eqb_trans; eassumption.
  - intros [<-|H].
    + split.
      * exists [], l. split; [reflexivity|]. intros y [].
      * intros y Hy. destruct (eqb x y) eqn:Exy; [|reflexivity].
        rewrite <- E. symmetry. unfold Frame.mem. apply existsb_exists. eauto.
    + destruct (IH _ H) as [[l1 [l2 [-> Hl1]]] Hseen]. split.
      * exists (x :: l1), l2. split; [reflexivity|].
        intros y [<-|Hy]; [apply Hseen; now left | now apply Hl1].
      * intros y Hy. apply Hseen. now right.
Qed.

Lemma StronglySorted_after {A : Type} (R : A -> A -> Prop) (l1 l2 : list A) (t : A) :
  StronglySorted R (l1 ++ t :: l2)%list -> Forall (R t) l2.
Proof.
  induction l1 as [|x l1 IH]; simpl; intros H; inversion H; subst; auto.
Qed.

Lemma same_group_trans (a b c : ScoreFilter.ScoredRow) :
  ScoreFilter.same_group a b = true -> ScoreFilter.same_group b c = true ->
  ScoreFilter.same_group a c = true.
Proof.
  unfold ScoreFilter.same_group. rewrite !andb_true_iff, !Z.eqb_eq.
  intros [-> ->] [-> ->]. auto.
Qed.

(** Every retained candidate passed the threshold and no candidate of
    its (row_id, store) group scores higher. *)
Lemma df_top_best (scored : list ScoreFilter.ScoredRow) (t : ScoreFilter.ScoredRow) :
  In t (ScoreFilter.df_top scored) ->
  In t scored /\ (60 <= ScoreFilter.fuzzy_score t)%Z /\
  forall t', In t' scored -> ScoreFilter.same_group t t' = true ->
             (ScoreFilter.fuzzy_score t' <= ScoreFilter.fuzzy_score t)%Z.
Proof.
  unfold ScoreFilter.df_top, ScoreFilter.drop_duplicates, Frame.unique. intros H.
  apply (unique_acc_first _ same_group_trans) in H.
  destruct H as [[l1 [l2 [Hs Hl1]]] _].
  assert (Hin : In t (Frame.stable_sort ScoreFilter.score_desc (ScoreFilter.df_filtered scored))).
  { rewrite Hs. apply in_or_app. right. now left. }
  apply stable_sort_In in Hin. unfold ScoreFilter.df_filtered in Hin.
  apply filter_In in Hin. destruct Hin as [Hin Ht]. apply Z.leb_le in Ht.
  unfold ScoreFilter.threshold in Ht.
  split; [assumption|]. split; [assumption|].
  intros t' Hin' Hg.
  destruct (Z_lt_le_dec (ScoreFilter.fuzzy_score t') 60) as [Hlow|Hhigh]; [lia|].
  assert (Hf : In t' (Frame.stable_sort ScoreFilter.score_desc (ScoreFilter.df_filtered scored))).
  { apply stable_sort_In. apply filter_In. split; [assumption|]. now apply Z.leb_le. }
  assert (Hsorted : StronglySorted (fun a b => ScoreFilter.score_desc a b = true)
                      (Frame.stable_sort ScoreFilter.score_desc (ScoreFilter.df_filtered scored))).
  { generalize (ScoreFilter.df_filtered scored). intros l.
    assert (H0 : StronglySorted (fun _ _ : ScoreFilter.ScoredRow => True) l).
    { induction l; constructor; [assumption|]. apply Forall_forall. auto. }
    apply (stable_sort_sorted_then _ score_desc_total score_desc_trans) in H0.
    revert H0. apply StronglySorted_weaken. intros a b _ _ [Hab _]. exact Hab. }
  rewrite Hs in Hf, Hsorted. apply in_app_or in Hf. destruct Hf as [Hf|[<-|Hf]].
  - rewrite (Hl1 _ Hf) in Hg. discriminate.
  - lia.
  - apply StronglySorted_after in Hsorted. rewrite Forall_forall in Hsorted.
    specialize (Hsorted _ Hf). unfold ScoreFilter.score_desc in Hsorted.
    now apply Z.leb_le in Hsorted.
Qed.

(** C5 (as the code has it).  In the fuzzy concept matrix (notebook 22) a
    recipe row and a store product of the same concept give a candidate
    scored 100, and no candidate scores more.  The score-and-filter stage
    (notebook 19) does not look at concepts: it keeps candidates whose
    name similarity is at least 60 and, for each (row_id, store), one
    candidate that no other of the group outscores. *)
Theorem exact_concept_candidates :
  forall (ratio : string -> string -> Q),
    (forall a, (ratio a a == 1)%Q) ->
    (forall a b, (ratio a b <= 1)%Q) ->
    (forall df_recipes products r c p,
        In r df_recipes -> FuzzyMatrix.ingredient_concept r = Some c ->
        In p products ->
        FuzzyMatrix.product_concept p = Some (Text.lower (Text.strip c)) ->
        exists m, In m (FuzzyMatrix.matches ratio df_recipes products) /\
                  FuzzyMatrix.m_row_id m = FuzzyMatrix.row_id r /\
                  FuzzyMatrix.m_store m = FuzzyMatrix.store p /\
                  FuzzyMatrix.m_product_article m = FuzzyMatrix.product_article p /\
                  FuzzyMatrix.m_product_concept m = FuzzyMatrix.m_ingredient m /\
                  (FuzzyMatrix.fuzzy_score m == 100)%Q) /\
    (forall df_recipes products m,
        In m (FuzzyMatrix.matches ratio df_recipes products) ->
        (FuzzyMatrix.fuzzy_score m <= 100)%Q) /\
    (forall scored t,
        In t (ScoreFilter.df_top scored) ->
        In t scored /\ (60 <= ScoreFilter.fuzzy_score t)%Z /\
        forall t', In t' scored -> ScoreFilter.same_group t t' = true ->
                   (ScoreFilter.fuzzy_score t' <= ScoreFilter.fuzzy_score t)%Z).
Proof.
  intros ratio Hself Hle. split; [|split].
  - intros df_recipes products r c p Hr Hc Hp Hpc.
    destruct (candidate_exact ratio Hself
                (FuzzyMatrix.row_id r, FuzzyMatrix.recipe r, Text.lower (Text.strip c)) p)
      as [m [Hm Hs]].
    exists m. split.
    + unfold FuzzyMatrix.matches. apply in_flat_map.
      exists (FuzzyMatrix.row_id r, FuzzyMatrix.recipe r, Text.lower (Text.strip c)). split.
      * unfold FuzzyMatrix.normalise_recipes. apply in_flat_map. exists r.
        split; [assumption|]. rewrite Hc. now left.
      * apply in_flat_map. exists (p, Text.lower (Text.strip c)). split.
        -- unfold FuzzyMatrix.df_store_products. apply in_flat_map. exists p.
           split; [now apply (unique_In _ product_eqb_eq)|]. rewrite Hpc. now left.
        -- cbn [snd] in Hm. rewrite Hm. now left.
    + unfold FuzzyMatrix.candidate in Hm. cbn [snd fst] in Hm.
      destruct (Qle_bool _ _); [discriminate|].
      injection Hm as <-. cbn in *. repeat split; try reflexivity. exact Hs.
  - intros df_recipes products m. apply matches_at_most_100. exact Hle.
  - intros scored t. apply df_top_best.
Qed.

(** The theorem on an example, with a similarity that is 1 on equal texts
    and 0 otherwise: the yogurt row and the product roeryoghurt of concept
    yogurt give a candidate scored 100. *)
Lemma exact_concept_candidates_witness :
  exists m, In m (FuzzyMatrix.matches FuzzyMatrix.ratio_eq
                    Examples.fuzzy_recipes Examples.fuzzy_products) /\
            FuzzyMatrix.m_row_id m = 2%Z /\
            FuzzyMatrix.m_store m = 1024%Z /\
            FuzzyMatrix.m_product_article m = 438226%Z /\
            FuzzyMatrix.m_product_concept m = FuzzyMatrix.m_ingredient m /\
            (FuzzyMatrix.fuzzy_score m == 100)%Q.
Proof.
  assert (H1 : forall a, (FuzzyMatrix.ratio_eq a a == 1)%Q).
  { intros a. unfold FuzzyMatrix.ratio_eq. rewrite String.eqb_refl. reflexivity. }
  assert (H2 : forall a b, (FuzzyMatrix.ratio_eq a b <= 1)%Q).
  { intros a b. unfold FuzzyMatrix.ratio_eq. destruct (String.eqb a b); discriminate. }
  destruct (exact_concept_candidates FuzzyMatrix.ratio_eq H1 H2) as [H _].
  apply (H Examples.fuzzy_recipes Examples.fuzzy_products
           Examples.yogurt_row " Yogurt" Examples.roeryoghurt).
  - left. reflexivity.
  - reflexivity.
  - left. reflexivity.
  - reflexivity.
Defined.

(** C5 (as stated) fails in the score-and-filter stage: the candidate
    that pairs yogurt with a product of the concept yogurt is scored 71,
    not 100, by the similarity of the names; and next to a candidate of
    another concept whose name scores 100 it is dropped from its group. *)
Lemma name_score_overrides_exact_concept :
  ScoreFilter.exact_concept Examples.exact_candidate /\
  ~ ScoreFilter.exact_concept Examples.name_candidate /\
  ScoreFilter.df_top
    (ScoreFilter.score_all Examples.token_set_ratio_table [Examples.exact_candidate])
  = [ {| ScoreFilter.cand := Examples.exact_candidate; ScoreFilter.fuzzy_score := 71 |} ] /\
  ScoreFilter.df_top
    (ScoreFilter.score_all Examples.token_set_ratio_table
       [Examples.exact_candidate; Examples.name_candidate])
  = [ {| ScoreFilter.cand := Examples.name_candidate; ScoreFilter.fuzzy_score := 100 |} ].
Proof.
  split; [|split; [|split]].
  - exists "yogurt". split; reflexivity.
  - intros [k [H1 H2]]. simpl in H1, H2. congruence.
  - reflexivity.
  - reflexivity.
Qed.

(** ** Malformed embeddings *)

Section EmbeddingFacts.
Context {F : Type}.
Variable zero : F.
Variable py_float : string -> option F.
Variable py_eval : option string -> Embedding.result (Embedding.cell (F := F)).
Variable cosine_similarity :
  Embedding.cell (F := F) -> Embedding.cell (F := F) -> Embedding.result (option Q).

Local Abbreviation semantic_scores := (Embedding.semantic_scores py_eval cosine_similarity).
Local Abbreviation compute_semantic_similarity :=
  (Embedding.compute_semantic_similarity py_eval cosine_similarity).

Lemma map_float_raises (l : list string) :
  (exists t, In t l /\ py_float t = None) ->
  exists e, Embedding.map_float py_float l = Embedding.Raise e.
Proof.
  induction l as [|x l IH]; intros [t [Hin Ht]]; simpl in *; [contradiction|].
  destruct (py_float x) eqn:E.
  - destruct Hin as [->|Hin]; [congruence|].
    destruct IH as [e He]; [now exists t|]. rewrite He. now exists e.
  - now exists Embedding.ValueError.
Qed.

Lemma fix_embedding_string_total (s : Embedding.cell (F := F)) :
  exists v, Embedding.fix_embedding_string zero py_float s = Embedding.Ok v.
Proof. destruct s; simpl; eexists; reflexivity. Qed.

Lemma compute_semantic_similarity_total (row : Embedding.Row) :
  exists sim, compute_semantic_similarity row = Embedding.Ok sim.
Proof. unfold Embedding.compute_semantic_similarity. eexists. reflexivity. Qed.

Lemma semantic_scores_total (df_full : list Embedding.Row) :
  exists scores, semantic_scores df_full = Embedding.Ok scores /\
                 List.length scores = List.length df_full.
Proof.
  induction df_full as [|row rest [scores [E L]]]; simpl.
  - exists []. auto.
  - rewrite E. simpl. eexists. split; [reflexivity|]. simpl. now rewrite L.
Qed.

Lemma semantic_scores_app (before after : list Embedding.Row) :
  exists sb sa,
    semantic_scores before = Embedding.Ok sb /\
    semantic_scores after = Embedding.Ok sa /\
    semantic_scores (before ++ after)%list = Embedding.Ok (sb ++ sa)%list.
Proof.
  induction before as [|row rest [sb [sa [Eb [Ea E]]]]]; simpl.
  - destruct (semantic_scores_total after) as [sa [Ea _]].
    exists [], sa. auto.
  - rewrite Eb, E. simpl.
    eexists. exists sa. split; [reflexivity|]. split; [assumption|]. reflexivity.
Qed.

End EmbeddingFacts.

(** C9.  A serialised vector with a piece that [float] rejects is
    replaced by 384 zeros by the embedding parser, which returns normally;
    and a row whose embedding text [eval] rejects gets the similarity NaN,
    which [fillna] turns into 0: whatever rows stand before and after it,
    the column is computed for all of them and holds 0 at that row. *)
Theorem malformed_embedding_degrades :
  forall (F : Type) (zero : F) (py_float : string -> option F)
         (py_eval : option string -> Embedding.result (Embedding.cell (F := F)))
         (cosine_similarity :
            Embedding.cell (F := F) -> Embedding.cell (F := F) -> Embedding.result (option Q))
         (text : string) (row : Embedding.Row) (before after : list Embedding.Row),
    (exists t, In t (Embedding.tokens text) /\ py_float t = None) ->
    ((exists e, py_eval (Embedding.ingredient_embedding row) = Embedding.Raise e) \/
     (exists e, py_eval (Embedding.product_embedding row) = Embedding.Raise e)) ->
    Embedding.fix_embedding_string zero py_float (Embedding.Str text)
      = Embedding.Ok (Embedding.Array (repeat zero 384)) /\
    Embedding.compute_semantic_similarity py_eval cosine_similarity row = Embedding.Ok None /\
    exists sb sa,
      Embedding.semantic_scores py_eval cosine_similarity (before ++ row :: after)%list
        = Embedding.Ok (sb ++ 0%Q :: sa)%list /\
      List.length sb = List.length before /\ List.length sa = List.length after.
Proof.
  intros F zero py_float py_eval cosine text row before after Hbad Heval.
  assert (Hrow : Embedding.compute_semantic_similarity py_eval cosine row = Embedding.Ok None).
  { unfold Embedding.compute_semantic_similarity.
    destruct Heval as [[e He]|[e He]].
    - rewrite He. reflexivity.
    - destruct (py_eval (Embedding.ingredient_embedding row)); [|reflexivity].
      cbn [Embedding.bind]. rewrite He. reflexivity. }
  split; [|split; [exact Hrow|]].
  - unfold Embedding.fix_embedding_string.
    destruct (map_float_raises py_float _ Hbad) as [e He]. rewrite He. reflexivity.
  - destruct (semantic_scores_app py_eval cosine before (row :: after))
      as [sb [sa' [Eb [Ea E]]]].
    destruct (semantic_scores_total py_eval cosine before) as [sb' [Eb' Lb]].
    destruct (semantic_scores_total py_eval cosine after) as [sa [Ea' La]].
    assert (sb' = sb) by congruence. subst sb'.
    cbn [Embedding.semantic_scores] in Ea.
    rewrite Hrow, Ea' in Ea. cbn [Embedding.bind Embedding.fillna0] in Ea.
    injection Ea as <-.
    exists sb, sa. auto.
Qed.

(** The theorem on an example: the piece x of the text [1 x 3] is no
    number, and [eval] rejects the row's embedding text. *)
Lemma malformed_embedding_degrades_witness :
  Embedding.fix_embedding_string 0%Q Embedding.int_float (Embedding.Str "[1 -2 3]")
    = Embedding.Ok (Embedding.FloatList [1%Q; (-2)%Q; 3%Q]) /\
  (Embedding.fix_embedding_string 0%Q Embedding.int_float (Embedding.Str "[1 x 3]")
     = Embedding.Ok (Embedding.Array (repeat 0%Q 384)) /\
   Embedding.compute_semantic_similarity
     (fun _ => Embedding.Raise Embedding.SyntaxError)
     (fun _ _ : Embedding.cell (F := Q) => Embedding.Ok (Some 1%Q))
     {| Embedding.ingredient_embedding := Some "[1 x 3]";
        Embedding.product_embedding := Some "[1 2 3]" |} = Embedding.Ok None /\
   exists sb sa,
     Embedding.semantic_scores
       (fun _ => Embedding.Raise Embedding.SyntaxError)
       (fun _ _ : Embedding.cell (F := Q) => Embedding.Ok (Some 1%Q))
       ([] ++ {| Embedding.ingredient_embedding := Some "[1 x 3]";
                 Embedding.product_embedding := Some "[1 2 3]" |} :: [])%list
       = Embedding.Ok (sb ++ 0%Q :: sa)%list /\
     List.length sb = List.length (@nil Embedding.Row) /\
     List.length sa = List.length (@nil Embedding.Row)).
Proof.
  split; [reflexivity|].
  apply (malformed_embedding_degrades Q 0%Q Embedding.int_float
           (fun _ => Embedding.Raise Embedding.SyntaxError)
           (fun _ _ => Embedding.Ok (Some 1%Q))
           "[1 x 3]"
           {| Embedding.ingredient_embedding := Some "[1 x 3]";
              Embedding.product_embedding := Some "[1 2 3]" |} [] []).
  - exists "x". split; [right; left; reflexivity | reflexivity].
  - left. exists Embedding.SyntaxError. reflexivity.
Defined.

(** ** The deployed plan never saves more than was wasted (notebook 14) *)

Lemma sumZ_app (l l' : list Z) : Num.sumZ (l ++ l')%list = (Num.sumZ l + Num.sumZ l')%Z.
Proof. induction l as [|x l IH]; simpl; lia. Qed.

Lemma sumQ_app (l l' : list Q) : (Num.sumQ (l ++ l')%list == Num.sumQ l + Num.sumQ l')%Q.
Proof. induction l as [|x l IH]; simpl; [lra | rewrite IH; lra]. Qed.

Lemma sumZ_perm (l l' : list Z) : Permutation l l' -> Num.sumZ l = Num.sumZ l'.
Proof. induction 1; simpl; lia. Qed.

Lemma sumQ_perm (l l' : list Q) : Permutation l l' -> (Num.sumQ l == Num.sumQ l')%Q.
Proof. induction 1; simpl; lra. Qed.

Lemma filter_map_comm {A B : Type} (f : A -> B) (p : B -> bool) (l : list A) :
  filter p (map f l) = map f (filter (fun x => p (f x)) l).
Proof.
  induction l as [|x l IH]; simpl; [reflexivity|].
  destruct (p (f x)); simpl; now rewrite IH.
Qed.

Section Partition.
Context {R K : Type} (hk : K -> R -> bool).
Hypothesis hk_one : forall k k' r, hk k r = true -> hk k' r = true -> k = k'.

Lemma filter_disjoint_perm (p q : R -> bool) (l : list R) :
  (forall r, p r = true -> q r = true -> False) ->
  Permutation (filter p l ++ filter q l)%list (filter (fun r => p r || q r) l).
Proof.
  intros Hd. induction l as [|r l IH]; simpl; [constructor|].
  destruct (p r) eqn:Ep, (q r) eqn:Eq; simpl.
  - exfalso. eauto.
  - now constructor.
  - eapply Permutation_trans; [apply Permutation_sym, Permutation_middle|]. now constructor.
  - assumption.
Qed.

(** The groups of distinct keys split the rows that have one of the keys. *)
Lemma groups_split (ks : list K) (l : list R) :
  NoDup ks ->
  Permutation (flat_map (fun k => filter (hk k) l) ks)
              (filter (fun r => existsb (fun k => hk k r) ks) l).
Proof.
  induction 1 as [|k ks Hnin Hnd IH]; simpl.
  - induction l; simpl; auto.
  - eapply Permutation_trans; [apply Permutation_app_head, IH|].
    apply filter_disjoint_perm. intros r Hk He.
    apply existsb_exists in He. destruct He as [k' [Hin Hk']].
    rewrite (hk_one _ _ _ Hk Hk') in Hnin. contradiction.
Qed.

End Partition.

Section Bounded.
Context {R : Type}.

Lemma sumZ_filter_mono (f : R -> Z) (p q : R -> bool) (l : list R) :
  (forall r, In r l -> (0 <= f r)%Z) ->
  (forall r, In r l -> p r = true -> q r = true) ->
  (Num.sumZ (map f (filter p l)) <= Num.sumZ (map f (filter q l)))%Z.
Proof.
  induction l as [|r l IH]; intros Hf Hpq; simpl; [lia|].
  assert (IH' : (Num.sumZ (map f (filter p l)) <= Num.sumZ (map f (filter q l)))%Z).
  { apply IH; intros; [apply Hf | apply Hpq]; simpl; auto. }
  pose proof (Hf r (or_introl eq_refl)). pose proof (Hpq r (or_introl eq_refl)) as Hr.
  destruct (p r), (q r); simpl; try lia; specialize (Hr eq_refl); discriminate.
Qed.

Lemma sumQ_filter_mono (f : R -> Q) (p q : R -> bool) (l : list R) :
  (forall r, In r l -> (0 <= f r)%Q) ->
  (forall r, In r l -> p r = true -> q r = true) ->
  (Num.sumQ (map f (filter p l)) <= Num.sumQ (map f (filter q l)))%Q.
Proof.
  induction l as [|r l IH]; intros Hf Hpq; simpl; [lra|].
  assert (IH' : (Num.sumQ (map f (filter p l)) <= Num.sumQ (map f (filter q l)))%Q).
  { apply IH; intros; [apply Hf | apply Hpq]; simpl; auto. }
  pose proof (Hf r (or_introl eq_refl)). pose proof (Hpq r (or_introl eq_refl)) as Hr.
  destruct (p r), (q r); simpl; try lra; specialize (Hr eq_refl); discriminate.
Qed.

Lemma sumZ_flat_map {K : Type} (f : R -> Z) (g : K -> list R) (ks : list K) :
  Num.sumZ (map (fun k => Num.sumZ (map f (g k))) ks) = Num.sumZ (map f (flat_map g ks)).
Proof.
  induction ks as [|k ks IH]; simpl; [reflexivity|].
  rewrite map_app, sumZ_app. lia.
Qed.

Lemma sumQ_flat_map {K : Type} (f : R -> Q) (g : K -> list R) (ks : list K) :
  (Num.sumQ (map (fun k => Num.sumQ (map f (g k))) ks)
   == Num.sumQ (map f (flat_map g ks)))%Q.
Proof.
  induction ks as [|k ks IH]; simpl; [reflexivity|].
  rewrite map_app, sumQ_app, IH. reflexivity.
Qed.

End Bounded.

Lemma filter_twice {A : Type} (c q : A -> bool) (l : list A) :
  filter q (filter c l) = filter (fun x => c x && q x) l.
Proof.
  induction l as [|x l IH]; simpl; [reflexivity|].
  destruct (c x); simpl; [destruct (q x)|]; now rewrite IH.
Qed.

Lemma NoDup_filter_keep {A : Type} (p : A -> bool) (l : list A) :
  NoDup l -> NoDup (filter p l).
Proof.
  induction 1 as [|x l Hn Hnd IH]; simpl; [constructor|].
  destruct (p x); [|assumption]. constructor; [|assumption].
  intros H. apply filter_In in H. tauto.
Qed.

(** The rows the savings of store [s] are summed over: covered rows of
    the store, every one of them counted once. *)
Lemma savings_rows (df_ranked : list WasteSimulator.RankedRow)
    (df_waste : list Waste.WasteRow) (t : WasteSimulator.Total) :
  In t (WasteSimulator.df_totals df_ranked df_waste) ->
  exists rows,
    WasteSimulator.total_items_saved t = Num.sumZ (map WasteSimulator.v_items rows) /\
    (WasteSimulator.total_value_saved t == Num.sumQ (map WasteSimulator.v_value rows))%Q /\
    exists P, rows = filter P (WasteSimulator.df_covered df_ranked df_waste) /\
              forall r, P r = true -> WasteSimulator.v_store r = WasteSimulator.t_store t.
Proof.
  unfold WasteSimulator.df_totals. rewrite in_map_iff. intros [g [<- Hg]].
  apply groupby_In in Hg. destruct Hg as [_ Hrows].
  cbn [WasteSimulator.total_items_saved WasteSimulator.total_value_saved
       WasteSimulator.t_store].
  rewrite Hrows. unfold WasteSimulator.df_savings, Frame.groupby.
  set (covered := WasteSimulator.df_covered df_ranked df_waste).
  set (keyf := fun v => Some (WasteSimulator.v_store v, WasteSimulator.v_concept v)).
  set (keys := Frame.group_keys Frame.key_eqb Frame.key_leb keyf covered).
  set (hk := Frame.has_key Frame.key_eqb keyf).
  rewrite map_map, filter_map_comm, !map_map.
  cbn [WasteSimulator.items_saved WasteSimulator.value_saved fst snd].
  set (ks := filter _ keys).
  assert (Hks : forall k, In k ks -> fst k = fst g).
  { intros k Hk. unfold ks in Hk. apply filter_In in Hk. destruct Hk as [_ Hk].
    unfold Frame.has_key in Hk. cbn in Hk. now apply Z.eqb_eq in Hk. }
  assert (Hnd : NoDup ks).
  { apply NoDup_filter_keep. apply (group_keys_NoDup _ _ _ key_eqb_eq). }
  assert (Hone : forall k k' r, hk k r = true -> hk k' r = true -> k = k').
  { intros k k' r H1 H2. apply (has_key_true _ _ key_eqb_eq) in H1, H2. congruence. }
  pose proof (groups_split hk Hone ks covered Hnd) as Hperm.
  exists (filter (fun r => existsb (fun k => hk k r) ks) covered).
  split; [|split].
  - rewrite (sumZ_flat_map WasteSimulator.v_items (fun k => filter (hk k) covered) ks).
    apply sumZ_perm, Permutation_map, Hperm.
  - rewrite (sumQ_flat_map WasteSimulator.v_value (fun k => filter (hk k) covered) ks).
    apply sumQ_perm, Permutation_map, Hperm.
  - eexists. split; [reflexivity|]. intros r Hr.
    apply existsb_exists in Hr. destruct Hr as [k [Hk Hkr]].
    apply (has_key_true _ _ key_eqb_eq) in Hkr. unfold keyf in Hkr.
    injection Hkr as Hkr. rewrite <- (Hks k Hk), <- Hkr. reflexivity.
Qed.

(** X14.  The simulator of the deployed plan never saves more than was
    wasted: with non-negative waste records, the items and the value saved
    in a store are at most what the snapshot records for the store. *)
Lemma deployed_plan_savings_bounded (df_ranked : list WasteSimulator.RankedRow)
    (df_waste : list Waste.WasteRow) (t : WasteSimulator.Total) :
  Forall Waste.nonneg df_waste ->
  In t (WasteSimulator.df_totals df_ranked df_waste) ->
  (WasteSimulator.total_items_saved t
   <= Waste.total_items df_waste (WasteSimulator.t_store t))%Z /\
  (WasteSimulator.total_value_saved t
   <= Waste.total_value df_waste (WasteSimulator.t_store t))%Q.
Proof.
  intros Hnn Ht. destruct (savings_rows _ _ _ Ht) as [rows [Hi [Hv [P [-> HP]]]]].
  rewrite Hi, Hv. clear Hi Hv Ht.
  set (s := WasteSimulator.t_store t) in *.
  unfold WasteSimulator.df_covered, WasteSimulator.df_waste_valid,
    Waste.total_items, Waste.total_value.
  rewrite filter_twice, filter_map_comm, !map_map.
  cbn [WasteSimulator.v_items WasteSimulator.v_value].
  rewrite Forall_forall in Hnn.
  split.
  - apply sumZ_filter_mono.
    + intros w Hw. apply (Hnn w Hw).
    + intros w Hw H. apply andb_true_iff in H. destruct H as [_ H].
      apply HP in H. cbn in H. unfold Waste.in_store. now apply Z.eqb_eq.
  - apply sumQ_filter_mono.
    + intros w Hw. apply (Hnn w Hw).
    + intros w Hw H. apply andb_true_iff in H. destruct H as [_ H].
      apply HP in H. cbn in H. unfold Waste.in_store. now apply Z.eqb_eq.
Qed.

Lemma deployed_plan_savings_bounded_witness :
  map (fun t => (WasteSimulator.t_store t, WasteSimulator.total_items_saved t))
      (WasteSimulator.df_totals Samples.ranked_plan Examples.waste)
  = [(1024%Z, 8%Z)] /\
  Forall (fun t =>
            (WasteSimulator.total_items_saved t
             <= Waste.total_items Examples.waste (WasteSimulator.t_store t))%Z /\
            (WasteSimulator.total_value_saved t
             <= Waste.total_value Examples.waste (WasteSimulator.t_store t))%Q)
         (WasteSimulator.df_totals Samples.ranked_plan Examples.waste).
Proof.
  split; [reflexivity|]. apply Forall_forall. intros t Ht.
  apply (deployed_plan_savings_bounded Samples.ranked_plan Examples.waste t).
  - repeat constructor; vm_compute; discriminate.
  - exact Ht.
Defined.

(** * Further properties of the pipeline *)

(** ** The boosted score *)

Lemma rint_mono (q q' : Q) : (q <= q')%Q -> (Num.rint q <= Num.rint q')%Z.
Proof.
  intros H. destruct (Z_le_gt_dec (Num.rint q) (Num.rint q')) as [|Hgt]; [assumption|].
  exfalso.
  assert (Hs : (inject_Z (Num.rint q') + 1 <= inject_Z (Num.rint q))%Q).
  { change 1%Q with (inject_Z 1). rewrite <- inject_Z_plus, <- Zle_Qle. lia. }
  assert (E : (q == q')%Q).
  { destruct (rint_nearest q) as [[A B]|[[T|T] _]],
             (rint_nearest q') as [[A' B']|[[T'|T'] _]]; lra. }
  apply rint_Qeq in E. lia.
Qed.

Lemma round2_mono (q q' : Q) : (q <= q')%Q -> (Num.round2 q <= Num.round2 q')%Q.
Proof.
  intros H. unfold Num.round2.
  assert (Hz : (Num.rint (q * 100) <= Num.rint (q' * 100))%Z) by (apply rint_mono; lra).
  rewrite Zle_Qle in Hz. hundredths. lra.
Qed.

(** X1.  The boosted score is monotone: a pair with a fuzzy score, a
    semantic score and a number of flags that are each at least those of
    another pair never gets the lower rounded score. *)
Theorem final_score_monotone (r r' : Boost.FullRow) :
  (Boost.fuzzy_score r <= Boost.fuzzy_score r')%Z ->
  (Boost.semantic_score r <= Boost.semantic_score r')%Q ->
  (Boost.waste_flag r + Boost.markdown_flag r
   <= Boost.waste_flag r' + Boost.markdown_flag r')%Z ->
  (Boost.final_score r <= Boost.final_score r')%Q.
Proof.
  intros Hf Hs Hb. apply round2_mono.
  unfold Boost.weighted_sum, Boost.WEIGHT_FUZZY, Boost.WEIGHT_SEMANTIC, Boost.PRIORITY_BONUS.
  rewrite Zle_Qle in Hf, Hb. lra.
Qed.

Lemma final_score_monotone_witness :
  (Boost.final_score Examples.yogurt_pair
   <= Boost.final_score (Boost.with_flags Examples.yogurt_pair 1 0))%Q.
Proof.
  apply final_score_monotone.
  - cbn. lia.
  - cbn. lra.
  - cbn. lia.
Defined.

(** X2.  Each waste or markdown flag raises the stored score by 5.00,
    give or take 0.01: for a fuzzy score between 0 and 100, a cosine
    similarity between -1 and 1 and flags [w] and [m] that are 0 or 1,
    the score counted in whole hundredths is that of the same pair with
    neither flag plus 500 * (w + m), within 1.  With the exact numbers of
    this model the bonus is exact; the slack is what rounding a binary
    floating point sum can cost. *)
Theorem final_score_bonus_within_one_hundredth (r : Boost.FullRow) (w m : Z) :
  (0 <= Boost.fuzzy_score r <= 100)%Z ->
  (-1 <= Boost.semantic_score r <= 1)%Q ->
  (0 <= w <= 1)%Z -> (0 <= m <= 1)%Z ->
  (Z.abs (Num.rint (Boost.final_score (Boost.with_flags r w m) * 100)
          - Num.rint (Boost.final_score (Boost.with_flags r 0 0) * 100)
          - 500 * (w + m)) <= 1)%Z.
Proof.
  intros _ _ _ _.
  unfold Boost.final_score. rewrite !rint_round2_hundredths.
  assert (E : Num.rint (Boost.weighted_sum (Boost.with_flags r w m) * 100)
              = (Num.rint (Boost.weighted_sum (Boost.with_flags r 0 0) * 100)
                 + 500 * (w + m))%Z).
  { rewrite <- (rint_shift_even _ (500 * (w + m))) by (rewrite Z.even_mul; reflexivity).
    apply rint_Qeq.
    unfold Boost.weighted_sum, Boost.with_flags, Boost.WEIGHT_FUZZY,
      Boost.WEIGHT_SEMANTIC, Boost.PRIORITY_BONUS.
    cbn [Boost.fuzzy_score Boost.semantic_score Boost.waste_flag Boost.markdown_flag].
    rewrite inject_Z_mult. change (inject_Z 500) with 500%Q.
    change (inject_Z (0 + 0)) with 0%Q. lra. }
  rewrite E. lia.
Qed.

(** The pair yogurt / roeryoghurt (fuzzy 71, semantic 0.12345) with the
    waste flag alone. *)
Lemma final_score_bonus_within_one_hundredth_witness :
  (Z.abs (Num.rint (Boost.final_score (Boost.with_flags Examples.yogurt_pair 1 0) * 100)
          - Num.rint (Boost.final_score (Boost.with_flags Examples.yogurt_pair 0 0) * 100)
          - 500 * (1 + 0)) <= 1)%Z.
Proof.
  apply (final_score_bonus_within_one_hundredth Examples.yogurt_pair 1 0).
  - cbn. lia.
  - cbn. split; [vm_compute; discriminate | vm_compute; discriminate].
  - lia.
  - lia.
Defined.

(** ** One row per (store, recipe) and the store performance table *)

Lemma StronglySorted_neq_NoDup {A B : Type} (f : A -> B) (R : A -> A -> Prop) (l : list A) :
  StronglySorted (fun a b => R a b /\ f a <> f b) l -> NoDup (map f l).
Proof.
  induction 1 as [|x l Hs IH Hf]; simpl; constructor; [|assumption].
  rewrite in_map_iff. intros [y [Hy Hin]].
  rewrite Forall_forall in Hf. destruct (Hf y Hin) as [_ Hne]. congruence.
Qed.

Lemma NoDup_map_filter {R K : Type} (key : R -> K) (keep : R -> bool) (rows : list R) :
  NoDup (map key rows) -> NoDup (map key (filter keep rows)).
Proof.
  intros Hnd. induction rows as [|r rows IH]; cbn [filter]; [constructor|].
  cbn [map] in Hnd. inversion Hnd as [|? ? Hfresh Hrest]; subst.
  destruct (keep r); [|now apply IH]. cbn [map]. constructor; [|now apply IH].
  intros Hin. apply Hfresh. apply in_map_iff in Hin. destruct Hin as [r' [Hk Hr']].
  apply filter_In in Hr'. apply in_map_iff. exists r'. tauto.
Qed.

Lemma unique_acc_NoDup_id {A : Type} (eqb : A -> A -> bool)
    (eqb_eq : forall a b, eqb a b = true <-> a = b) (l seen : list A) :
  NoDup l -> (forall x, In x l -> ~ In x seen) -> Frame.unique_acc eqb seen l = l.
Proof.
  revert seen. induction l as [|x l IH]; intros seen Hnd Hs; simpl; [reflexivity|].
  inversion Hnd as [|? ? Hn Hnd']; subst.
  assert (Hm : Frame.mem eqb x seen = false).
  { apply (mem_false eqb eqb_eq). apply Hs. now left. }
  rewrite Hm. f_equal. apply IH; [assumption|].
  intros y Hy [<-|Hin]; [contradiction|]. apply (Hs y); [now right | assumption].
Qed.

Lemma nunique_NoDup {A : Type} (eqb : A -> A -> bool)
    (eqb_eq : forall a b, eqb a b = true <-> a = b) (l : list A) :
  NoDup l -> Frame.nunique eqb l = List.length l.
Proof.
  intros H. unfold Frame.nunique, Frame.unique.
  rewrite (unique_acc_NoDup_id eqb eqb_eq); [reflexivity | assumption | auto].
Qed.

Lemma groupby_group {R K : Type} (eqb leb : K -> K -> bool) (key : R -> option K)
    (rows : list R) (g : K * list R) :
  In g (Frame.groupby eqb leb key rows) <->
  In (fst g) (Frame.group_keys eqb leb key rows) /\
  snd g = filter (Frame.has_key eqb key (fst g)) rows.
Proof.
  unfold Frame.groupby. rewrite in_map_iff. split.
  - intros [k [<- Hk]]. split; [assumption | reflexivity].
  - intros [Hk Hs]. exists (fst g). split; [|assumption].
    destruct g as [k rs]. simpl in *. now subst.
Qed.

Lemma df_ranked_keys_NoDup (df_full : list Boost.FullRow) (df_recipes : list Ranking.RecipeRow) :
  NoDup (map (fun a => (Ranking.store a, Ranking.recipe a))
             (Ranking.df_ranked df_full df_recipes)).
Proof.
  unfold Ranking.df_ranked.
  eapply Permutation_NoDup.
  - apply Permutation_map. apply stable_sort_perm.
  - apply NoDup_map_filter.
    apply (StronglySorted_neq_NoDup _ _ _ (df_agg_in_key_order df_full df_recipes)).
Qed.

Lemma box_priority_keys_NoDup (df_products : list MealBoxes.ProductRow)
    (df_matches : list MealBoxes.MatchRow) :
  NoDup (map (fun b => (MealBoxes.b_store b, MealBoxes.b_recipe b))
             (MealBoxes.box_priority df_products df_matches)).
Proof.
  unfold MealBoxes.box_priority.
  eapply Permutation_NoDup.
  - apply Permutation_map. apply stable_sort_perm.
  - apply (StronglySorted_neq_NoDup _ _ _ (box_priority_in_key_order df_products df_matches)).
Qed.

(** X3.  Both ranked outputs list a (store, recipe) pair at most once. *)
Theorem ranked_tables_one_row_per_pair :
  forall (df_full : list Boost.FullRow) (df_recipes : list Ranking.RecipeRow)
         (df_products : list MealBoxes.ProductRow) (df_matches : list MealBoxes.MatchRow),
    NoDup (map (fun a => (Ranking.store a, Ranking.recipe a))
               (Ranking.df_ranked df_full df_recipes)) /\
    NoDup (map (fun b => (MealBoxes.b_store b, MealBoxes.b_recipe b))
               (MealBoxes.box_priority df_products df_matches)).
Proof.
  intros. split; [apply df_ranked_keys_NoDup | apply box_priority_keys_NoDup].
Qed.

Lemma store_recipes_NoDup (df_full : list Boost.FullRow) (df_recipes : list Ranking.RecipeRow)
    (s : Z) :
  NoDup (map Ranking.recipe
             (filter (fun a => (Ranking.store a =? s)%Z) (Ranking.df_ranked df_full df_recipes))).
Proof.
  pose proof (df_ranked_keys_NoDup df_full df_recipes) as H.
  apply (NoDup_map_filter _ (fun a => (Ranking.store a =? s)%Z)) in H.
  revert H. generalize (Ranking.df_ranked df_full df_recipes). intros l.
  induction l as [|a l IH]; simpl; [constructor|].
  destruct (Ranking.store a =? s)%Z eqn:E; [|assumption].
  simpl. intros H. inversion H as [|? ? Hn Hnd]; subst. constructor; [|auto].
  rewrite in_map_iff. intros [b [Hb Hin]]. apply Hn. rewrite in_map_iff.
  exists b. split; [|assumption].
  apply filter_In in Hin. destruct Hin as [_ Hin].
  apply Z.eqb_eq in E, Hin. congruence.
Qed.

Lemma recipe_counts_In (df_full : list Boost.FullRow) (df_recipes : list Ranking.RecipeRow)
    (s : Z) (n : nat) :
  In (s, n) (StorePerformance.recipe_counts (Ranking.df_ranked df_full df_recipes)) <->
  n = List.length (filter (fun a => (Ranking.store a =? s)%Z)
                          (Ranking.df_ranked df_full df_recipes)) /\ (1 <= n)%nat.
Proof.
  unfold StorePerformance.recipe_counts.
  set (ranked := Ranking.df_ranked df_full df_recipes).
  set (keyf := fun a : Ranking.AggRow => Some (Ranking.store a)).
  assert (Hf : forall k, filter (Frame.has_key Z.eqb keyf k) ranked
                         = filter (fun a => (Ranking.store a =? k)%Z) ranked).
  { intros k. apply filter_ext. intros a. reflexivity. }
  assert (Hn : forall k, Frame.nunique String.eqb
                 (map Ranking.recipe (filter (fun a => (Ranking.store a =? k)%Z) ranked))
               = List.length (filter (fun a => (Ranking.store a =? k)%Z) ranked)).
  { intros k. rewrite (nunique_NoDup _ String.eqb_eq), length_map; [reflexivity|].
    apply store_recipes_NoDup. }
  rewrite in_map_iff. split.
  - intros [g [Hg Hin]]. apply groupby_group in Hin. destruct Hin as [Hk Hs].
    injection Hg as Hg1 Hg2. rewrite Hs, Hg1, Hf, Hn in Hg2. split; [now symmetry|].
    rewrite Hg1 in Hk. apply (group_keys_In _ _ _ Z.eqb_eq) in Hk.
    destruct Hk as [a [Ha Hka]]. injection Hka as Hka.
    assert (Hin : In a (filter (fun a => (Ranking.store a =? s)%Z) ranked)).
    { apply filter_In. split; [assumption | now apply Z.eqb_eq]. }
    rewrite <- Hg2. destruct (filter _ ranked); [contradiction | simpl; lia].
  - intros [-> Hpos].
    exists (s, filter (Frame.has_key Z.eqb keyf s) ranked). cbn [fst snd]. split.
    + rewrite Hf, Hn. reflexivity.
    + apply groupby_group. cbn [fst snd]. split; [|reflexivity].
      apply (group_keys_In _ _ _ Z.eqb_eq).
      destruct (filter (fun a => (Ranking.store a =? s)%Z) ranked) as [|a l] eqn:E;
        [simpl in Hpos; lia|].
      assert (Ha : In a (filter (fun a => (Ranking.store a =? s)%Z) ranked))
        by (rewrite E; now left).
      apply filter_In in Ha. destruct Ha as [Ha Hs]. exists a. split; [assumption|].
      unfold keyf. f_equal. now apply Z.eqb_eq.
Qed.

(** X4.  The store performance table counts the ranked rows of each
    store: a store is listed exactly when it has a ranked recipe, with the
    number of its rows in the ranked table, and it is tagged as
    underperforming exactly when that number is one.  A store without any
    ranked recipe is neither listed nor tagged. *)
Theorem underperforming_stores :
  forall (df_full : list Boost.FullRow) (df_recipes : list Ranking.RecipeRow) (s : Z) (n : nat),
    let ranked := Ranking.df_ranked df_full df_recipes in
    let rows := filter (fun a => (Ranking.store a =? s)%Z) ranked in
    (In (s, n) (StorePerformance.recipe_counts ranked) <->
       n = List.length rows /\ (1 <= n)%nat) /\
    (In (s, n) (StorePerformance.tagged ranked) <-> n = List.length rows /\ n = 1%nat).
Proof.
  intros df_full df_recipes s n ranked rows. split; [apply recipe_counts_In|].
  unfold StorePerformance.tagged. rewrite filter_In. fold ranked.
  unfold ranked at 1. rewrite recipe_counts_In. fold ranked. fold rows.
  unfold StorePerformance.underperforming, StorePerformance.min_recipes. cbn [snd].
  rewrite Nat.ltb_lt. lia.
Qed.

(** ** Score and filter: what the best-candidate table holds *)

Lemma unique_acc_pairs {A : Type} (eqb : A -> A -> bool) (l seen : list A) :
  ForallOrdPairs (fun a b => eqb b a = false) (Frame.unique_acc eqb seen l) /\
  Forall (fun b => forall y, In y seen -> eqb b y = false) (Frame.unique_acc eqb seen l).
Proof.
  revert seen. induction l as [|x l IH]; intros seen; simpl.
  - split; constructor.
  - destruct (Frame.mem eqb x seen) eqn:E; [apply IH|].
    destruct (IH (x :: seen)) as [Hp Hs]. split.
    + constructor; [|assumption].
      eapply Forall_impl; [|exact Hs]. intros b Hb. apply Hb. now left.
    + constructor.
      * intros y Hy. unfold Frame.mem in E.
        destruct (eqb x y) eqn:Exy; [|reflexivity].
        assert (existsb (eqb x) seen = true) by (apply existsb_exists; eauto).
        congruence.
      * eapply Forall_impl; [|exact Hs]. intros b Hb y Hy. apply Hb. now right.
Qed.

Lemma unique_acc_represented {A : Type} (eqb : A -> A -> bool)
    (eqb_refl : forall a, eqb a a = true) (l seen : list A) (c : A) :
  In c l ->
  (exists y, In y seen /\ eqb c y = true) \/
  (exists t, In t (Frame.unique_acc eqb seen l) /\ eqb c t = true).
Proof.
  revert seen. induction l as [|x l IH]; intros seen Hc; [contradiction|].
  simpl. destruct (Frame.mem eqb x seen) eqn:E.
  - destruct Hc as [<-|Hc]; [|now apply IH].
    left. unfold Frame.mem in E. apply existsb_exists in E. exact E.
  - destruct Hc as [<-|Hc].
    + right. exists x. split; [now left | apply eqb_refl].
    + destruct (IH (x :: seen) Hc) as [[y [[<-|Hy] Hcy]]|[t [Ht Hct]]].
      * right. exists x. split; [now left | assumption].
      * left. eauto.
      * right. exists t. split; [now right | assumption].
Qed.

Lemma same_group_sym (a b : ScoreFilter.ScoredRow) :
  ScoreFilter.same_group a b = ScoreFilter.same_group b a.
Proof.
  unfold ScoreFilter.same_group.
  rewrite (Z.eqb_sym (ScoreFilter.row_id (ScoreFilter.cand a))),
          (Z.eqb_sym (ScoreFilter.store (ScoreFilter.cand a))). reflexivity.
Qed.

Lemma same_group_refl (a : ScoreFilter.ScoredRow) : ScoreFilter.same_group a a = true.
Proof. unfold ScoreFilter.same_group. now rewrite !Z.eqb_refl. Qed.

(** X5.  Whatever the string similarity is, a candidate that lacks the
    ingredient text or the product name scores 0 and is never retained:
    every row of the best-candidate table has both texts, carries their
    [token_set_ratio] as its score, and that score is at least 60. *)
Theorem df_top_rows_are_scored_names :
  forall (token_set_ratio : string -> string -> Z) (df_matches : list ScoreFilter.Candidate),
    Forall (fun t =>
              exists a b,
                ScoreFilter.ingredient (ScoreFilter.cand t) = Some a /\
                ScoreFilter.product_name (ScoreFilter.cand t) = Some b /\
                ScoreFilter.fuzzy_score t = token_set_ratio a b /\
                (60 <= token_set_ratio a b)%Z /\
                In (ScoreFilter.cand t) df_matches)
           (ScoreFilter.df_top (ScoreFilter.score_all token_set_ratio df_matches)).
Proof.
  intros tsr cands. apply Forall_forall. intros t Ht.
  apply df_top_best in Ht. destruct Ht as [Hin [H60 _]].
  unfold ScoreFilter.score_all in Hin. apply in_map_iff in Hin.
  destruct Hin as [c [<- Hc]]. cbn [ScoreFilter.cand ScoreFilter.fuzzy_score] in *.
  unfold ScoreFilter.compute_fuzzy_score in *.
  destruct (ScoreFilter.ingredient c) as [a|]; [|lia].
  destruct (ScoreFilter.product_name c) as [b|]; [|lia].
  exists a, b. auto.
Qed.

(** X6.  The best-candidate table holds one row per (row_id, store): no
    two of its rows share both, and every (row_id, store) that has a
    candidate scoring at least 60 is represented by a row that scores at
    least as much as that candidate. *)
Theorem df_top_one_row_per_group :
  forall scored : list ScoreFilter.ScoredRow,
    ForallOrdPairs (fun a b => ScoreFilter.same_group a b = false)
                   (ScoreFilter.df_top scored) /\
    Forall (fun c =>
              (60 <= ScoreFilter.fuzzy_score c)%Z ->
              exists t, In t (ScoreFilter.df_top scored) /\
                        ScoreFilter.same_group t c = true /\
                        (ScoreFilter.fuzzy_score c <= ScoreFilter.fuzzy_score t)%Z)
           scored.
Proof.
  intros scored. split.
  - unfold ScoreFilter.df_top, ScoreFilter.drop_duplicates, Frame.unique.
    destruct (unique_acc_pairs ScoreFilter.same_group
                (Frame.stable_sort ScoreFilter.score_desc (ScoreFilter.df_filtered scored)) [])
      as [Hp _].
    revert Hp. generalize (Frame.unique_acc ScoreFilter.same_group []
      (Frame.stable_sort ScoreFilter.score_desc (ScoreFilter.df_filtered scored))).
    intros l. induction 1 as [|a l Ha Hl IH]; constructor; [|assumption].
    eapply Forall_impl; [|exact Ha]. intros b Hb. now rewrite same_group_sym.
  - apply Forall_forall. intros c Hc H60.
    assert (Hs : In c (Frame.stable_sort ScoreFilter.score_desc (ScoreFilter.df_filtered scored))).
    { apply stable_sort_In. unfold ScoreFilter.df_filtered. apply filter_In.
      split; [assumption|]. unfold ScoreFilter.threshold. now apply Z.leb_le. }
    destruct (unique_acc_represented ScoreFilter.same_group same_group_refl _ [] c Hs)
      as [[y [[] _]]|[t [Ht Hct]]].
    exists t. split; [exact Ht|]. rewrite same_group_sym in Hct. split; [assumption|].
    apply df_top_best in Ht. destruct Ht as [_ [_ Hbest]]. now apply Hbest.
Qed.

(** ** The fuzzy concept matrix *)

(** X7.  Whatever the similarity function is, every row of the saved
    fuzzy matrix scores at least 50 (a similarity just above 0.5 may round
    down to 50.0 exactly, never below). *)
Theorem matches_at_least_50 :
  forall (ratio : string -> string -> Q) (df_recipes : list FuzzyMatrix.RecipeRow)
         (products : list FuzzyMatrix.StoreProduct),
    Forall (fun m => (50 <= FuzzyMatrix.fuzzy_score m)%Q)
           (FuzzyMatrix.matches ratio df_recipes products).
Proof.
  intros ratio df_recipes products. apply Forall_forall. intros m Hm.
  unfold FuzzyMatrix.matches in Hm. apply in_flat_map in Hm. destruct Hm as [r [_ Hm]].
  apply in_flat_map in Hm. destruct Hm as [p [_ Hm]].
  unfold FuzzyMatrix.candidate, FuzzyMatrix.fuzzy_similarity in Hm.
  destruct (Qle_bool (ratio (snd r) (snd p)) (1 # 2)) eqn:E; [contradiction|].
  destruct Hm as [<-|[]]. cbn [FuzzyMatrix.fuzzy_score].
  assert (Hlt : ~ (ratio (snd r) (snd p) <= 1 # 2)%Q).
  { intros H. apply Qle_bool_iff in H. congruence. }
  assert (H50 : (Num.round2 50 == 50)%Q) by reflexivity.
  rewrite <- H50. apply round2_mono. lra.
Qed.

Lemma fuzzy_matches_filtered (ratio : string -> string -> Q)
    (rs : list (Z * string * string)) (ps : list (FuzzyMatrix.StoreProduct * string)) :
  map (fun m => (FuzzyMatrix.m_row_id m, FuzzyMatrix.m_ingredient m, FuzzyMatrix.m_store m,
                 FuzzyMatrix.m_product_article m, FuzzyMatrix.m_product_name m,
                 FuzzyMatrix.m_product_concept m, FuzzyMatrix.fuzzy_score m))
      (flat_map (fun r => flat_map (FuzzyMatrix.candidate ratio r) ps) rs)
  = map (fun f => (FuzzyAll.row_id f, FuzzyAll.ingredient f, FuzzyAll.store f,
                   FuzzyAll.product_article f, FuzzyAll.product_name f,
                   FuzzyAll.product_concept f, FuzzyAll.fuzzy_score f))
        (filter (fun f => negb (Qle_bool (ratio (FuzzyAll.ingredient f)
                                                (FuzzyAll.product_concept f)) (1 # 2)))
           (flat_map (fun r =>
              map (fun p => {| FuzzyAll.row_id := fst (fst r);
                               FuzzyAll.ingredient := snd r;
                               FuzzyAll.product_article := FuzzyMatrix.product_article (fst p);
                               FuzzyAll.product_name := FuzzyMatrix.product_name (fst p);
                               FuzzyAll.product_concept := snd p;
                               FuzzyAll.store := FuzzyMatrix.store (fst p);
                               FuzzyAll.fuzzy_score := Num.round2 (ratio (snd r) (snd p) * 100);
                               FuzzyAll.match_source := "fuzzy_only" |}) ps) rs)).
Proof.
  induction rs as [|r rs IH]; [reflexivity|].
  cbn [flat_map]. rewrite filter_app, !map_app, IH. f_equal.
  clear IH. induction ps as [|p ps IHp]; [reflexivity|].
  cbn [flat_map map filter FuzzyAll.ingredient FuzzyAll.product_concept].
  rewrite map_app, IHp.
  unfold FuzzyMatrix.candidate at 1, FuzzyMatrix.fuzzy_similarity.
  destruct (Qle_bool (ratio (snd r) (snd p)) (1 # 2)); reflexivity.
Qed.

(** X8.  The first loop of the fuzzy notebook scores every recipe row
    against every store product, and the matrix that is saved is that
    table cut at a similarity above 0.5: same rows, same order, same
    scores. *)
Theorem fuzzy_matrix_is_thresholded_table :
  forall (ratio : string -> string -> Q) (df_recipes : list FuzzyMatrix.RecipeRow)
         (products : list FuzzyMatrix.StoreProduct),
    List.length (FuzzyAll.fuzzy_matches ratio df_recipes products)
    = (List.length (FuzzyMatrix.normalise_recipes df_recipes)
       * List.length (FuzzyMatrix.df_store_products products))%nat /\
    map (fun m => (FuzzyMatrix.m_row_id m, FuzzyMatrix.m_ingredient m, FuzzyMatrix.m_store m,
                   FuzzyMatrix.m_product_article m, FuzzyMatrix.m_product_name m,
                   FuzzyMatrix.m_product_concept m, FuzzyMatrix.fuzzy_score m))
        (FuzzyMatrix.matches ratio df_recipes products)
    = map (fun f => (FuzzyAll.row_id f, FuzzyAll.ingredient f, FuzzyAll.store f,
                     FuzzyAll.product_article f, FuzzyAll.product_name f,
                     FuzzyAll.product_concept f, FuzzyAll.fuzzy_score f))
          (filter (fun f => negb (Qle_bool (ratio (FuzzyAll.ingredient f)
                                                  (FuzzyAll.product_concept f)) (1 # 2)))
                  (FuzzyAll.fuzzy_matches ratio df_recipes products)).
Proof.
  intros ratio df_recipes products. split.
  - unfold FuzzyAll.fuzzy_matches.
    generalize (FuzzyMatrix.normalise_recipes df_recipes) as rs.
    generalize (FuzzyMatrix.df_store_products products) as ps.
    intros ps rs. induction rs as [|r rs IH]; [reflexivity|].
    cbn [flat_map]. rewrite length_app, length_map, IH. simpl. reflexivity.
  - apply fuzzy_matches_filtered.
Qed.

(** ** The random baseline: where its matches come from *)

Lemma existsb_map_comp {A B : Type} (g : A -> B) (f : B -> bool) (l : list A) :
  existsb f (map g l) = existsb (fun x => f (g x)) l.
Proof. induction l as [|x l IH]; simpl; [reflexivity | now rewrite IH]. Qed.

Section BaselineOrigin.
Context {RngState : Type}.
Variable seed_state : Z -> RngState.
Variable choice : RngState -> nat -> nat * RngState.

Lemma random_matches_rows (g : RngState) (rows : list RandomBaseline.StoreIngredient)
    (products : list RandomBaseline.Product) :
  map (fun m => (RandomBaseline.m_store m, RandomBaseline.m_recipe m,
                 RandomBaseline.m_row_id m, RandomBaseline.m_ingredient m))
      (fst (RandomBaseline.random_matches seed_state choice g rows products))
  = map (fun si => (RandomBaseline.si_store si, RandomBaseline.si_recipe si,
                    RandomBaseline.si_row_id si, RandomBaseline.si_ingredient si))
        (filter (fun si => existsb (fun p => (RandomBaseline.store p =? RandomBaseline.si_store si)%Z)
                                   products) rows).
Proof.
  induction rows as [|row rest IH]; [reflexivity|].
  cbn [RandomBaseline.random_matches filter].
  destruct (filter (fun p => (RandomBaseline.store p =? RandomBaseline.si_store row)%Z) products)
    as [|d avail] eqn:E.
  - assert (Hx : existsb (fun p => (RandomBaseline.store p =? RandomBaseline.si_store row)%Z)
                         products = false).
    { destruct (existsb _ products) eqn:Ex; [|reflexivity].
      apply existsb_exists in Ex. destruct Ex as [p [Hp Hs]].
      assert (Hin : In p []) by (rewrite <- E; apply filter_In; auto). contradiction. }
    rewrite Hx. apply IH.
  - assert (Hx : existsb (fun p => (RandomBaseline.store p =? RandomBaseline.si_store row)%Z)
                         products = true).
    { apply existsb_exists. exists d.
      assert (Hin : In d (d :: avail)) by now left.
      rewrite <- E in Hin. apply filter_In in Hin. exact Hin. }
    rewrite Hx. cbn [fst map]. rewrite <- IH.
    rewrite (random_matches_any_state seed_state choice _ g). reflexivity.
Qed.

Lemma store_draw_In (products : list RandomBaseline.Product) (s : Z) (p : RandomBaseline.Product) :
  RandomBaseline.store_draw seed_state choice products s = Some p ->
  In p products /\ RandomBaseline.store p = s.
Proof.
  unfold RandomBaseline.store_draw.
  destruct (filter (fun p => (RandomBaseline.store p =? s)%Z) products) as [|d rest] eqn:E;
    [discriminate|].
  intros H. injection H as <-.
  set (n := fst (choice (seed_state 42) (List.length (d :: rest)))).
  assert (Hin : In (nth n (d :: rest) d) (d :: rest)).
  { destruct (nth_in_or_default n (d :: rest) d) as [H|H]; [exact H | rewrite H; now left]. }
  assert (Hin' : In (nth n (d :: rest) d)
                    (filter (fun p => (RandomBaseline.store p =? s)%Z) products))
    by (rewrite E; exact Hin).
  apply filter_In in Hin'. destruct Hin' as [Hin' Hs].
  split; [assumption | now apply Z.eqb_eq].
Qed.

End BaselineOrigin.

(** X9.  Every random match pairs its ingredient with a product of the
    match's own store: the article, the name and the (normalised) concept
    of a match are those of one row of the product table whose store is the
    store of the match.  This holds for every generator. *)
Theorem baseline_product_of_own_store :
  forall (RngState : Type) (seed_state : Z -> RngState)
         (choice : RngState -> nat -> nat * RngState) (g : RngState)
         (store_recipes : list RandomBaseline.StoreRecipe)
         (recipes : list RandomBaseline.Recipe)
         (products : list RandomBaseline.Product),
    Forall (fun m =>
              exists p, In p products /\
                        RandomBaseline.store p = RandomBaseline.m_store m /\
                        RandomBaseline.article p = RandomBaseline.product_article m /\
                        RandomBaseline.product_name_clean p = RandomBaseline.product_name m /\
                        RandomBaseline.str_norm (RandomBaseline.product_concept p)
                        = RandomBaseline.m_product_concept m)
           (RandomBaseline.df_random seed_state choice g store_recipes recipes products).
Proof.
  intros. apply Forall_forall. intros m Hm. unfold RandomBaseline.df_random in Hm.
  apply random_matches_draw in Hm. destruct Hm as [p [Hd [Ha [Hn Hc]]]].
  apply store_draw_In in Hd. destruct Hd as [Hin Hs].
  unfold RandomBaseline.normalise_products in Hin. apply in_map_iff in Hin.
  destruct Hin as [p0 [<- Hp0]]. exists p0. cbn in *. auto.
Qed.

(** X10.  The baseline writes one match for every row of the ranked
    table joined with the recipe table whose store stocks any product, in
    the order of that join, and none for a store without products.  A
    ranked recipe that the recipe table does not know still gets a match,
    with a missing ingredient. *)
Theorem baseline_one_match_per_ingredient_row :
  forall (RngState : Type) (seed_state : Z -> RngState)
         (choice : RngState -> nat -> nat * RngState) (g : RngState)
         (store_recipes : list RandomBaseline.StoreRecipe)
         (recipes : list RandomBaseline.Recipe)
         (products : list RandomBaseline.Product),
    map (fun m => (RandomBaseline.m_store m, RandomBaseline.m_recipe m,
                   RandomBaseline.m_row_id m, RandomBaseline.m_ingredient m))
        (RandomBaseline.df_random seed_state choice g store_recipes recipes products)
    = map (fun si => (RandomBaseline.si_store si, RandomBaseline.si_recipe si,
                      RandomBaseline.si_row_id si, RandomBaseline.si_ingredient si))
          (filter (fun si => existsb (fun p => (RandomBaseline.store p
                                                =? RandomBaseline.si_store si)%Z) products)
                  (RandomBaseline.store_ingredients store_recipes
                     (RandomBaseline.normalise_recipes recipes))).
Proof.
  intros. unfold RandomBaseline.df_random. rewrite random_matches_rows.
  f_equal. apply filter_ext. intros si. unfold RandomBaseline.normalise_products.
  rewrite existsb_map_comp. reflexivity.
Qed.

(** ** The baseline's waste impact when no concept is deployed twice *)

Section DistinctDeployment.
Variable deployed : list RandomBaseline.Deployed.
Hypothesis deployed_distinct :
  NoDup (map (fun d => (RandomBaseline.d_store d, RandomBaseline.d_concept d)) deployed).

Local Abbreviation on_waste :=
  (fun (w : Waste.WasteRow) (d : RandomBaseline.Deployed) =>
     (Waste.Store w =? RandomBaseline.d_store d)%Z &&
     String.eqb (Text.norm_concept (Waste.product_concept w)) (RandomBaseline.d_concept d)).

Lemma waste_row_matched_once (w : Waste.WasteRow) :
  filter (on_waste w) deployed = [] \/
  exists d, filter (on_waste w) deployed = [d] /\ RandomBaseline.d_store d = Waste.Store w.
Proof.
  pose proof (NoDup_map_filter _ (on_waste w) _ deployed_distinct) as Hnd.
  assert (Hk : forall d, In d (filter (on_waste w) deployed) ->
                 (RandomBaseline.d_store d, RandomBaseline.d_concept d)
                 = (Waste.Store w, Text.norm_concept (Waste.product_concept w))).
  { intros d Hd. apply filter_In in Hd. destruct Hd as [_ Hd].
    apply andb_true_iff in Hd. destruct Hd as [Hs Hc].
    apply Z.eqb_eq in Hs. apply String.eqb_eq in Hc. congruence. }
  destruct (filter (on_waste w) deployed) as [|d [|d' ds]]; [now left | right | exfalso].
  - exists d. split; [reflexivity|].
    assert (H := Hk d (or_introl eq_refl)). congruence.
  - assert (H1 := Hk d (or_introl eq_refl)).
    assert (H2 := Hk d' (or_intror (or_introl eq_refl))).
    simpl in Hnd. inversion Hnd as [|? ? Hn _]; subst. apply Hn. left. congruence.
Qed.

Lemma simulated_items_bounded (df_waste : list Waste.WasteRow) (s : Z) :
  Forall Waste.nonneg df_waste ->
  (Num.sumZ (map RandomBaseline.sim_items
               (filter (fun x => (RandomBaseline.sim_store x =? s)%Z)
                       (RandomBaseline.df_simulated df_waste deployed)))
   <= Waste.total_items df_waste s)%Z.
Proof.
  unfold RandomBaseline.df_simulated, RandomBaseline.inner_merge, Waste.total_items.
  induction 1 as [|w ws Hw Hws IH]; [simpl; lia|].
  cbn [flat_map filter]. rewrite map_app, filter_app, map_app, sumZ_app.
  destruct Hw as [Hw _]. unfold Waste.in_store at 1.
  match type of IH with (?a <= ?b)%Z => set (A := a) in *; set (B := b) in * end.
  destruct (waste_row_matched_once w) as [->|[d [-> Hd]]];
    cbn [map filter RandomBaseline.sim_store fst snd]; [|rewrite Hd];
    destruct (Waste.Store w =? s)%Z; cbn [map]; fold B;
    unfold Num.sumZ at 1; cbn [fold_right map RandomBaseline.sim_items fst snd];
    try lia.
  all: change (Num.sumZ (Waste.items_wasted w
                         :: map Waste.items_wasted (filter (Waste.in_store s) ws)))
         with (Waste.items_wasted w + B)%Z; lia.
Qed.

Lemma simulated_value_bounded (df_waste : list Waste.WasteRow) (s : Z) :
  Forall Waste.nonneg df_waste ->
  (Num.sumQ (map RandomBaseline.sim_value
               (filter (fun x => (RandomBaseline.sim_store x =? s)%Z)
                       (RandomBaseline.df_simulated df_waste deployed)))
   <= Waste.total_value df_waste s)%Q.
Proof.
  unfold RandomBaseline.df_simulated, RandomBaseline.inner_merge, Waste.total_value.
  induction 1 as [|w ws Hw Hws IH]; [simpl; lra|].
  cbn [flat_map filter]. rewrite map_app, filter_app, map_app, sumQ_app.
  destruct Hw as [_ Hw]. unfold Waste.in_store at 1.
  match type of IH with (?a <= ?b)%Q => set (A := a) in *; set (B := b) in * end.
  destruct (waste_row_matched_once w) as [->|[d [-> Hd]]];
    cbn [map filter RandomBaseline.sim_store fst snd]; [|rewrite Hd];
    destruct (Waste.Store w =? s)%Z; cbn [map]; fold B;
    unfold Num.sumQ at 1; cbn [fold_right map RandomBaseline.sim_value fst snd];
    try lra.
  all: change (Num.sumQ (Waste.value_wasted w
                         :: map Waste.value_wasted (filter (Waste.in_store s) ws)))
         with (Waste.value_wasted w + B)%Q; lra.
Qed.

End DistinctDeployment.

(** X12.  When no two deployed ingredients of a store are matched to the
    same concept, the waste the baseline counts as covered respects the
    record: with non-negative waste rows, the items and the value counted
    for a store are at most what the snapshot records for that store. *)
Theorem baseline_impact_bounded_when_distinct :
  forall (df_waste : list Waste.WasteRow) (deployed : list RandomBaseline.Deployed)
         (i : RandomBaseline.Impact),
    Forall Waste.nonneg df_waste ->
    NoDup (map (fun d => (RandomBaseline.d_store d, RandomBaseline.d_concept d)) deployed) ->
    In i (RandomBaseline.df_impact (RandomBaseline.df_simulated df_waste deployed)) ->
    (RandomBaseline.items_wasted i <= Waste.total_items df_waste (RandomBaseline.i_store i))%Z /\
    (RandomBaseline.value_wasted i <= Waste.total_value df_waste (RandomBaseline.i_store i))%Q.
Proof.
  intros df_waste deployed i Hnn Hnd Hi.
  unfold RandomBaseline.df_impact in Hi. apply in_map_iff in Hi.
  destruct Hi as [g [<- Hg]]. apply groupby_In in Hg. destruct Hg as [_ Hrows].
  cbn [RandomBaseline.items_wasted RandomBaseline.value_wasted RandomBaseline.i_store].
  rewrite Hrows.
  rewrite (filter_ext _ (fun x => (RandomBaseline.sim_store x =? fst g)%Z))
    by (intros x; reflexivity).
  split; [now apply simulated_items_bounded | now apply simulated_value_bounded].
Qed.

Lemma baseline_impact_bounded_when_distinct_witness :
  map (fun i => (RandomBaseline.i_store i, RandomBaseline.items_wasted i))
      (RandomBaseline.df_impact
         (RandomBaseline.df_simulated Examples.waste Samples.deployed_once))
  = [(1024%Z, 10%Z)] /\
  Forall (fun i =>
            (RandomBaseline.items_wasted i
             <= Waste.total_items Examples.waste (RandomBaseline.i_store i))%Z /\
            (RandomBaseline.value_wasted i
             <= Waste.total_value Examples.waste (RandomBaseline.i_store i))%Q)
         (RandomBaseline.df_impact
            (RandomBaseline.df_simulated Examples.waste Samples.deployed_once)).
Proof.
  split; [reflexivity|]. apply Forall_forall. intros i Hi.
  apply (baseline_impact_bounded_when_distinct Examples.waste Samples.deployed_once i).
  - repeat constructor; vm_compute; discriminate.
  - repeat constructor; vm_compute; intuition discriminate.
  - exact Hi.
Defined.

(** ** The savings table of the deployed plan *)

Lemma concepts_per_store_In (df_ranked : list WasteSimulator.RankedRow) (s : Z)
    (concepts : list string) (c : string) :
  Frame.lookup Z.eqb s (WasteSimulator.concepts_per_store df_ranked) = Some concepts ->
  In c concepts ->
  exists r, In r df_ranked /\ WasteSimulator.store r = s /\
            WasteSimulator.ingredient_concept r = Some c.
Proof.
  intros Hl Hc. apply (lookup_In _ Z.eqb_eq) in Hl.
  unfold WasteSimulator.concepts_per_store in Hl. apply in_map_iff in Hl.
  destruct Hl as [g [Hg Hin]]. injection Hg as Hs Hcs. subst concepts.
  apply groupby_In in Hin. destruct Hin as [_ Hrows]. rewrite Hrows in Hc.
  apply (proj1 (unique_In _ String.eqb_eq _ _)) in Hc. apply (proj1 (dropna_In _ _)) in Hc.
  apply in_map_iff in Hc. destruct Hc as [r [Hr Hin]].
  apply filter_In in Hin. destruct Hin as [Hin Hk].
  unfold WasteSimulator.df_ranked_exploded in Hin. apply filter_In in Hin.
  exists r. split; [tauto|]. split; [|assumption].
  unfold Frame.has_key in Hk. apply Z.eqb_eq in Hk. congruence.
Qed.

(** X13.  Every row of the savings table stands for one (store, concept)
    that some ranked recipe of the store deploys, no (store, concept)
    appears twice, and the row counts the recorded waste of that concept
    in that store in full: all waste rows of the store whose normalised
    concept is the row's concept, and nothing else. *)
Theorem savings_count_covered_concepts_in_full :
  forall (df_ranked : list WasteSimulator.RankedRow) (df_waste : list Waste.WasteRow),
    Forall (fun sv =>
              let recorded :=
                filter (fun w => (Waste.Store w =? WasteSimulator.s_store sv)%Z &&
                                 String.eqb (Text.norm_concept (Waste.product_concept w))
                                            (WasteSimulator.s_concept sv)) df_waste in
              (exists r, In r df_ranked /\
                         WasteSimulator.store r = WasteSimulator.s_store sv /\
                         WasteSimulator.ingredient_concept r
                         = Some (WasteSimulator.s_concept sv)) /\
              recorded <> [] /\
              WasteSimulator.items_saved sv = Num.sumZ (map Waste.items_wasted recorded) /\
              WasteSimulator.value_saved sv = Num.sumQ (map Waste.value_wasted recorded))
           (WasteSimulator.df_savings df_ranked df_waste) /\
    NoDup (map (fun sv => (WasteSimulator.s_store sv, WasteSimulator.s_concept sv))
               (WasteSimulator.df_savings df_ranked df_waste)).
Proof.
  intros df_ranked df_waste. split.
  - apply Forall_forall. intros sv Hsv. cbv zeta.
    unfold WasteSimulator.df_savings in Hsv. apply in_map_iff in Hsv.
    destruct Hsv as [g [<- Hg]]. apply groupby_In in Hg. destruct Hg as [Hk Hrows].
    cbn [WasteSimulator.s_store WasteSimulator.s_concept WasteSimulator.items_saved
         WasteSimulator.value_saved].
    apply (group_keys_In _ _ _ key_eqb_eq) in Hk. destruct Hk as [v [Hv Hkv]].
    injection Hkv as Hkv.
    unfold WasteSimulator.df_covered in Hv. apply filter_In in Hv.
    destruct Hv as [Hv Hcov].
    assert (Hsame : snd g
                    = map (fun w => {| WasteSimulator.v_store := Waste.Store w;
                                       WasteSimulator.v_concept :=
                                         Text.norm_concept (Waste.product_concept w);
                                       WasteSimulator.v_items := Waste.items_wasted w;
                                       WasteSimulator.v_value := Waste.value_wasted w |})
                          (filter (fun w => (Waste.Store w =? fst (fst g))%Z &&
                                            String.eqb (Text.norm_concept (Waste.product_concept w))
                                                       (snd (fst g))) df_waste)).
    { rewrite Hrows. unfold WasteSimulator.df_covered, WasteSimulator.df_waste_valid.
      rewrite filter_twice, filter_map_comm. f_equal. apply filter_ext. intros w.
      unfold Frame.has_key, Frame.key_eqb. cbn [fst snd WasteSimulator.v_store
        WasteSimulator.v_concept].
      destruct ((Waste.Store w =? fst (fst g))%Z) eqn:Es;
        [|now rewrite andb_false_r].
      destruct (String.eqb (Text.norm_concept (Waste.product_concept w)) (snd (fst g))) eqn:Ec;
        [|now rewrite andb_false_r].
      rewrite andb_true_r. apply Z.eqb_eq in Es. apply String.eqb_eq in Ec.
      unfold WasteSimulator.covered in *. cbn [WasteSimulator.v_store WasteSimulator.v_concept].
      rewrite <- Hkv in Es, Ec. cbn [fst snd] in Es, Ec. rewrite Es, Ec. exact Hcov. }
    rewrite Hsame, !map_map. cbn [WasteSimulator.v_items WasteSimulator.v_value].
    split; [|split; [|split; reflexivity]].
    + unfold WasteSimulator.covered in Hcov.
      destruct (Frame.lookup Z.eqb (WasteSimulator.v_store v)
                  (WasteSimulator.concepts_per_store df_ranked)) as [concepts|] eqn:El;
        [|discriminate].
      apply (proj1 (mem_In _ String.eqb_eq _ _)) in Hcov.
      destruct (concepts_per_store_In _ _ _ _ El Hcov) as [r [Hr [Hs Hc]]].
      exists r. rewrite <- Hkv. cbn [fst snd]. auto.
    + unfold WasteSimulator.df_waste_valid in Hv. apply in_map_iff in Hv.
      destruct Hv as [w [Hw Hin]].
      assert (Hf : In w (filter (fun w => (Waste.Store w =? fst (fst g))%Z &&
                                          String.eqb (Text.norm_concept (Waste.product_concept w))
                                                     (snd (fst g))) df_waste)).
      { apply filter_In. split; [assumption|]. rewrite <- Hkv, <- Hw. cbn.
        now rewrite Z.eqb_refl, String.eqb_refl. }
      intros E. rewrite E in Hf. contradiction.
  - unfold WasteSimulator.df_savings. rewrite map_map.
    cbn [WasteSimulator.s_store WasteSimulator.s_concept].
    rewrite (map_ext _ fst) by (intros [[s c] rows]; reflexivity).
    rewrite groupby_keys. apply (group_keys_NoDup _ _ _ key_eqb_eq).
Qed.

(** ** Meal boxes: which pairs are listed, and with what priority *)

Lemma left_merge_complete {L R' : Type} (on : L -> R' -> bool) (left : list L)
    (right : list R') (l : L) (r : R') :
  In l left -> In r right -> on l r = true ->
  In (l, Some r) (MealBoxes.left_merge on left right).
Proof.
  intros Hl Hr Hon. unfold MealBoxes.left_merge. apply in_flat_map.
  exists l. split; [assumption|].
  assert (Hin : In r (filter (on l) right)) by (apply filter_In; auto).
  destruct (filter (on l) right) as [|r0 rs] eqn:E; [contradiction|].
  rewrite <- E. apply in_map_iff. exists r. split; [reflexivity|]. now rewrite E.
Qed.

Lemma lookup_keys {K V : Type} (eqb : K -> K -> bool)
    (eqb_eq : forall a b, eqb a b = true <-> a = b) (h : K -> V) (keys : list K) (k : K) :
  In k keys -> Frame.lookup eqb k (map (fun k' => (k', h k')) keys) = Some (h k).
Proof.
  induction keys as [|k' keys IH]; [contradiction|]. simpl.
  destruct (eqb k' k) eqn:E.
  - intros _. apply eqb_eq in E. now subst.
  - intros [->|H]; [|now apply IH].
    assert (eqb k k = true) by now apply eqb_eq. congruence.
Qed.

Lemma nunique_same_elements {A : Type} (eqb : A -> A -> bool)
    (eqb_eq : forall a b, eqb a b = true <-> a = b) (l l' : list A) :
  incl l l' -> incl l' l -> Frame.nunique eqb l = Frame.nunique eqb l'.
Proof.
  intros H H'. unfold Frame.nunique. apply Nat.le_antisymm.
  - apply NoDup_incl_length; [apply (unique_NoDup eqb eqb_eq)|].
    intros x Hx. apply (proj2 (unique_In eqb eqb_eq _ _)).
    apply H. now apply (proj1 (unique_In eqb eqb_eq _ _)).
  - apply NoDup_incl_length; [apply (unique_NoDup eqb eqb_eq)|].
    intros x Hx. apply (proj2 (unique_In eqb eqb_eq _ _)).
    apply H'. now apply (proj1 (unique_In eqb eqb_eq _ _)).
Qed.

Lemma df_complete_when_all_available (df_matches : list MealBoxes.MatchRow) (k : Frame.Key) :
  (exists m, In m df_matches /\ MealBoxes.recipe m = Some (snd k)) ->
  (forall m, In m df_matches -> MealBoxes.recipe m = Some (snd k) ->
             exists a, In a df_matches /\ MealBoxes.match_available a = true /\
                       MealBoxes.store a = fst k /\ MealBoxes.recipe a = Some (snd k) /\
                       MealBoxes.ingredient a = MealBoxes.ingredient m) ->
  In k (MealBoxes.df_complete df_matches).
Proof.
  intros [m0 [Hm0 Hr0]] Hall.
  unfold MealBoxes.df_complete. apply in_map_iff.
  set (avail := MealBoxes.df_available df_matches).
  set (rows := filter (Frame.has_key Frame.key_eqb MealBoxes.match_key k) avail).
  exists (k, Frame.nunique String.eqb (map MealBoxes.ingredient rows)).
  split; [reflexivity|]. apply filter_In. split.
  - unfold MealBoxes.grouped. apply in_map_iff. exists (k, rows). split; [reflexivity|].
    apply groupby_group. cbn [fst snd]. split; [|reflexivity].
    apply (group_keys_In _ _ _ key_eqb_eq).
    destruct (Hall m0 Hm0 Hr0) as [a [Ha [Hav [Hs [Hr _]]]]].
    exists a. split.
    + unfold MealBoxes.df_available. apply filter_In. auto.
    + apply match_key_eq. auto.
  - unfold MealBoxes.complete. cbn [fst snd].
    unfold MealBoxes.ingredients_per_recipe, Frame.groupby. rewrite map_map. cbn [fst snd].
    rewrite (lookup_keys String.eqb String.eqb_eq
               (fun r => Frame.nunique String.eqb
                           (map MealBoxes.ingredient
                                (filter (Frame.has_key String.eqb MealBoxes.recipe r) df_matches)))).
    + apply Nat.eqb_eq. apply (nunique_same_elements _ String.eqb_eq).
      * intros x Hx. apply in_map_iff in Hx. destruct Hx as [a [<- Ha]].
        apply in_map. unfold rows, avail, MealBoxes.df_available in Ha.
        apply filter_In in Ha. destruct Ha as [Ha Hk]. apply filter_In in Ha.
        apply (has_key_true _ _ key_eqb_eq) in Hk. apply match_key_eq in Hk.
        apply filter_In. split; [tauto|].
        apply (has_key_true String.eqb _ String.eqb_eq). tauto.
      * intros x Hx. apply in_map_iff in Hx. destruct Hx as [m [<- Hm]].
        apply filter_In in Hm. destruct Hm as [Hm Hk].
        apply (has_key_true String.eqb _ String.eqb_eq) in Hk.
        destruct (Hall m Hm Hk) as [a [Ha [Hav [Hs [Hr Hi]]]]].
        rewrite <- Hi. apply in_map. unfold rows, avail, MealBoxes.df_available.
        apply filter_In. split; [apply filter_In; auto|].
        apply (has_key_true _ _ key_eqb_eq). apply match_key_eq. auto.
    + apply (group_keys_In _ _ _ String.eqb_eq). exists m0. auto.
Qed.

(** X15.  The priority path lists every pair it should: when every
    ingredient the match table lists for a recipe has an available row in a
    store, and some product of that store carries the concept of one of
    the recipe's rows there together with a waste or markdown flag, the
    (store, recipe) pair has a box. *)
Theorem complete_flagged_pair_is_listed :
  forall (df_products : list MealBoxes.ProductRow) (df_matches : list MealBoxes.MatchRow)
         (m : MealBoxes.MatchRow) (p : MealBoxes.ProductRow) (r : string),
    MealBoxes.recipe m = Some r ->
    (forall m', In m' df_matches -> MealBoxes.recipe m' = Some r ->
                exists a, In a df_matches /\ MealBoxes.match_available a = true /\
                          MealBoxes.store a = MealBoxes.store m /\
                          MealBoxes.recipe a = Some r /\
                          MealBoxes.ingredient a = MealBoxes.ingredient m') ->
    In m df_matches -> In p df_products ->
    MealBoxes.p_store p = MealBoxes.store m ->
    MealBoxes.p_concept p = MealBoxes.ingredient_concept m ->
    MealBoxes.p_concept p <> None ->
    (0 < MealBoxes.waste_flag p + MealBoxes.markdown_flag p)%Z ->
    exists b, In b (MealBoxes.box_priority df_products df_matches) /\
              MealBoxes.b_store b = MealBoxes.store m /\ MealBoxes.b_recipe b = r.
Proof.
  intros df_products df_matches m p r Hr Hall Hm Hp Hs Hc Hsome Hflag.
  set (k := (MealBoxes.store m, r) : Frame.Key).
  assert (Hk : In k (MealBoxes.df_complete df_matches)).
  { apply df_complete_when_all_available; [exists m; auto | exact Hall]. }
  set (e := {| MealBoxes.e_store := fst k; MealBoxes.e_recipe := snd k;
               MealBoxes.e_match := Some m; MealBoxes.e_product := Some p |}).
  assert (He : In e (MealBoxes.df_enriched df_products df_matches)).
  { unfold MealBoxes.df_enriched. apply filter_In. split.
    - unfold MealBoxes.df_enriched_all. apply in_map_iff.
      exists (k, Some m, Some p). split; [reflexivity|].
      apply left_merge_complete.
      + apply left_merge_complete; [assumption | assumption|].
        unfold MealBoxes.on_store_recipe. apply (has_key_true _ _ key_eqb_eq).
        apply match_key_eq. auto.
      + unfold MealBoxes.df_products_subset. apply filter_In. split; [assumption|].
        destruct (MealBoxes.p_concept p); [reflexivity | contradiction].
      + unfold MealBoxes.on_store_concept. cbn [snd fst].
        apply andb_true_iff. split; [apply Z.eqb_eq; auto | apply opt_eqb_eq; auto].
    - unfold MealBoxes.flagged. cbn [e MealBoxes.e_product]. now apply Z.ltb_lt. }
  set (keyf := fun e => Some (MealBoxes.e_store e, MealBoxes.e_recipe e)).
  set (rows := filter (Frame.has_key Frame.key_eqb keyf k)
                      (MealBoxes.df_enriched df_products df_matches)).
  exists {| MealBoxes.b_store := fst k; MealBoxes.b_recipe := snd k;
            MealBoxes.avg_priority := Num.mean (MealBoxes.priorities rows) |}.
  split; [|split; reflexivity].
  unfold MealBoxes.box_priority. apply stable_sort_In.
  unfold MealBoxes.box_priority_unsorted. apply in_map_iff.
  exists (k, rows). split; [reflexivity|].
  apply groupby_group. cbn [fst snd]. split; [|reflexivity].
  apply (group_keys_In _ _ _ key_eqb_eq). exists e. split; [assumption | reflexivity].
Qed.

Lemma mean_bounds (l : list Q) (a b : Q) :
  l <> [] -> Forall (fun x => (a <= x <= b)%Q) l -> (a <= Num.mean l <= b)%Q.
Proof.
  intros Hne Hall. unfold Num.mean.
  assert (Hn : (0 < inject_Z (Z.of_nat (List.length l)))%Q).
  { change 0%Q with (inject_Z 0). rewrite <- Zlt_Qlt.
    destruct l; [contradiction | simpl; lia]. }
  assert (Hs : (a * inject_Z (Z.of_nat (List.length l)) <= Num.sumQ l
                <= b * inject_Z (Z.of_nat (List.length l)))%Q).
  { clear Hne Hn. induction Hall as [|x l Hx Hl IH].
    - simpl. change (inject_Z 0) with 0%Q. lra.
    - cbn [List.length Num.sumQ fold_right]. fold (Num.sumQ l).
      rewrite Nat2Z.inj_succ. unfold Z.succ. rewrite inject_Z_plus.
      change (inject_Z 1) with 1%Q. lra. }
  split.
  - apply Qle_shift_div_l; [assumption | tauto].
  - apply Qle_shift_div_r; [assumption | tauto].
Qed.

(** X16.  With the priority score the scorer writes (the sum of two 0/1
    flags), every box averages over at least one flagged product and its
    average priority lies between 1 and 2. *)
Theorem box_average_priority_bounds :
  forall (df_products : list MealBoxes.ProductRow) (df_matches : list MealBoxes.MatchRow),
    (forall p, In p df_products ->
               (MealBoxes.waste_flag p = 0 \/ MealBoxes.waste_flag p = 1)%Z /\
               (MealBoxes.markdown_flag p = 0 \/ MealBoxes.markdown_flag p = 1)%Z /\
               MealBoxes.priority_score p
               = (MealBoxes.waste_flag p + MealBoxes.markdown_flag p)%Z) ->
    Forall (fun b => (1 <= MealBoxes.avg_priority b <= 2)%Q)
           (MealBoxes.box_priority df_products df_matches).
Proof.
  intros df_products df_matches Hscore. apply Forall_forall. intros b Hb.
  unfold MealBoxes.box_priority in Hb. apply stable_sort_In in Hb.
  unfold MealBoxes.box_priority_unsorted in Hb. apply in_map_iff in Hb.
  destruct Hb as [g [<- Hg]]. cbn [MealBoxes.avg_priority].
  apply groupby_In in Hg. destruct Hg as [Hk Hrows].
  assert (Hrow : forall e, In e (snd g) ->
                   exists p, MealBoxes.e_product e = Some p /\
                             (1 <= inject_Z (MealBoxes.priority_score p) <= 2)%Q).
  { intros e He. rewrite Hrows in He. apply filter_In in He. destruct He as [He _].
    unfold MealBoxes.df_enriched in He. apply filter_In in He. destruct He as [He Hf].
    apply Z.ltb_lt in Hf. unfold MealBoxes.flagged in Hf.
    destruct (MealBoxes.e_product e) as [p|] eqn:Ep; [|lia].
    exists p. split; [reflexivity|].
    unfold MealBoxes.df_enriched_all in He. apply in_map_iff in He.
    destruct He as [[km op] [<- Hx]]. cbn [MealBoxes.e_product snd] in Ep. subst op.
    apply left_merge_In in Hx. destruct Hx as [_ Hx].
    destruct (Hx p eq_refl) as [Hp _]. apply filter_In in Hp. destruct Hp as [Hp _].
    destruct (Hscore p Hp) as [Hw [Hm Hps]].
    change 1%Q with (inject_Z 1). change 2%Q with (inject_Z 2).
    rewrite <- !Zle_Qle. lia. }
  apply mean_bounds.
  - apply (group_keys_In _ _ _ key_eqb_eq) in Hk. destruct Hk as [e [He Hke]].
    assert (Hin : In e (snd g)).
    { rewrite Hrows. apply filter_In. split; [assumption|].
      now apply (has_key_true _ _ key_eqb_eq). }
    destruct (Hrow e Hin) as [p [Hp _]].
    unfold MealBoxes.priorities. intros E. apply map_eq_nil in E.
    assert (Hd : In p (Frame.dropna (map MealBoxes.e_product (snd g)))).
    { apply dropna_In. rewrite <- Hp. now apply in_map. }
    rewrite E in Hd. contradiction.
  - apply Forall_forall. intros x Hx. unfold MealBoxes.priorities in Hx.
    apply in_map_iff in Hx. destruct Hx as [p [<- Hp]].
    apply (proj1 (dropna_In _ _)) in Hp. apply in_map_iff in Hp.
    destruct Hp as [e [Hep He]]. destruct (Hrow e He) as [p' [Hp' Hb]].
    congruence.
Qed.

Lemma complete_flagged_pair_is_listed_witness :
  exists b, In b (MealBoxes.box_priority Examples.box_products Examples.box_matches) /\
            MealBoxes.b_store b = 1024%Z /\ MealBoxes.b_recipe b = "Greek Yogurt & Honey".
Proof.
  apply (complete_flagged_pair_is_listed Examples.box_products Examples.box_matches
           Samples.yogurt_1024
           Samples.wasted_yogurt
           "Greek Yogurt & Honey").
  - reflexivity.
  - intros m' Hm' _. simpl in Hm'.
    destruct Hm' as [<-|[<-|[<-|[<-|[]]]]].
    + exists Samples.yogurt_1024. simpl. intuition.
    + exists Samples.honey_1024.
      simpl. intuition.
    + exists Samples.yogurt_1024. simpl. intuition.
    + exists Samples.honey_1024.
      simpl. intuition.
  - simpl. auto.
  - simpl. auto.
  - reflexivity.
  - reflexivity.
  - simpl. discriminate.
  - simpl. lia.
Defined.

Lemma box_average_priority_bounds_witness :
  map (fun b => (MealBoxes.b_store b, MealBoxes.b_recipe b))
      (MealBoxes.box_priority Examples.box_products Examples.box_matches)
  = [(1024%Z, "Greek Yogurt & Honey")] /\
  Forall (fun b => (1 <= MealBoxes.avg_priority b <= 2)%Q)
         (MealBoxes.box_priority Examples.box_products Examples.box_matches).
Proof.
  split; [reflexivity|].
  apply (box_average_priority_bounds Examples.box_products Examples.box_matches).
  intros p Hp. simpl in Hp. destruct Hp as [<-|[<-|[<-|[]]]]; simpl; intuition.
Defined.

(** ** The variant map and the resolver *)

Lemma dict_get_set (d : Variants.Dict) (k v k' : string) :
  Variants.dict_get (Variants.dict_set d k v) k'
  = if String.eqb k k' then Some v else Variants.dict_get d k'.
Proof.
  unfold Variants.dict_get. induction d as [|[k0 v0] d IH]; simpl.
  - reflexivity.
  - destruct (String.eqb k0 k) eqn:E0; simpl.
    + apply String.eqb_eq in E0. subst k0. destruct (String.eqb k k'); reflexivity.
    + destruct (String.eqb k0 k') eqn:E1; [|exact IH].
      apply String.eqb_eq in E1. subst k0. now rewrite String.eqb_sym, E0.
Qed.

Lemma dict_set_keys (d : Variants.Dict) (k v k' : string) :
  In k' (map fst (Variants.dict_set d k v)) <-> k' = k \/ In k' (map fst d).
Proof.
  induction d as [|[k0 v0] d IH]; simpl.
  - intuition.
  - destruct (String.eqb k0 k) eqn:E0; simpl.
    + apply String.eqb_eq in E0. subst k0. intuition.
    + rewrite IH. intuition.
Qed.

Lemma dict_set_NoDup (d : Variants.Dict) (k v : string) :
  NoDup (map fst d) -> NoDup (map fst (Variants.dict_set d k v)).
Proof.
  induction d as [|[k0 v0] d IH]; simpl; intros H.
  - constructor; [intros [] | constructor].
  - inversion H as [|? ? Hn Hnd]; subst.
    destruct (String.eqb k0 k) eqn:E0; simpl; [now constructor|].
    constructor; [|auto]. rewrite dict_set_keys. intros [->|Hin]; [|contradiction].
    now rewrite String.eqb_refl in E0.
Qed.

Lemma dict_get_In (d : Variants.Dict) (k v : string) :
  NoDup (map fst d) -> (In (k, v) d <-> Variants.dict_get d k = Some v).
Proof.
  unfold Variants.dict_get. induction d as [|[k0 v0] d IH]; simpl; intros H.
  - split; [contradiction | discriminate].
  - inversion H as [|? ? Hn Hnd]; subst. destruct (String.eqb k0 k) eqn:E0.
    + apply String.eqb_eq in E0. subst k0. split.
      * intros [Heq|Hin]; [congruence|]. exfalso. apply Hn.
        apply in_map_iff. exists (k, v). auto.
      * intros Heq. left. congruence.
    + rewrite <- (IH Hnd). split; [|auto].
      intros [Heq|Hin]; [|assumption]. injection Heq as -> _.
      now rewrite String.eqb_refl in E0.
Qed.

(** The (variant, concept) pairs of a table, in the order the loops visit them. *)
Lemma build_variant_map_pairs (variants : list (string * list string)) (d : Variants.Dict) :
  fold_left (fun d cv => fold_left (fun d' alt => Variants.dict_set d' alt (fst cv)) (snd cv) d)
            variants d
  = fold_left (fun d ac => Variants.dict_set d (fst ac) (snd ac))
              (flat_map (fun cv => map (fun alt => (alt, fst cv)) (snd cv)) variants) d.
Proof.
  revert d. induction variants as [|cv variants IH]; intros d; [reflexivity|].
  cbn [fold_left flat_map]. rewrite fold_left_app, IH. f_equal.
  generalize (snd cv) as alts. intros alts. revert d.
  induction alts as [|alt alts IHa]; intros d; [reflexivity|]. cbn [fold_left map fst snd].
  apply IHa.
Qed.

Lemma fold_dict_set_get (ps : list (string * string)) (d : Variants.Dict) (k c : string) :
  Variants.dict_get (fold_left (fun d ac => Variants.dict_set d (fst ac) (snd ac)) ps d) k = Some c ->
  In (k, c) ps \/ Variants.dict_get d k = Some c.
Proof.
  revert d. induction ps as [|[a c0] ps IH]; intros d; [auto|].
  cbn [fold_left fst snd]. intros H. apply IH in H. destruct H as [H|H]; [left; now right|].
  rewrite dict_get_set in H. destruct (String.eqb a k) eqn:E; [|auto].
  apply String.eqb_eq in E. subst a. injection H as ->. left. now left.
Qed.

Lemma fold_dict_set_keeps (ps : list (string * string)) (d : Variants.Dict) (k : string) :
  Variants.dict_get d k <> None ->
  Variants.dict_get (fold_left (fun d ac => Variants.dict_set d (fst ac) (snd ac)) ps d) k
  <> None.
Proof.
  revert d. induction ps as [|[a c] ps IH]; intros d Hd; [assumption|].
  cbn [fold_left fst snd]. apply IH. rewrite dict_get_set.
  destruct (String.eqb a k); [discriminate | assumption].
Qed.

Lemma fold_dict_set_defined (ps : list (string * string)) (d : Variants.Dict) (k c : string) :
  In (k, c) ps ->
  exists c', Variants.dict_get (fold_left (fun d ac => Variants.dict_set d (fst ac) (snd ac)) ps d) k
             = Some c' /\ In (k, c') ps.
Proof.
  revert d. induction ps as [|[a c0] ps IH]; intros d; [contradiction|].
  cbn [fold_left fst snd]. intros [Heq|Hin].
  - injection Heq as -> ->.
    destruct (Variants.dict_get
                (fold_left (fun d ac => Variants.dict_set d (fst ac) (snd ac)) ps
                           (Variants.dict_set d k c)) k) as [c'|] eqn:E.
    + exists c'. split; [reflexivity|]. apply fold_dict_set_get in E.
      destruct E as [E|E]; [now right|].
      rewrite dict_get_set, String.eqb_refl in E. injection E as <-. now left.
    + exfalso. revert E. apply fold_dict_set_keeps.
      rewrite dict_get_set, String.eqb_refl. discriminate.
  - destruct (IH (Variants.dict_set d a c0) Hin) as [c1 [H1 H2]].
    exists c1. split; [assumption | now right].
Qed.

Lemma fold_dict_set_NoDup (ps : list (string * string)) (d : Variants.Dict) :
  NoDup (map fst d) ->
  NoDup (map fst (fold_left (fun d ac => Variants.dict_set d (fst ac) (snd ac)) ps d)).
Proof.
  revert d. induction ps as [|p ps IH]; intros d H; [assumption|].
  cbn [fold_left]. apply IH. now apply dict_set_NoDup.
Qed.

Lemma listed_pairs (variants : list (string * list string)) (c alt : string) :
  VariantSets.listed variants c alt <->
  In (alt, c) (flat_map (fun cv => map (fun alt => (alt, fst cv)) (snd cv)) variants).
Proof.
  unfold VariantSets.listed. rewrite in_flat_map. split.
  - intros [vs [Hin Halt]]. exists (c, vs). split; [assumption|].
    apply in_map_iff. exists alt. auto.
  - intros [[c' vs] [Hin Halt]]. apply in_map_iff in Halt.
    destruct Halt as [a [Heq Ha]]. cbn in Heq. injection Heq as -> ->. eauto.
Qed.

(** X17.  The variant map built from any table of variants holds one entry
    per listed variant and nothing else: an entry maps a variant to a
    concept that lists it, every listed variant has an entry (the concept
    listing it last wins), and the variant set of a concept holds only
    variants the table lists under that concept. *)
Theorem variant_map_round_trip :
  forall variants : list (string * list string),
    let vmap := Variants.build_variant_map variants in
    (forall alt c, Variants.dict_get vmap alt = Some c -> VariantSets.listed variants c alt) /\
    (forall alt c, VariantSets.listed variants c alt ->
                   exists c', Variants.dict_get vmap alt = Some c' /\
                              VariantSets.listed variants c' alt) /\
    NoDup (map fst vmap) /\
    (forall alt c, In alt (VariantSets.variants_of vmap (Some c)) <->
                   Variants.dict_get vmap alt = Some c) /\
    VariantSets.variants_of vmap None = [].
Proof.
  intros variants vmap.
  assert (Hnd : NoDup (map fst vmap)).
  { unfold vmap, Variants.build_variant_map. rewrite build_variant_map_pairs.
    apply fold_dict_set_NoDup. constructor. }
  split; [|split; [|split; [exact Hnd|split; [|reflexivity]]]].
  - intros alt c H. unfold vmap, Variants.build_variant_map in H.
    rewrite build_variant_map_pairs in H. apply fold_dict_set_get in H.
    destruct H as [H|H]; [now apply listed_pairs | discriminate].
  - intros alt c H. apply listed_pairs in H.
    destruct (fold_dict_set_defined _ [] _ _ H) as [c' [Hg Hin]].
    exists c'. split; [|now apply listed_pairs].
    unfold vmap, Variants.build_variant_map. now rewrite build_variant_map_pairs.
  - intros alt c. rewrite <- (dict_get_In _ _ _ Hnd).
    unfold VariantSets.variants_of. rewrite in_map_iff. split.
    + intros [[a c'] [Ha Hin]]. cbn in Ha. subst a. apply filter_In in Hin.
      destruct Hin as [Hin Hc]. cbn in Hc. apply String.eqb_eq in Hc. now subst c'.
    + intros Hin. exists (alt, c). split; [reflexivity|]. apply filter_In.
      split; [assumption|]. cbn. apply String.eqb_refl.
Qed.

Lemma last_default_irrelevant {A : Type} (l : list A) (y d d' : A) :
  last (y :: l) d = last (y :: l) d'.
Proof.
  revert y. induction l as [|z l IH]; intros y; [reflexivity|].
  change (last (z :: l) d = last (z :: l) d'). apply IH.
Qed.

Lemma last_cons_default {A : Type} (x d : A) (l : list A) : last (x :: l) d = last l x.
Proof.
  destruct l as [|y l]; [reflexivity|].
  change (last (y :: l) d = last (y :: l) x). apply last_default_irrelevant.
Qed.

Lemma invert_last (vmap d : Variants.Dict) (c : string) :
  match Variants.dict_get
          (fold_left (fun acc kv => Variants.dict_set acc (snd kv) (fst kv)) vmap d) c with
  | Some x => x
  | None => c
  end
  = last (map fst (filter (fun kv => String.eqb (snd kv) c) vmap))
         (match Variants.dict_get d c with Some x => x | None => c end).
Proof.
  revert d. induction vmap as [|[k v] vmap IH]; intros d; [reflexivity|].
  cbn [fold_left filter fst snd]. rewrite IH, dict_get_set.
  destruct (String.eqb v c); [|reflexivity].
  cbn [map fst]. now rewrite last_cons_default.
Qed.

(** X18.  What the resolver does on any variant map: a text that is the
    concept of some variant is rewritten to the last variant the map lists
    for it, which is one of its variants; a text that is the concept of no
    variant is returned unchanged; a missing text stays missing. *)
Theorem resolve_variant_returns_last_variant :
  forall (vmap : Variants.Dict) (c : string),
    Variants.resolve_variant_in (Variants.variant_to_concept_of vmap) (Some c)
    = Some (last (VariantSets.variants_of vmap (Some c)) c) /\
    (VariantSets.variants_of vmap (Some c) <> [] ->
     exists v, Variants.resolve_variant_in (Variants.variant_to_concept_of vmap) (Some c)
               = Some v /\
               In v (VariantSets.variants_of vmap (Some c)) /\ In (v, c) vmap) /\
    (VariantSets.variants_of vmap (Some c) = [] ->
     Variants.resolve_variant_in (Variants.variant_to_concept_of vmap) (Some c) = Some c) /\
    Variants.resolve_variant_in (Variants.variant_to_concept_of vmap) None = None.
Proof.
  intros vmap c.
  assert (E : Variants.resolve_variant_in (Variants.variant_to_concept_of vmap) (Some c)
              = Some (last (VariantSets.variants_of vmap (Some c)) c)).
  { unfold Variants.resolve_variant_in, Variants.variant_to_concept_of,
      Variants.invert, VariantSets.variants_of.
    pose proof (invert_last vmap [] c) as H. cbn [Variants.dict_get Frame.lookup] in H.
    rewrite <- H.
    destruct (Variants.dict_get _ c); reflexivity. }
  split; [exact E|]. split; [|split; [|reflexivity]].
  - intros Hne. exists (last (VariantSets.variants_of vmap (Some c)) c).
    split; [exact E|].
    assert (Hin : In (last (VariantSets.variants_of vmap (Some c)) c)
                     (VariantSets.variants_of vmap (Some c))).
    { destruct (exists_last Hne) as [l [x Hl]]. rewrite Hl, last_last.
      apply in_or_app. right. now left. }
    split; [exact Hin|].
    unfold VariantSets.variants_of in Hin. apply in_map_iff in Hin.
    destruct Hin as [[k v] [Hk Hf]]. apply filter_In in Hf. destruct Hf as [Hf Hv].
    cbn [fst snd] in *. apply String.eqb_eq in Hv. now subst.
  - intros Hnil. rewrite E, Hnil. reflexivity.
Qed.

(** ** The ontology mapping *)

Lemma lower_ascii_idem (c : ascii) : Text.lower_ascii (Text.lower_ascii c) = Text.lower_ascii c.
Proof. destruct c as [[] [] [] [] [] [] [] []]; reflexivity. Qed.

Lemma lower_idem (s : string) : Text.lower (Text.lower s) = Text.lower s.
Proof. induction s as [|c s IH]; simpl; [reflexivity | now rewrite lower_ascii_idem, IH]. Qed.

(** X19.  The ontology mapping answers only with values of the mapping,
    ignores the case of its input, maps anything that is not a text to a
    missing concept, and on the notebooks' ontology it is idempotent:
    every concept it returns is itself mapped to itself. *)
Theorem map_to_ontology_canonical :
  (forall text mapping c,
      PriorityScorer.map_to_ontology text mapping = Some c ->
      exists t, text = Some t /\ In (Text.strip (Text.lower t), c) mapping) /\
  (forall text mapping,
      PriorityScorer.map_to_ontology (option_map Text.lower text) mapping
      = PriorityScorer.map_to_ontology text mapping) /\
  (forall text c,
      PriorityScorer.map_to_ontology text PriorityScorer.ontology = Some c ->
      PriorityScorer.map_to_ontology (Some c) PriorityScorer.ontology = Some c).
Proof.
  split; [|split].
  - intros [t|] mapping c H; [|discriminate]. exists t. split; [reflexivity|].
    now apply (lookup_In _ String.eqb_eq) in H.
  - intros [t|] mapping; [|reflexivity]. cbn. now rewrite lower_idem.
  - intros [t|] c H; [|discriminate]. cbn [PriorityScorer.map_to_ontology] in H.
    apply (lookup_In _ String.eqb_eq) in H. unfold PriorityScorer.ontology in H.
    cbn [In] in H.
    repeat (destruct H as [H|H]; [injection H as _ <-; reflexivity|]).
    contradiction.
Qed.

(** ** Precision at k *)

Lemma firstn_In_le {A : Type} (l : list A) (k k' : nat) (x : A) :
  (k <= k')%nat -> In x (firstn k l) -> In x (firstn k' l).
Proof.
  revert k k'. induction l as [|a l IH]; intros k k' Hle.
  - now rewrite !firstn_nil.
  - destruct k as [|k]; [contradiction|]. destruct k' as [|k']; [lia|].
    cbn [firstn]. intros [->|H]; [now left|]. right. apply (IH k k'); [lia | assumption].
Qed.

(** X20.  Precision at k is 0 or 1; it is 1 exactly when the true match is
    known and is among the first k predictions; it never decreases when k
    grows; and its mean over a non-empty table of matches lies between 0
    and 1. *)
Theorem precision_at_k_properties :
  (forall t p k, Baselines.precision_at_k t p k = 0%Q \/ Baselines.precision_at_k t p k = 1%Q) /\
  (forall t p k, Baselines.precision_at_k t p k = 1%Q <->
                 exists s, t = Some s /\ In (Some s) (firstn k p)) /\
  (forall t p k k', (k <= k')%nat ->
                    (Baselines.precision_at_k t p k <= Baselines.precision_at_k t p k')%Q) /\
  (forall col row rows,
      (0 <= Baselines.mean_precision col (row :: rows) <= 1)%Q).
Proof.
  assert (Hval : forall t p k, Baselines.precision_at_k t p k = 0%Q \/
                               Baselines.precision_at_k t p k = 1%Q).
  { intros [t|] p k; cbn; [|now left]. destruct p; [now left|].
    destruct (Frame.mem _ _ _); auto. }
  assert (Hone : forall t p k, Baselines.precision_at_k t p k = 1%Q <->
                               exists s, t = Some s /\ In (Some s) (firstn k p)).
  { intros [t|] p k; cbn.
    - destruct p as [|a p].
      + rewrite firstn_nil. split; [discriminate | intros [s [_ []]]].
      + destruct (Frame.mem Text.opt_eqb (Some t) (firstn k (a :: p))) eqn:E.
        * split; [|reflexivity]. intros _. exists t. split; [reflexivity|].
          now apply (proj1 (mem_In _ opt_eqb_eq _ _)).
        * split; [discriminate|]. intros [s [Hs Hin]]. injection Hs as <-.
          apply (proj2 (mem_In _ opt_eqb_eq _ _)) in Hin. congruence.
    - split; [discriminate | intros [s [Hs _]]; discriminate]. }
  split; [exact Hval|]. split; [exact Hone|]. split.
  - intros t p k k' Hle.
    destruct (Hval t p k) as [H0|H1].
    + rewrite H0. destruct (Hval t p k') as [H|H]; rewrite H; lra.
    + assert (H1' : Baselines.precision_at_k t p k' = 1%Q).
      { apply Hone. apply Hone in H1. destruct H1 as [s [Hs Hin]].
        exists s. split; [assumption|]. now apply (firstn_In_le _ k k'). }
      rewrite H1, H1'. lra.
  - intros col row rows. unfold Baselines.mean_precision. apply mean_bounds.
    + discriminate.
    + apply Forall_forall. intros x Hx. apply in_map_iff in Hx.
      destruct Hx as [r [<- _]].
      destruct (Hval (Baselines.true_match r) (col r) 5%nat) as [H|H]; rewrite H; lra.
Qed.

(** ** Store-level concept matching *)

Lemma store_concept_lookup_In (df_filtered : list ConceptMatch.Filtered) (s : Z)
    (concepts : list string) :
  In (s, concepts) (ConceptMatch.store_concept_lookup df_filtered) ->
  (exists p, In p df_filtered /\ ConceptMatch.store p = s) /\
  (forall c, In c concepts <->
             exists p, In p df_filtered /\ ConceptMatch.store p = s /\
                       ConceptMatch.product_concept p = c).
Proof.
  unfold ConceptMatch.store_concept_lookup. rewrite in_map_iff.
  intros [g [Hg Hin]]. injection Hg as Hs Hc. apply groupby_In in Hin.
  destruct Hin as [Hk Hrows]. rewrite Hs in *. split.
  - apply (group_keys_In _ _ _ Z.eqb_eq) in Hk. destruct Hk as [p [Hp Hkp]].
    exists p. split; [assumption | congruence].
  - intros c. rewrite <- Hc, Hrows. rewrite (unique_In _ String.eqb_eq), in_map_iff.
    split.
    + intros [p [Hpc Hp]]. apply filter_In in Hp. destruct Hp as [Hp Hkp].
      exists p. split; [assumption|]. split; [|assumption].
      unfold Frame.has_key in Hkp. now apply Z.eqb_eq in Hkp.
    + intros [p [Hp [Hps Hpc]]]. exists p. split; [assumption|].
      apply filter_In. split; [assumption|]. unfold Frame.has_key. now apply Z.eqb_eq.
Qed.

(** X21.  Every row of the store-level match table pairs a recipe row
    whose concept is not the empty text with a store that has filtered
    products, and it is marked available exactly when a filtered product of
    that store carries the recipe row's concept.  A recipe row whose
    concept is missing is kept and is available nowhere. *)
Theorem concept_match_rows :
  forall (df_recipes : list ConceptMatch.RecipeRow) (df_filtered : list ConceptMatch.Filtered),
    Forall (fun res =>
              ConceptMatch.falsy (ConceptMatch.r_ingredient_concept res) = false /\
              (exists row, In row df_recipes /\
                           ConceptMatch.ingredient row = ConceptMatch.r_ingredient res /\
                           ConceptMatch.ingredient_concept row
                           = ConceptMatch.r_ingredient_concept res) /\
              (exists p, In p df_filtered /\ ConceptMatch.store p = ConceptMatch.r_store res) /\
              (ConceptMatch.match_available res = true <->
                 exists p, In p df_filtered /\
                           ConceptMatch.store p = ConceptMatch.r_store res /\
                           ConceptMatch.r_ingredient_concept res
                           = Some (ConceptMatch.product_concept p)) /\
              (ConceptMatch.r_ingredient_concept res = None ->
                 ConceptMatch.match_available res = false))
           (ConceptMatch.df_matches df_recipes df_filtered).
Proof.
  intros df_recipes df_filtered. apply Forall_forall. intros res Hres.
  unfold ConceptMatch.df_matches, ConceptMatch.results in Hres.
  apply in_flat_map in Hres. destruct Hres as [row [Hrow Hres]].
  destruct (ConceptMatch.falsy (ConceptMatch.ingredient_concept row)) eqn:Ef; [contradiction|].
  apply in_map_iff in Hres. destruct Hres as [[s concepts] [<- Hsc]].
  cbn [ConceptMatch.r_store ConceptMatch.r_ingredient ConceptMatch.r_ingredient_concept
       ConceptMatch.match_available fst snd].
  apply store_concept_lookup_In in Hsc. destruct Hsc as [Hstore Hconcepts].
  split; [assumption|]. split; [eauto|]. split; [assumption|]. split.
  - unfold ConceptMatch.in_concepts.
    destruct (ConceptMatch.ingredient_concept row) as [c|].
    + rewrite (mem_In _ String.eqb_eq), Hconcepts. split.
      * intros [p [Hp [Hs Hc]]]. exists p. split; [assumption|]. split; [assumption|].
        now rewrite Hc.
      * intros [p [Hp [Hs Hc]]]. exists p. split; [assumption|]. split; [assumption|].
        congruence.
    + split; [discriminate | intros [p [_ [_ H]]]; discriminate].
  - intros ->. reflexivity.
Qed.

(** X22.  The match table has one row for every pair of a recipe row
    whose concept is not the empty text and a store with filtered
    products: their numbers multiply. *)
Theorem concept_match_size :
  forall (df_recipes : list ConceptMatch.RecipeRow) (df_filtered : list ConceptMatch.Filtered),
    List.length (ConceptMatch.df_matches df_recipes df_filtered)
    = (List.length (filter (fun row => negb (ConceptMatch.falsy
                                               (ConceptMatch.ingredient_concept row)))
                           df_recipes)
       * Frame.nunique Z.eqb (map ConceptMatch.store df_filtered))%nat.
Proof.
  intros df_recipes df_filtered. unfold ConceptMatch.df_matches, ConceptMatch.results.
  assert (Hl : List.length (ConceptMatch.store_concept_lookup df_filtered)
               = Frame.nunique Z.eqb (map ConceptMatch.store df_filtered)).
  { unfold ConceptMatch.store_concept_lookup, Frame.groupby, Frame.group_keys, Frame.nunique.
    rewrite !length_map, <- (Permutation_length (stable_sort_perm _ _)).
    f_equal. f_equal.
    induction df_filtered as [|p l IH]; [reflexivity|]. cbn [map Frame.dropna]. now rewrite IH. }
  rewrite <- Hl. generalize (ConceptMatch.store_concept_lookup df_filtered) as lookup.
  intros lookup. induction df_recipes as [|row rows IH]; [reflexivity|].
  cbn [flat_map filter]. rewrite length_app, IH.
  destruct (ConceptMatch.falsy (ConceptMatch.ingredient_concept row)); cbn [negb].
  - reflexivity.
  - cbn [List.length]. rewrite length_map. lia.
Qed.

(** ** Stripping, lower-casing and the normal form of a text *)

Lemma string_app_assoc (a b c : string) : ((a ++ b) ++ c)%string = (a ++ (b ++ c))%string.
Proof. induction a as [|x a IH]; simpl; [reflexivity | now rewrite IH]. Qed.

Lemma rev_string_acc (s acc : string) :
  Text.rev_string acc s = (Text.rev_string "" s ++ acc)%string.
Proof.
  revert acc. induction s as [|c s IH]; intros acc; [reflexivity|].
  cbn [Text.rev_string]. rewrite (IH (String c acc)), (IH (String c "")).
  rewrite string_app_assoc. reflexivity.
Qed.

Lemma rev_string_app (a b acc : string) :
  Text.rev_string acc (a ++ b)%string = Text.rev_string (Text.rev_string acc a) b.
Proof.
  revert acc. induction a as [|c a IH]; intros acc; [reflexivity|].
  cbn [String.append Text.rev_string]. apply IH.
Qed.

Lemma append_nil_r (s : string) : (s ++ "")%string = s.
Proof. induction s as [|c s IH]; simpl; [reflexivity | now rewrite IH]. Qed.

Lemma rev_string_involutive (s : string) : Text.rev_string "" (Text.rev_string "" s) = s.
Proof.
  induction s as [|c s IH]; [reflexivity|].
  cbn [Text.rev_string]. rewrite (rev_string_acc s (String c "")), rev_string_app, IH.
  reflexivity.
Qed.

(** Stripping a set of characters from the right, in terms of the text
    itself: [str.rstrip] and [str.strip("[]")] share this shape. *)
Section RightStrip.
Variable p : ascii -> bool.
Variable ls : string -> string.
Hypothesis ls_nil : ls "" = "".
Hypothesis ls_cons : forall c s, ls (String c s) = if p c then ls s else String c s.

Lemma ls_app (a b : string) :
  ls (a ++ b)%string = match ls a with
                       | EmptyString => ls b
                       | t => (t ++ b)%string
                       end.
Proof.
  induction a as [|c a IH]; cbn [String.append].
  - now rewrite ls_nil.
  - rewrite !ls_cons. destruct (p c); [exact IH | reflexivity].
Qed.

Lemma rs_cons (c : ascii) (s : string) :
  Text.rev_string "" (ls (Text.rev_string "" (String c s)))
  = match Text.rev_string "" (ls (Text.rev_string "" s)) with
    | EmptyString => if p c then "" else String c ""
    | t => String c t
    end.
Proof.
  cbn [Text.rev_string]. rewrite (rev_string_acc s (String c "")), ls_app.
  destruct (ls (Text.rev_string "" s)) as [|a t] eqn:E.
  - cbn [Text.rev_string]. rewrite ls_cons, ls_nil. destruct (p c); reflexivity.
  - rewrite rev_string_app. cbn [Text.rev_string].
    rewrite (rev_string_acc t (String a "")).
    destruct (Text.rev_string "" t ++ String a "")%string as [|x y] eqn:E'.
    + exfalso. destruct (Text.rev_string "" t); discriminate.
    + reflexivity.
Qed.

End RightStrip.

Lemma rstrip_cons (c : ascii) (s : string) :
  Text.rstrip (String c s)
  = match Text.rstrip s with
    | EmptyString => if Text.is_space c then "" else String c ""
    | t => String c t
    end.
Proof.
  unfold Text.rstrip. apply (rs_cons Text.is_space Text.lstrip); [reflexivity|].
  intros c' s'. reflexivity.
Qed.

Lemma strip_brackets_right (c : ascii) (s : string) :
  Text.rev_string "" (Embedding.lstrip_brackets (Text.rev_string "" (String c s)))
  = match Text.rev_string "" (Embedding.lstrip_brackets (Text.rev_string "" s)) with
    | EmptyString => if Embedding.is_bracket c then "" else String c ""
    | t => String c t
    end.
Proof.
  apply (rs_cons Embedding.is_bracket Embedding.lstrip_brackets); [reflexivity|].
  intros c' s'. reflexivity.
Qed.

Lemma is_space_lower (c : ascii) : Text.is_space (Text.lower_ascii c) = Text.is_space c.
Proof. destruct c as [[] [] [] [] [] [] [] []]; reflexivity. Qed.

Lemma lower_lstrip (s : string) : Text.lower (Text.lstrip s) = Text.lstrip (Text.lower s).
Proof.
  induction s as [|c s IH]; [reflexivity|]. cbn [Text.lstrip Text.lower].
  rewrite is_space_lower. destruct (Text.is_space c); [exact IH | reflexivity].
Qed.

Lemma lower_rstrip (s : string) : Text.lower (Text.rstrip s) = Text.rstrip (Text.lower s).
Proof.
  induction s as [|c s IH]; [reflexivity|]. cbn [Text.lower].
  rewrite !rstrip_cons, <- IH, is_space_lower.
  destruct (Text.rstrip s); cbn [Text.lower]; [destruct (Text.is_space c)|]; reflexivity.
Qed.

Lemma lower_strip (s : string) : Text.lower (Text.strip s) = Text.strip (Text.lower s).
Proof. unfold Text.strip. now rewrite lower_rstrip, lower_lstrip. Qed.

Lemma rstrip_idem (s : string) : Text.rstrip (Text.rstrip s) = Text.rstrip s.
Proof.
  induction s as [|c s IH]; [reflexivity|]. rewrite rstrip_cons.
  destruct (Text.rstrip s) as [|a t] eqn:E.
  - destruct (Text.is_space c) eqn:Ec; [reflexivity|].
    rewrite rstrip_cons. change (Text.rstrip "") with "". now rewrite Ec.
  - rewrite rstrip_cons, IH. reflexivity.
Qed.

Lemma lstrip_clean (s : string) :
  match Text.lstrip s with
  | String c _ => Text.is_space c = false
  | EmptyString => True
  end.
Proof.
  induction s as [|c s IH]; [exact I|]. cbn [Text.lstrip].
  destruct (Text.is_space c) eqn:E; [exact IH | exact E].
Qed.

Lemma lstrip_rstrip_clean (s : string) :
  match s with String c _ => Text.is_space c = false | EmptyString => True end ->
  Text.lstrip (Text.rstrip s) = Text.rstrip s.
Proof.
  destruct s as [|c s]; [reflexivity|]. intros Hc. rewrite rstrip_cons.
  destruct (Text.rstrip s); [rewrite Hc|]; cbn [Text.lstrip]; now rewrite Hc.
Qed.

Lemma strip_idem (s : string) : Text.strip (Text.strip s) = Text.strip s.
Proof.
  unfold Text.strip. rewrite (lstrip_rstrip_clean _ (lstrip_clean s)). apply rstrip_idem.
Qed.

Lemma all_chars_lstrip (p : ascii -> bool) (s : string) :
  Normalise.all_chars p s = true -> Normalise.all_chars p (Text.lstrip s) = true.
Proof.
  induction s as [|c s IH]; [reflexivity|]. cbn [Text.lstrip Normalise.all_chars].
  intros H. apply andb_true_iff in H. destruct H as [Hc Hs].
  destruct (Text.is_space c); [auto|]. cbn [Normalise.all_chars]. now rewrite Hc, Hs.
Qed.

Lemma all_chars_rstrip (p : ascii -> bool) (s : string) :
  Normalise.all_chars p s = true -> Normalise.all_chars p (Text.rstrip s) = true.
Proof.
  induction s as [|c s IH]; [reflexivity|]. cbn [Normalise.all_chars].
  intros H. apply andb_true_iff in H. destruct H as [Hc Hs]. rewrite rstrip_cons.
  specialize (IH Hs). destruct (Text.rstrip s) as [|a t].
  - destruct (Text.is_space c); [reflexivity|]. cbn. now rewrite Hc.
  - cbn [Normalise.all_chars] in *. now rewrite Hc, IH.
Qed.

Lemma spaced_lstrip (s : string) (b : bool) :
  Normalise.spaced b s = true -> Normalise.spaced false (Text.lstrip s) = true.
Proof.
  revert b. induction s as [|c s IH]; intros b; [reflexivity|].
  cbn [Text.lstrip Normalise.spaced]. destruct (Text.is_space c) eqn:E.
  - intros H. apply andb_true_iff in H. destruct H as [_ H]. now apply (IH true).
  - intros H. cbn [Normalise.spaced]. now rewrite E.
Qed.

Lemma spaced_rstrip (s : string) (b : bool) :
  Normalise.spaced b s = true -> Normalise.spaced b (Text.rstrip s) = true.
Proof.
  revert b. induction s as [|c s IH]; intros b; [reflexivity|].
  cbn [Normalise.spaced]. rewrite rstrip_cons. destruct (Text.is_space c) eqn:E.
  - intros H. apply andb_true_iff in H. destruct H as [Hb H].
    specialize (IH true H). destruct (Text.rstrip s) as [|a t]; [reflexivity|].
    cbn [Normalise.spaced]. rewrite E, Hb. exact IH.
  - intros H. specialize (IH false H). destruct (Text.rstrip s) as [|a t].
    + cbn. now rewrite E.
    + cbn [Normalise.spaced]. rewrite E. exact IH.
Qed.

Lemma lower_fixed (s : string) :
  Normalise.all_chars (fun c => Ascii.eqb (Text.lower_ascii c) c) s = true -> Text.lower s = s.
Proof.
  induction s as [|c s IH]; [reflexivity|]. cbn [Normalise.all_chars Text.lower].
  intros H. apply andb_true_iff in H. destruct H as [Hc Hs].
  apply Ascii.eqb_eq in Hc. now rewrite Hc, IH.
Qed.

Lemma remove_punct_fixed (s : string) :
  Normalise.all_chars (fun c => negb (Normalise.is_punct c)) s = true ->
  Normalise.remove_punct s = s.
Proof.
  induction s as [|c s IH]; [reflexivity|]. cbn [Normalise.all_chars Normalise.remove_punct].
  intros H. apply andb_true_iff in H. destruct H as [Hc Hs].
  apply negb_true_iff in Hc. now rewrite Hc, IH.
Qed.

Lemma collapse_fixed (s : string) (b : bool) :
  Normalise.spaced b s = true -> Normalise.collapse b s = s.
Proof.
  revert b. induction s as [|c s IH]; intros b; [reflexivity|].
  cbn [Normalise.spaced Normalise.collapse]. destruct (Text.is_space c) eqn:E.
  - intros H. apply andb_true_iff in H. destruct H as [H Hs].
    apply andb_true_iff in H. destruct H as [Hb Hc].
    apply negb_true_iff in Hb. apply Ascii.eqb_eq in Hc. subst b c.
    now rewrite (IH true Hs).
  - intros H. now rewrite (IH false H).
Qed.

Lemma all_chars_and (p q : ascii -> bool) (s : string) :
  Normalise.all_chars (fun c => p c && q c) s
  = Normalise.all_chars p s && Normalise.all_chars q s.
Proof.
  induction s as [|c s IH]; [reflexivity|]. cbn [Normalise.all_chars]. rewrite IH.
  destruct (p c), (q c), (Normalise.all_chars p s), (Normalise.all_chars q s); reflexivity.
Qed.

Lemma lower_all_fixed (s : string) :
  Normalise.all_chars (fun c => Ascii.eqb (Text.lower_ascii c) c) (Text.lower s) = true.
Proof.
  induction s as [|c s IH]; [reflexivity|]. cbn [Text.lower Normalise.all_chars].
  now rewrite lower_ascii_idem, Ascii.eqb_refl, IH.
Qed.

Lemma remove_punct_shape (p : ascii -> bool) (s : string) :
  Normalise.all_chars p s = true ->
  Normalise.all_chars (fun c => negb (Normalise.is_punct c) && p c)
                      (Normalise.remove_punct s) = true.
Proof.
  induction s as [|c s IH]; [reflexivity|]. cbn [Normalise.all_chars Normalise.remove_punct].
  intros H. apply andb_true_iff in H. destruct H as [Hc Hs].
  destruct (Normalise.is_punct c) eqn:E; [auto|].
  cbn [Normalise.all_chars]. now rewrite E, Hc, (IH Hs).
Qed.

Lemma collapse_shape (s : string) (b : bool) :
  Normalise.all_chars Normalise.plain s = true ->
  Normalise.all_chars Normalise.plain (Normalise.collapse b s) = true /\
  Normalise.spaced b (Normalise.collapse b s) = true.
Proof.
  revert b. induction s as [|c s IH]; intros b; [split; reflexivity|].
  cbn [Normalise.all_chars Normalise.collapse]. intros H.
  apply andb_true_iff in H. destruct H as [Hc Hs].
  destruct (Text.is_space c) eqn:E.
  - destruct (IH true Hs) as [Ha Hsp]. destruct b; [auto|].
    cbn [Normalise.all_chars Normalise.spaced]. rewrite Ha, Hsp. split; reflexivity.
  - destruct (IH false Hs) as [Ha Hsp].
    cbn [Normalise.all_chars Normalise.spaced]. rewrite E, Hc, Ha, Hsp. split; reflexivity.
Qed.

Lemma normalize_normal_form (t : string) : Normalise.normal_form (Normalise.normalize (Some t)).
Proof.
  unfold Normalise.normalize, Normalise.normal_form.
  pose proof (remove_punct_shape _ _ (lower_all_fixed t)) as Hp.
  change (fun c => negb (Normalise.is_punct c) && Ascii.eqb (Text.lower_ascii c) c)
    with Normalise.plain in Hp.
  destruct (collapse_shape _ false Hp) as [Ha Hs].
  split; [|split].
  - unfold Text.strip. now apply all_chars_rstrip, all_chars_lstrip.
  - unfold Text.strip. apply spaced_rstrip. now apply (spaced_lstrip _ false).
  - apply strip_idem.
Qed.

Lemma normal_form_fixed (u : string) :
  Normalise.normal_form u -> Normalise.normalize (Some u) = u.
Proof.
  intros [Ha [Hs Hst]]. unfold Normalise.normalize.
  unfold Normalise.plain in Ha. rewrite all_chars_and in Ha.
  apply andb_true_iff in Ha. destruct Ha as [Hp Hl].
  now rewrite (lower_fixed _ Hl), (remove_punct_fixed _ Hp), (collapse_fixed _ _ Hs).
Qed.

(** X23.  Normalising a text is idempotent and lands in the normal form:
    the result has no punctuation and no upper-case letter, its only
    whitespace is single blanks between words, and normalising it again
    changes nothing.  Anything that is not a text normalises to the empty
    text.  The offline translation keeps the normal form. *)
Theorem normalize_idempotent :
  forall text : option string,
    Normalise.normal_form (Normalise.normalize text) /\
    Normalise.normalize (Some (Normalise.normalize text)) = Normalise.normalize text /\
    Normalise.normal_form (Normalise.translate_to_english (Normalise.normalize text)) /\
    Normalise.translate_to_english
      (Normalise.translate_to_english (Normalise.normalize text))
    = Normalise.translate_to_english (Normalise.normalize text).
Proof.
  intros text.
  assert (Hnf : Normalise.normal_form (Normalise.normalize text)).
  { destruct text as [t|]; [apply normalize_normal_form|]. repeat split. }
  split; [exact Hnf|]. split; [now apply normal_form_fixed|].
  unfold Normalise.translate_to_english.
  destruct (Frame.lookup String.eqb (Normalise.normalize text) Normalise.translation_dict)
    as [e|] eqn:E.
  - apply (lookup_In _ String.eqb_eq) in E. unfold Normalise.translation_dict in E.
    cbn [In] in E.
    repeat (destruct E as [E|E]; [injection E as _ <-; split; [repeat split | reflexivity]|]).
    contradiction.
  - split; [exact Hnf | now rewrite E].
Qed.

(** X24.  Cleaning a name twice is harmless: the concept of a markdown
    row is the ontology entry of its cleaned product name, and a row whose
    product name is missing gets no concept. *)
Theorem markdown_concept_of_clean_name :
  forall (snap_store : Z) (unnamed_4 : option string),
    PriorityScorer.snap_concept (PriorityScorer.markdown_row snap_store unnamed_4)
    = Frame.lookup String.eqb (Text.norm_concept unnamed_4) PriorityScorer.ontology /\
    PriorityScorer.snap_concept (PriorityScorer.markdown_row snap_store None) = None.
Proof.
  intros snap_store name. split; [|reflexivity].
  unfold PriorityScorer.markdown_row, PriorityScorer.map_to_ontology, Text.norm_concept.
  cbn [PriorityScorer.snap_concept].
  now rewrite lower_idem, <- lower_strip, strip_idem.
Qed.

(** ** Serialised embeddings: what the repair accepts *)

Lemma tokens_after_padded_bracket (c : ascii) (rest : string) :
  Text.is_space c = true ->
  exists more, Embedding.tokens (String "[" (String c rest)) = "" :: more.
Proof.
  intros Hc. unfold Embedding.tokens, Text.strip.
  change (Text.lstrip (String "[" (String c rest))) with (String "[" (String c rest)).
  rewrite !rstrip_cons, Hc.
  destruct (Text.rstrip rest) as [|a t].
  - exists []. reflexivity.
  - generalize (String a t). intros tail.
    cbn [Embedding.sub_ws]. change (Text.is_space "[") with false. cbn iota.
    rewrite Hc. cbn iota.
    unfold Embedding.strip_brackets.
    change (Embedding.lstrip_brackets (String "[" (String "," (Embedding.sub_ws true tail))))
      with (String "," (Embedding.sub_ws true tail)).
    rewrite strip_brackets_right.
    destruct (Text.rev_string "" (Embedding.lstrip_brackets
                (Text.rev_string "" (Embedding.sub_ws true tail)))) as [|x y].
    + exists [""]. reflexivity.
    + eexists. cbn [Embedding.split_comma]. change (Ascii.eqb "," ",") with true.
      cbn iota. reflexivity.
Qed.

(** X25.  A vector text whose opening bracket is followed by whitespace
    (the way numpy prints a vector whose first component is not negative)
    is not parsed: its first token is the empty text, [float] rejects it,
    and the cell becomes the zero vector. *)
Theorem padded_bracket_embedding_is_zeroed :
  forall (F : Type) (zero : F) (py_float : string -> option F) (c : ascii) (rest : string),
    py_float "" = None ->
    Text.is_space c = true ->
    Embedding.fix_embedding_string zero py_float (Embedding.Str (String "[" (String c rest)))
    = Embedding.Ok (Embedding.Array (repeat zero 384)).
Proof.
  intros F zero py_float c rest Hfloat Hc.
  destruct (tokens_after_padded_bracket c rest Hc) as [more Htok].
  unfold Embedding.fix_embedding_string. rewrite Htok.
  cbn [Embedding.map_float]. rewrite Hfloat. reflexivity.
Qed.

Lemma padded_bracket_embedding_is_zeroed_witness :
  Embedding.fix_embedding_string 0%Q Embedding.int_float (Embedding.Str "[ 1 -2 3]")
  = Embedding.Ok (Embedding.Array (repeat 0%Q 384)).
Proof.
  apply (padded_bracket_embedding_is_zeroed Q 0%Q Embedding.int_float " "%char "1 -2 3]").
  - reflexivity.
  - reflexivity.
Defined.

Section RightStripFixed.
Variable p : ascii -> bool.
Variable rs : string -> string.
Hypothesis rs_nil : rs "" = "".
Hypothesis rs_step : forall c s,
  rs (String c s) = match rs s with
                    | EmptyString => if p c then "" else String c ""
                    | t => String c t
                    end.

Lemma rs_keeps_suffix (a b : string) : b <> "" -> rs b = b -> rs (a ++ b)%string = (a ++ b)%string.
Proof.
  intros Hne Hb. induction a as [|x a IH]; [exact Hb|].
  cbn [String.append]. rewrite rs_step, IH.
  destruct (a ++ b)%string eqn:E; [|reflexivity].
  destruct a; [cbn in E; contradiction | discriminate].
Qed.

Lemma rs_fixed (t : string) :
  t <> "" -> Normalise.all_chars (fun c => negb (p c)) t = true -> rs t = t.
Proof.
  induction t as [|c t IH]; [contradiction|]. intros _ H.
  cbn [Normalise.all_chars] in H. apply andb_true_iff in H. destruct H as [Hc Ht].
  apply negb_true_iff in Hc. rewrite rs_step.
  destruct t as [|c' t'].
  - now rewrite rs_nil, Hc.
  - rewrite IH by (discriminate || assumption). reflexivity.
Qed.

Lemma rs_drops_last (a : string) (c : ascii) :
  p c = true -> rs (a ++ String c "")%string = rs a.
Proof.
  intros Hc. induction a as [|x a IH].
  - cbn [String.append]. now rewrite rs_step, rs_nil, Hc.
  - cbn [String.append]. now rewrite !rs_step, IH.
Qed.

End RightStripFixed.

Lemma all_chars_weaken (p q : ascii -> bool) (s : string) :
  (forall c, p c = true -> q c = true) ->
  Normalise.all_chars p s = true -> Normalise.all_chars q s = true.
Proof.
  intros Hpq. induction s as [|c s IH]; [reflexivity|]. cbn [Normalise.all_chars].
  intros H. apply andb_true_iff in H. destruct H as [Hc Hs].
  now rewrite (Hpq c Hc), (IH Hs).
Qed.

Lemma component_char_parts (c : ascii) :
  EmbeddingText.component_char c = true ->
  Text.is_space c = false /\ Ascii.eqb c "," = false /\ Embedding.is_bracket c = false.
Proof.
  unfold EmbeddingText.component_char. rewrite !andb_true_iff, !negb_true_iff. tauto.
Qed.

Lemma sub_ws_component (t rest : string) (b : bool) :
  t <> "" -> Normalise.all_chars EmbeddingText.component_char t = true ->
  Embedding.sub_ws b (t ++ rest)%string = (t ++ Embedding.sub_ws false rest)%string.
Proof.
  revert b. induction t as [|c t IH]; intros b; [contradiction|]. intros _ H.
  cbn [Normalise.all_chars] in H. apply andb_true_iff in H. destruct H as [Hc Ht].
  apply component_char_parts in Hc. destruct Hc as [Hs _].
  cbn [String.append Embedding.sub_ws]. rewrite Hs. f_equal.
  destruct t as [|c' t']; [reflexivity|]. apply IH; [discriminate | assumption].
Qed.

Lemma sub_ws_components (toks : list string) (rest : string) :
  toks <> [] -> Forall EmbeddingText.component toks ->
  Embedding.sub_ws false (String.concat " " toks ++ rest)%string
  = (String.concat "," toks ++ Embedding.sub_ws false rest)%string.
Proof.
  induction toks as [|t toks IH]; [contradiction|]. intros _ H.
  inversion H as [|? ? [Hne Hc] Hrest]; subst. destruct toks as [|t' toks'].
  - cbn [String.concat]. now apply sub_ws_component.
  - change (String.concat " " (t :: t' :: toks'))
      with (t ++ " " ++ String.concat " " (t' :: toks'))%string.
    change (String.concat "," (t :: t' :: toks'))
      with (t ++ "," ++ String.concat "," (t' :: toks'))%string.
    rewrite !string_app_assoc, (sub_ws_component t _ false Hne Hc).
    f_equal. cbn [String.append Embedding.sub_ws]. change (Text.is_space " ") with true.
    cbn iota. f_equal.
    inversion Hrest as [|? ? [Hne' Hc'] Hrest']; subst.
    specialize (IH ltac:(discriminate) Hrest).
    assert (Htrue : forall s, Embedding.sub_ws true (String.concat " " (t' :: toks') ++ s)%string
                              = Embedding.sub_ws false (String.concat " " (t' :: toks') ++ s)%string).
    { intros s. destruct t' as [|c0 t0]; [contradiction|].
      cbn [Normalise.all_chars] in Hc'. apply andb_true_iff in Hc'. destruct Hc' as [Hc0 _].
      apply component_char_parts in Hc0. destruct Hc0 as [Hs0 _].
      destruct toks'; cbn [String.concat String.append Embedding.sub_ws]; now rewrite Hs0. }
    rewrite Htrue. exact IH.
Qed.

Lemma split_comma_component (t rest cur : string) :
  Normalise.all_chars EmbeddingText.component_char t = true ->
  Embedding.split_comma cur (t ++ rest)%string
  = Embedding.split_comma (Text.rev_string cur t) rest.
Proof.
  revert cur. induction t as [|c t IH]; intros cur H; [reflexivity|].
  cbn [Normalise.all_chars] in H. apply andb_true_iff in H. destruct H as [Hc Ht].
  apply component_char_parts in Hc. destruct Hc as [_ [Hcomma _]].
  cbn [String.append Embedding.split_comma Text.rev_string]. rewrite Hcomma. now apply IH.
Qed.

Lemma split_comma_components (toks : list string) :
  toks <> [] -> Forall EmbeddingText.component toks ->
  Embedding.split_comma "" (String.concat "," toks) = toks.
Proof.
  induction toks as [|t toks IH]; [contradiction|]. intros _ H.
  inversion H as [|? ? [Hne Hc] Hrest]; subst. destruct toks as [|t' toks'].
  - cbn [String.concat]. rewrite <- (append_nil_r t) at 1.
    rewrite (split_comma_component t "" "" Hc). cbn [Embedding.split_comma].
    now rewrite rev_string_involutive.
  - change (String.concat "," (t :: t' :: toks'))
      with (t ++ "," ++ String.concat "," (t' :: toks'))%string.
    rewrite (split_comma_component t _ "" Hc).
    cbn [String.append Embedding.split_comma]. change (Ascii.eqb "," ",") with true.
    cbn iota. rewrite rev_string_involutive. f_equal.
    apply IH; [discriminate | assumption].
Qed.

Lemma concat_components_shape (toks : list string) :
  toks <> [] -> Forall EmbeddingText.component toks ->
  String.concat "," toks <> "" /\
  Embedding.lstrip_brackets (String.concat "," toks) = String.concat "," toks /\
  Text.rev_string "" (Embedding.lstrip_brackets (Text.rev_string "" (String.concat "," toks)))
  = String.concat "," toks.
Proof.
  induction toks as [|t toks IH]; [contradiction|]. intros _ H.
  inversion H as [|? ? [Hne Hc] Hrest]; subst.
  assert (Hb : Normalise.all_chars (fun c => negb (Embedding.is_bracket c)) t = true).
  { apply (all_chars_weaken EmbeddingText.component_char); [|assumption].
    intros c Hcc. apply component_char_parts in Hcc. apply negb_true_iff. tauto. }
  assert (Hfirst : forall s, Embedding.lstrip_brackets (t ++ s)%string = (t ++ s)%string).
  { intros s. destruct t as [|c t0]; [contradiction|].
    cbn [Normalise.all_chars] in Hb. apply andb_true_iff in Hb. destruct Hb as [Hb0 _].
    apply negb_true_iff in Hb0. cbn [String.append Embedding.lstrip_brackets]. now rewrite Hb0. }
  assert (Hrs : Text.rev_string "" (Embedding.lstrip_brackets (Text.rev_string "" t)) = t).
  { apply (rs_fixed Embedding.is_bracket
             (fun s => Text.rev_string "" (Embedding.lstrip_brackets (Text.rev_string "" s))));
      [reflexivity | apply strip_brackets_right | assumption | assumption]. }
  destruct toks as [|t' toks'].
  - cbn [String.concat]. split; [assumption|]. split; [|assumption].
    rewrite <- (append_nil_r t). apply Hfirst.
  - change (String.concat "," (t :: t' :: toks'))
      with (t ++ "," ++ String.concat "," (t' :: toks'))%string.
    destruct (IH ltac:(discriminate) Hrest) as [Hne' [_ Hrs']].
    split; [destruct t; [contradiction | discriminate]|]. split; [apply Hfirst|].
    rewrite <- string_app_assoc.
    apply (rs_keeps_suffix Embedding.is_bracket
             (fun s => Text.rev_string "" (Embedding.lstrip_brackets (Text.rev_string "" s))));
      [apply strip_brackets_right | assumption | assumption].
Qed.

Lemma tokens_vector_text (toks : list string) :
  toks <> [] -> Forall EmbeddingText.component toks ->
  Embedding.tokens (EmbeddingText.vector_text toks) = toks.
Proof.
  intros Hne Hall. unfold Embedding.tokens, EmbeddingText.vector_text.
  assert (Hstrip : Text.strip ("[" ++ String.concat " " toks ++ "]")
                   = ("[" ++ String.concat " " toks ++ "]")%string).
  { unfold Text.strip. cbn [String.append Text.lstrip]. change (Text.is_space "[") with false.
    cbn iota.
    change (String "[" (String.concat " " toks ++ "]"))
      with (("[" ++ String.concat " " toks) ++ "]")%string at 1.
    change (String "[" (String.concat " " toks ++ "]"))
      with ("[" ++ (String.concat " " toks ++ "]"))%string.
    rewrite <- string_app_assoc.
    apply (rs_keeps_suffix Text.is_space Text.rstrip rstrip_cons); [discriminate | reflexivity]. }
  rewrite Hstrip. cbn [String.append Embedding.sub_ws]. change (Text.is_space "[") with false.
  cbn iota. rewrite (sub_ws_components toks "]" Hne Hall).
  change (Embedding.sub_ws false "]") with "]".
  destruct (concat_components_shape toks Hne Hall) as [Hne' [Hl Hr]].
  unfold Embedding.strip_brackets. cbn [Embedding.lstrip_brackets].
  change (Embedding.is_bracket "[") with true. cbn iota.
  assert (Hl' : Embedding.lstrip_brackets (String.concat "," toks ++ "]")
                = (String.concat "," toks ++ "]")%string).
  { destruct (String.concat "," toks) as [|c s] eqn:E; [contradiction|].
    cbn [Embedding.lstrip_brackets] in Hl. cbn [String.append Embedding.lstrip_brackets].
    destruct (Embedding.is_bracket c); [|reflexivity].
    exfalso.
    assert (Hlen : forall s, (String.length (Embedding.lstrip_brackets s) <= String.length s)%nat).
    { clear. induction s as [|x s IH]; [reflexivity|]. cbn [Embedding.lstrip_brackets].
      destruct (Embedding.is_bracket x); cbn [String.length]; lia. }
    specialize (Hlen s). rewrite Hl in Hlen. cbn [String.length] in Hlen. lia. }
  rewrite Hl'.
  rewrite (rs_drops_last Embedding.is_bracket
             (fun s => Text.rev_string "" (Embedding.lstrip_brackets (Text.rev_string "" s)))
             eq_refl strip_brackets_right _ "]"%char eq_refl).
  rewrite Hr. now apply split_comma_components.
Qed.

Lemma map_float_all (F : Type) (py_float : string -> option F) (toks : list string)
    (xs : list F) :
  Forall2 (fun t x => py_float t = Some x) toks xs ->
  Embedding.map_float py_float toks = Embedding.Ok xs.
Proof.
  induction 1 as [|t x toks xs Ht Hrest IH]; [reflexivity|].
  cbn [Embedding.map_float]. rewrite Ht, IH. reflexivity.
Qed.

(** X26.  A vector text in the plain one-line form - components between
    brackets, one blank between neighbours, no padding - is split into
    exactly its components, and when [float] accepts every component the
    cell becomes the list of those floats. *)
Theorem plain_vector_text_is_parsed :
  forall (F : Type) (zero : F) (py_float : string -> option F)
         (components : list string) (xs : list F),
    components <> [] ->
    Forall EmbeddingText.component components ->
    Forall2 (fun t x => py_float t = Some x) components xs ->
    Embedding.tokens (EmbeddingText.vector_text components) = components /\
    Embedding.fix_embedding_string zero py_float
      (Embedding.Str (EmbeddingText.vector_text components))
    = Embedding.Ok (Embedding.FloatList xs).
Proof.
  intros F zero py_float components xs Hne Hall Hfloat.
  pose proof (tokens_vector_text components Hne Hall) as Htok.
  split; [exact Htok|].
  unfold Embedding.fix_embedding_string. rewrite Htok, (map_float_all _ _ _ _ Hfloat).
  reflexivity.
Qed.

Lemma plain_vector_text_is_parsed_witness :
  EmbeddingText.vector_text ["1"; "-2"; "3"] = "[1 -2 3]" /\
  (Embedding.tokens (EmbeddingText.vector_text ["1"; "-2"; "3"]) = ["1"; "-2"; "3"] /\
   Embedding.fix_embedding_string 0%Q Embedding.int_float
     (Embedding.Str (EmbeddingText.vector_text ["1"; "-2"; "3"]))
   = Embedding.Ok (Embedding.FloatList [1%Q; (-2)%Q; 3%Q])).
Proof.
  split; [reflexivity|].
  apply (plain_vector_text_is_parsed Q 0%Q Embedding.int_float ["1"; "-2"; "3"]
           [1%Q; (-2)%Q; 3%Q]).
  - discriminate.
  - repeat constructor; discriminate.
  - repeat constructor.
Defined.

(** ** The ontology update *)

Lemma ontology_dict_get_set (d : list (string * option string)) (k k' : string)
    (v : option string) :
  Frame.lookup String.eqb k' (OntologyUpdate.dict_set d k v)
  = if String.eqb k k' then Some v else Frame.lookup String.eqb k' d.
Proof.
  induction d as [|[k0 v0] d IH]; simpl.
  - reflexivity.
  - destruct (String.eqb k0 k) eqn:E0; simpl.
    + apply String.eqb_eq in E0. subst k0. destruct (String.eqb k k'); reflexivity.
    + destruct (String.eqb k0 k') eqn:E1; [|exact IH].
      apply String.eqb_eq in E1. subst k0. now rewrite String.eqb_sym, E0.
Qed.

Lemma update_map_lookup (cands : list OntologyUpdate.OntologyRow)
    (d : list (string * option string)) (k : string) :
  Frame.lookup String.eqb k
    (fold_left (fun d row => OntologyUpdate.dict_set d (OntologyUpdate.raw_term row)
                               (OntologyUpdate.suggested_concept row)) cands d)
  = if existsb (fun row => String.eqb (OntologyUpdate.raw_term row) k) cands
    then Some (Frame.lookup String.eqb k OntologyUpdate.manual_concepts)
    else Frame.lookup String.eqb k d.
Proof.
  revert d. induction cands as [|row cands IH]; intros d; [reflexivity|].
  cbn [fold_left existsb]. rewrite IH, ontology_dict_get_set.
  destruct (existsb _ cands); [now rewrite orb_true_r|]. rewrite orb_false_r.
  destruct (String.eqb (OntologyUpdate.raw_term row) k) eqn:E; [|reflexivity].
  apply String.eqb_eq in E. unfold OntologyUpdate.suggested_concept. now rewrite E.
Qed.

Lemma rare_terms_mem (terms : list string) (t : string) :
  Frame.mem String.eqb t (OntologyUpdate.rare_terms (OntologyUpdate.value_counts terms)) = true <->
  (1 <= List.length (filter (String.eqb t) terms) <= 2)%nat.
Proof.
  rewrite (mem_In _ String.eqb_eq). unfold OntologyUpdate.rare_terms, OntologyUpdate.value_counts.
  rewrite in_map_iff. split.
  - intros [[t' n] [Ht Hin]]. cbn in Ht. subst t'. apply filter_In in Hin.
    destruct Hin as [Hin Hn]. cbn in Hn. apply Nat.leb_le in Hn.
    apply in_map_iff in Hin. destruct Hin as [t' [Heq Hu]]. injection Heq as -> <-.
    split; [|assumption]. apply (proj1 (unique_In _ String.eqb_eq _ _)) in Hu.
    assert (Hf : In t (filter (String.eqb t) terms)).
    { apply filter_In. split; [assumption | apply String.eqb_refl]. }
    destruct (filter (String.eqb t) terms); [contradiction | simpl; lia].
  - intros [H1 H2]. exists (t, List.length (filter (String.eqb t) terms)).
    split; [reflexivity|]. apply filter_In. split; [|now apply Nat.leb_le].
    apply in_map_iff. exists t. split; [reflexivity|].
    apply (proj2 (unique_In _ String.eqb_eq _ _)).
    destruct (filter (String.eqb t) terms) as [|x l] eqn:E; [simpl in H1; lia|].
    assert (Hx : In x (filter (String.eqb t) terms)) by (rewrite E; now left).
    apply filter_In in Hx. destruct Hx as [Hx Hxt]. apply String.eqb_eq in Hxt. now subst.
Qed.

(** X27.  The ontology update rewrites exactly the rows whose raw term is
    used once or twice as a recipe or product concept: such a row takes
    the manual suggestion for its term, and loses its concept when there
    is none; every other row (a term used more often, or not at all) keeps
    its concept.  Raw terms and row order are unchanged. *)
Theorem ontology_update_rule :
  forall (df_ontology : list OntologyUpdate.OntologyRow)
         (ingredient_concepts product_concepts : list (option string)),
    map OntologyUpdate.raw_term
        (OntologyUpdate.expand df_ontology ingredient_concepts product_concepts)
    = map OntologyUpdate.raw_term df_ontology /\
    map OntologyUpdate.concept
        (OntologyUpdate.expand df_ontology ingredient_concepts product_concepts)
    = map (fun row =>
             let n := OntologyUpdate.uses ingredient_concepts product_concepts
                        (OntologyUpdate.raw_term row) in
             if ((1 <=? n) && (n <=? 2))%nat
             then Frame.lookup String.eqb (OntologyUpdate.raw_term row)
                               OntologyUpdate.manual_concepts
             else OntologyUpdate.concept row) df_ontology.
Proof.
  intros df_ontology ics pcs. unfold OntologyUpdate.expand. cbv zeta. rewrite !map_map.
  split; [reflexivity|]. apply map_ext_in. intros row Hrow.
  cbn [OntologyUpdate.concept OntologyUpdate.raw_term].
  unfold OntologyUpdate.new_concept, OntologyUpdate.update_map. rewrite update_map_lookup.
  cbn [Frame.lookup].
  set (terms := OntologyUpdate.all_terms ics pcs).
  set (rare := OntologyUpdate.rare_terms (OntologyUpdate.value_counts terms)).
  set (t := OntologyUpdate.raw_term row).
  assert (Hiff : existsb (fun r => String.eqb (OntologyUpdate.raw_term r) t)
                   (OntologyUpdate.df_candidates df_ontology
                      (OntologyUpdate.candidates df_ontology rare)) = true <->
                 (1 <= OntologyUpdate.uses ics pcs t <= 2)%nat).
  { unfold OntologyUpdate.uses. fold terms. rewrite <- rare_terms_mem. fold rare.
    rewrite existsb_exists. split.
    - intros [r [Hr Ht]]. apply String.eqb_eq in Ht.
      unfold OntologyUpdate.df_candidates in Hr. apply filter_In in Hr.
      destruct Hr as [_ Hr]. apply (proj1 (mem_In _ String.eqb_eq _ _)) in Hr.
      unfold OntologyUpdate.candidates in Hr. apply filter_In in Hr.
      destruct Hr as [_ Hr]. now rewrite Ht in Hr.
    - intros Hm. exists row. split; [|apply String.eqb_refl].
      unfold OntologyUpdate.df_candidates. apply filter_In. split; [assumption|].
      apply (proj2 (mem_In _ String.eqb_eq _ _)). unfold OntologyUpdate.candidates.
      apply filter_In. split; [|exact Hm].
      apply (proj2 (unique_In _ String.eqb_eq _ _)). now apply in_map. }
  destruct (existsb _ _) eqn:Ex.
  - destruct (proj1 Hiff eq_refl) as [H1 H2].
    apply Nat.leb_le in H1, H2. now rewrite H1, H2.
  - destruct ((1 <=? OntologyUpdate.uses ics pcs t)%nat
              && (OntologyUpdate.uses ics pcs t <=? 2)%nat) eqn:En; [|reflexivity].
    apply andb_true_iff in En. destruct En as [H1 H2]. apply Nat.leb_le in H1, H2.
    assert (Ht : false = true) by (apply Hiff; lia). discriminate.
Qed.

(** ** The cleaned product name *)

(** X28.  The two cleanings of a product name agree on every text:
    lower-casing then stripping (notebook 02) gives what stripping then
    lower-casing (notebook 08) gives.  They differ only on a missing name,
    which notebook 02 leaves missing and notebook 08 turns into the text
    nan.  The cleaning is idempotent and invisible to the ontology
    mapping. *)
Theorem clean_product_name_agrees :
  (forall s, Cleaning.clean_product_name (Some s) = Some (Text.norm_concept (Some s))) /\
  Cleaning.clean_product_name None = None /\
  Text.norm_concept None = "nan" /\
  (forall name, Cleaning.clean_product_name (Cleaning.clean_product_name name)
                = Cleaning.clean_product_name name) /\
  (forall name mapping,
      PriorityScorer.map_to_ontology (Cleaning.clean_product_name name) mapping
      = PriorityScorer.map_to_ontology name mapping).
Proof.
  assert (Hfix : forall s, Text.strip (Text.lower (Text.strip (Text.lower s)))
                           = Text.strip (Text.lower s)).
  { intros s. now rewrite lower_strip, lower_idem, strip_idem. }
  split; [|split; [reflexivity|split; [reflexivity|split]]].
  - intros s. unfold Cleaning.clean_product_name, Text.norm_concept, Text.astype_str.
    cbn [option_map]. now rewrite lower_strip.
  - intros [s|]; [|reflexivity]. unfold Cleaning.clean_product_name. cbn [option_map].
    now rewrite Hfix.
  - intros [s|] mapping; [|reflexivity].
    unfold Cleaning.clean_product_name, PriorityScorer.map_to_ontology. cbn [option_map].
    now rewrite Hfix.
Qed.

(** ** The metrics of the store summary *)

Lemma replace_0_1_max (n : Z) : (0 <= n)%Z -> Appendix.replace_0_1 n = Z.max 1 n.
Proof.
  intros Hn. unfold Appendix.replace_0_1. destruct (Z.eqb_spec n 0); lia.
Qed.

Lemma Qdiv_nonneg (v n : Q) : (0 <= v)%Q -> (0 < n)%Q -> (0 <= v / n)%Q.
Proof. intros Hv Hn. apply Qle_shift_div_l; [assumption | lra]. Qed.

Lemma Qdiv_le_self (v n : Q) : (0 <= v)%Q -> (1 <= n)%Q -> (v / n <= v)%Q.
Proof.
  intros Hv Hn. apply Qle_shift_div_r; [lra|].
  assert (H : (0 <= v * (n - 1))%Q) by (apply Qmult_le_0_compat; lra). lra.
Qed.

(** X29.  The efficiency metrics of the store summary never divide by
    zero, a count of 0 being replaced by 1: for a store with a
    non-negative saved value and non-negative counts, all three metrics
    are defined, coverage_score is at most value_per_recipe and
    value_per_product, and both are at most the saved value.  With at most
    one planned recipe value_per_recipe is the saved value itself, and
    with at most one product to pick so is value_per_product. *)
Theorem summary_metrics_ordered :
  forall (r : Appendix.SummaryRow) (v : Q),
    Appendix.estimated_value_saved r = Some v ->
    (0 <= v)%Q ->
    (0 <= Appendix.recipes_planned r)%Z ->
    (0 <= Appendix.products_to_pick r)%Z ->
    exists a b c,
      Appendix.value_per_recipe r = Some a /\
      Appendix.value_per_product r = Some b /\
      Appendix.coverage_score r = Some c /\
      (0 <= c)%Q /\ (c <= a)%Q /\ (c <= b)%Q /\ (a <= v)%Q /\ (b <= v)%Q /\
      ((Appendix.recipes_planned r <= 1)%Z -> (a == v)%Q) /\
      ((Appendix.products_to_pick r <= 1)%Z -> (b == v)%Q).
Proof.
  intros r v Hv Hv0 Hn Hm.
  unfold Appendix.value_per_recipe, Appendix.value_per_product, Appendix.coverage_score,
    Appendix.per. rewrite Hv. cbn [option_map].
  rewrite (replace_0_1_max _ Hn), (replace_0_1_max _ Hm).
  set (n := Z.max 1 (Appendix.recipes_planned r)).
  set (m := Z.max 1 (Appendix.products_to_pick r)).
  assert (HN : (1 <= inject_Z n)%Q).
  { change 1%Q with (inject_Z 1). rewrite <- Zle_Qle. unfold n. lia. }
  assert (HM : (1 <= inject_Z m)%Q).
  { change 1%Q with (inject_Z 1). rewrite <- Zle_Qle. unfold m. lia. }
  do 3 eexists. split; [reflexivity|]. split; [reflexivity|]. split; [reflexivity|].
  rewrite inject_Z_mult.
  assert (Hone : forall k : Z, k = 1%Z -> (v / inject_Z k == v)%Q).
  { intros k ->. change (inject_Z 1) with 1%Q. field. }
  split; [|split; [|split; [|split; [|split; [|split]]]]];
    [| | | | |intros H; apply Hone; unfold n; lia|intros H; apply Hone; unfold m; lia].
  all: set (N := inject_Z n) in *; set (M := inject_Z m) in *.
  all: assert (HNM : (0 < N * M)%Q) by (apply Qmult_lt_0_compat; lra).
  all: assert (Hc : (0 <= v / (N * M))%Q) by (apply Qdiv_nonneg; assumption).
  all: assert (Ha : (v / N == v / (N * M) * M)%Q) by (field; split; lra).
  all: assert (Hb : (v / M == v / (N * M) * N)%Q) by (field; split; lra).
  all: assert (HcM : (0 <= v / (N * M) * (M - 1))%Q) by (apply Qmult_le_0_compat; lra).
  all: assert (HcN : (0 <= v / (N * M) * (N - 1))%Q) by (apply Qmult_le_0_compat; lra).
  - assumption.
  - lra.
  - lra.
  - now apply Qdiv_le_self.
  - now apply Qdiv_le_self.
Qed.

Lemma summary_metrics_ordered_witness :
  Appendix.recipes_planned Samples.idle_store = 0%Z /\
  exists a b c,
    Appendix.value_per_recipe Samples.idle_store = Some a /\
    Appendix.value_per_product Samples.idle_store = Some b /\
    Appendix.coverage_score Samples.idle_store = Some c /\
    (0 <= c)%Q /\ (c <= a)%Q /\ (c <= b)%Q /\
    (a <= 1592 # 100)%Q /\ (b <= 1592 # 100)%Q /\
    ((Appendix.recipes_planned Samples.idle_store <= 1)%Z -> (a == 1592 # 100)%Q) /\
    ((Appendix.products_to_pick Samples.idle_store <= 1)%Z -> (b == 1592 # 100)%Q).
Proof.
  split; [reflexivity|].
  apply (summary_metrics_ordered Samples.idle_store (1592 # 100)).
  - reflexivity.
  - vm_compute. discriminate.
  - simpl. lia.
  - simpl. lia.
Defined.
